(** * stock-analysis-mvp: the request handler and the offline price fetcher

    A shallow embedding of [src/lambda_function.py] and
    [src/scripts/fetch_prices.py].

    - Module [Py] holds the fragment of Python the two files rely on:
      exceptions as a result type, binary64 floats (on [SpecFloat]),
      [str] as its UTF-8 bytes, parsed JSON values with the dynamic
      operations [in], [x[k]], [.get], [len], [float], and insertion-ordered
      dictionaries as association lists.
    - Module [Lambda] embeds [get_stock_price_yfinance_v8], [search_ticker]
      and [lambda_handler], without their [print] calls.
    - Module [Logged] embeds the same three functions with every [print] in
      its place; [handler_logged] relates the two.
    - Module [FetchPrices] embeds [fetch_data] and the script's exit code.

    Everything that comes from outside the program (the HTTP endpoints, the
    clock, the history library, the standard-library date formatting and the
    parser behind [float(str)]) is a field of an environment record, so every
    statement below quantifies over all of its behaviours.

    Conventions.  What the programs [print] is not modelled, only whether a
    [print] raises: the lines of lambda_function.py name the tickers of the
    request, which standard output may be unable to encode ([Logged]); the
    lines of fetch_prices.py format the script's own constants, numbers and
    messages of exceptions, and are left out.  The file the script writes is
    left out apart from its content.  In [Lambda] and [FetchPrices] a
    function whose body is a [try] is split into the body, which may raise,
    and the function itself, which cannot.  The handler returns, next to the response, the list of the
    calls it made to the Quote Fetcher and to the Ticker Search. *)

From Stdlib Require Import ZArith List String Ascii Bool Arith Lia.
From Stdlib Require Import Floats.SpecFloat.
From Stdlib Require Import Numbers.DecimalString Numbers.DecimalNat.
Import ListNotations.

Set Implicit Arguments.
Set Warnings "-register-all".

Module Py.

(** ** Exceptions

    Only the exceptions the two files can meet are listed.  [HTTPError] and
    [URLError] come from [urllib]; [DecodeError] stands for the [ValueError]
    subclasses raised by [bytes.decode] and [json.loads]; [SocketTimeout] for a
    socket timeout while reading; [UnicodeEncodeError] is what [print] raises
    when standard output cannot encode its text; all of them derive from
    [Exception]. *)
Inductive exn : Type :=
| TypeError
| AttributeError
| KeyError
| IndexError
| ValueError
| OverflowError
| ZeroDivisionError
| HTTPError (code : Z)
| URLError
| SocketTimeout
| DecodeError
| UnicodeEncodeError.

Inductive result (A : Type) : Type :=
| Ret (a : A)
| Raise (e : exn).

Arguments Ret {A} a.
Arguments Raise {A} e.

Definition bind {A B : Type} (r : result A) (k : A -> result B) : result B :=
  match r with
  | Ret a => k a
  | Raise e => Raise e
  end.

(** [try: body except Exception: handler] *)
Definition try_except {A : Type} (body : result A) (handler : exn -> A) : A :=
  match body with
  | Ret a => a
  | Raise e => handler e
  end.

Definition returns {A : Type} (r : result A) : bool :=
  match r with
  | Ret _ => true
  | Raise _ => false
  end.

Declare Scope py_scope.
Delimit Scope py_scope with py.
Notation "x <- e ;; k" := (bind e (fun x => k))
  (at level 61, e at next level, right associativity) : py_scope.

(** ** Floats: IEEE 754 binary64 *)

Definition float : Type := spec_float.

Definition prec : Z := 53.
Definition emax : Z := 1024.

Definition float_of_Z (z : Z) : float := binary_normalize prec emax z 0 false.

Definition fsub : float -> float -> float := SFsub prec emax.
Definition fmul : float -> float -> float := SFmul prec emax.
Definition fdiv : float -> float -> float := SFdiv prec emax.

Definition is_nan (x : float) : bool :=
  match x with
  | S754_nan => true
  | _ => false
  end.

Definition is_zero (x : float) : bool :=
  match x with
  | S754_zero _ => true
  | _ => false
  end.

Definition is_finite (x : float) : bool :=
  match x with
  | S754_zero _ | S754_finite _ _ _ => true
  | _ => false
  end.

(** [x > y] and [x < y] on floats: false whenever a NaN is involved. *)
Definition fgt (x y : float) : bool := SFltb y x.
Definition flt (x y : float) : bool := SFltb x y.

(** [x != y] on floats: true whenever a NaN is involved. *)
Definition fne (x y : float) : bool := negb (SFeqb x y).

(** [x / y] on Python floats raises on a zero divisor of either sign. *)
Definition truediv (x y : float) : result float :=
  if is_zero y then Raise ZeroDivisionError else Ret (fdiv x y).

(** [bool(x)] for a float. *)
Definition float_truthy (x : float) : bool := negb (is_zero x).

(** [n / d] rounded to the nearest integer, ties to even, for [0 <= n],
    [0 < d]. *)
Definition div_half_even (n d : Z) : Z :=
  let q := Z.div n d in
  let r := Z.modulo n d in
  match Z.compare (2 * r) d with
  | Lt => q
  | Gt => q + 1
  | Eq => if Z.even q then q else q + 1
  end.

(** [round(x, 2)].  CPython prints the exact binary value of [x] with two
    decimals, correctly rounded (ties to even), and reads the decimal string
    back as the nearest double; NaN and the infinities round to themselves and
    the sign of [x] is kept.  A finite [x = m * 2^e] with [0 <= e] is an
    integer and is returned as it is; otherwise [k] is the number of
    hundredths and the result is the correctly rounded quotient [k / 100]. *)
Definition round2 (x : float) : float :=
  match x with
  | S754_finite s m e =>
      if (0 <=? e)%Z then x
      else
        match div_half_even (100 * Zpos m) (Z.pow 2 (- e)) with
        | Zpos k => fdiv (S754_finite s k 0) (S754_finite false 100 0)
        | _ => S754_zero s
        end
  | _ => x
  end.

(** [max(l)] and [min(l)]: the first element is the running extremum and a
    later element replaces it only when strictly greater (smaller). *)
Fixpoint max_from (cur : float) (l : list float) : float :=
  match l with
  | [] => cur
  | x :: t => max_from (if fgt x cur then x else cur) t
  end.

Fixpoint min_from (cur : float) (l : list float) : float :=
  match l with
  | [] => cur
  | x :: t => min_from (if flt x cur then x else cur) t
  end.

Definition py_max (l : list float) : result float :=
  match l with
  | [] => Raise ValueError
  | x :: t => Ret (max_from x t)
  end.

Definition py_min (l : list float) : result float :=
  match l with
  | [] => Raise ValueError
  | x :: t => Ret (min_from x t)
  end.

(** Numbers as the summaries hold them: the handler stores the [int] 0 or a
    rounded float in [year_change_pct]. *)
Inductive number : Type :=
| NInt (z : Z)
| NFloat (f : float).

(** [a == b] between an [int] and a [float] compares the exact values. *)
Definition int_float_eqb (z : Z) (f : float) : bool :=
  match f with
  | S754_zero _ => (z =? 0)%Z
  | S754_finite s m e =>
      let v := if s then Zneg m else Zpos m in
      if (0 <=? e)%Z then (z =? v * Z.pow 2 e)%Z
      else (z * Z.pow 2 (- e) =? v)%Z
  | _ => false
  end.

Definition num_eqb (a b : number) : bool :=
  match a, b with
  | NInt x, NInt y => (x =? y)%Z
  | NInt x, NFloat f => int_float_eqb x f
  | NFloat f, NInt y => int_float_eqb y f
  | NFloat f, NFloat g => SFeqb f g
  end.

(** ** Strings

    A Python [str] is held as its UTF-8 encoding.  Every character the
    program looks for (the comma, the dot and the letter of the market
    suffix) is ASCII, and UTF-8 never uses an ASCII byte inside a longer
    sequence, so the byte-level search agrees with the code-point one. *)

Local Open Scope string_scope.

(** [s.endswith(suf)]: some suffix of [s] is [suf]. *)
Fixpoint endswith (s suf : string) : bool :=
  String.eqb s suf
  || match s with
     | EmptyString => false
     | String _ t => endswith t suf
     end.

(** [s.split(',')]: never empty, one more piece than there are commas. *)
Fixpoint split_comma (s : string) : list string :=
  match s with
  | EmptyString => [EmptyString]
  | String c t =>
      if Ascii.eqb c ","%char then EmptyString :: split_comma t
      else
        match split_comma t with
        | h :: r => String c h :: r
        | [] => [String c EmptyString]
        end
  end.

(** Continuation bytes of UTF-8 are [10xxxxxx]. *)
Definition is_continuation (c : ascii) : bool :=
  let n := nat_of_ascii c in (128 <=? n)%nat && (n <? 192)%nat.

Definition starts_with_continuation (s : string) : bool :=
  match s with
  | String d _ => is_continuation d
  | EmptyString => false
  end.

(** The code points of a string, each as its own byte sequence: a byte joins
    the group that follows it when that group starts with a continuation
    byte. *)
Fixpoint chars (s : string) : list string :=
  match s with
  | EmptyString => []
  | String c t =>
      match chars t with
      | first :: rest =>
          if starts_with_continuation t then String c first :: rest
          else String c EmptyString :: first :: rest
      | [] => [String c EmptyString]
      end
  end.

Definition bytes (l : list nat) : string :=
  string_of_list_ascii (map ascii_of_nat l).

(** The code points [str.isspace] accepts, which are the ones [str.strip()]
    removes: U+0009..U+000D, U+001C..U+0020, U+0085, U+00A0, U+1680,
    U+2000..U+200A, U+2028, U+2029, U+202F, U+205F and U+3000. *)
Definition whitespace : list string :=
  map bytes
    [ [9]; [10]; [11]; [12]; [13]; [28]; [29]; [30]; [31]; [32];
      [194; 133]; [194; 160]; [225; 154; 128];
      [226; 128; 128]; [226; 128; 129]; [226; 128; 130]; [226; 128; 131];
      [226; 128; 132]; [226; 128; 133]; [226; 128; 134]; [226; 128; 135];
      [226; 128; 136]; [226; 128; 137]; [226; 128; 138];
      [226; 128; 168]; [226; 128; 169]; [226; 128; 175];
      [226; 129; 159]; [227; 128; 128] ]%nat.

Definition isspace (ch : string) : bool :=
  existsb (String.eqb ch) whitespace.

Fixpoint dropwhile {A : Type} (p : A -> bool) (l : list A) : list A :=
  match l with
  | [] => []
  | x :: t => if p x then dropwhile p t else l
  end.

(** [s.strip()] *)
Definition strip (s : string) : string :=
  String.concat EmptyString
    (rev (dropwhile isspace (rev (dropwhile isspace (chars s))))).

(** ** Standard output

    A [str] may hold lone surrogates, the code points U+D800 to U+DFFF
    ([json.loads] reads the escape [\ud800] as one), and UTF-8 has no
    encoding for them.  In the byte sequences of this development such a code
    point is written the way [surrogatepass] writes it: the byte 0xED, a byte
    from 0xA0 to 0xBF and a continuation byte. *)
Definition is_surrogate (ch : string) : bool :=
  match ch with
  | String a (String b _) =>
      ((nat_of_ascii a =? 237) && (160 <=? nat_of_ascii b))%nat
  | _ => false
  end.

(** [s.encode('utf-8')] does not raise. *)
Definition encodable (s : string) : bool :=
  forallb (fun ch => negb (is_surrogate ch)) (chars s).

(** [print(f"...")] on a standard output that is UTF-8 with strict errors,
    the default of the interpreter: the line is written, or
    [UnicodeEncodeError] is raised when the text cannot be encoded.  [pieces]
    are the strings the f-string formats into the line; its literal parts,
    the numbers and the messages of exceptions ([str(e)], [e.reason]: CPython
    writes the offending characters of a message escaped) can always be
    encoded.  What is written is not modelled. *)
Definition print (pieces : list string) : result unit :=
  if forallb encodable pieces then Ret tt else Raise UnicodeEncodeError.

(** [str(n)] for a non-negative [int]. *)
Definition str_of_nat (n : nat) : string :=
  NilZero.string_of_uint (Nat.to_uint n).

(** [urllib.parse.quote(s)] for a [str] that can be encoded: the UTF-8 bytes
    of [s], of which the letters, the digits and [_.-~/] stay and every other
    byte becomes [%XX] with two upper-case hexadecimal digits.  (On a [str]
    that holds a lone surrogate, see [encodable], [quote] raises; in
    [search_ticker] that happens inside the [try].) *)
Definition always_safe (c : ascii) : bool :=
  let n := nat_of_ascii c in
  ((65 <=? n) && (n <=? 90) || (97 <=? n) && (n <=? 122)
   || (48 <=? n) && (n <=? 57))%nat
  || existsb (Ascii.eqb c) ["_"; "."; "-"; "~"]%char.

Definition hex_digit (n : nat) : ascii :=
  nth n (list_ascii_of_string "0123456789ABCDEF") "0"%char.

Fixpoint quote (s : string) : string :=
  match s with
  | EmptyString => EmptyString
  | String c t =>
      if always_safe c || Ascii.eqb c "/"%char then String c (quote t)
      else
        let n := nat_of_ascii c in
        String "%"
          (String (hex_digit (n / 16))
             (String (hex_digit (n mod 16)) (quote t)))
  end.

(** ** Insertion-ordered dictionaries

    A [dict] is the list of its items in insertion order; keys are compared
    with a boolean equality.  [d[k] = v] keeps the position of an existing
    key and appends a new one. *)
Section Dict.
Variables (K V : Type) (keq : K -> K -> bool).

Fixpoint dict_get (d : list (K * V)) (k : K) : option V :=
  match d with
  | [] => None
  | (k', v) :: t => if keq k' k then Some v else dict_get t k
  end.

Fixpoint dict_set (d : list (K * V)) (k : K) (v : V) : list (K * V) :=
  match d with
  | [] => [(k, v)]
  | (k', v') :: t =>
      if keq k' k then (k', v) :: t else (k', v') :: dict_set t k v
  end.

Definition dict_mem (d : list (K * V)) (k : K) : bool :=
  match dict_get d k with
  | Some _ => true
  | None => false
  end.

Definition dict_keys (d : list (K * V)) : list K := map fst d.

(** [{**d1, **d2}]: the items of [d2] written into [d1] one by one. *)
Definition dict_update (d1 d2 : list (K * V)) : list (K * V) :=
  fold_left (fun d kv => dict_set d (fst kv) (snd kv)) d2 d1.
End Dict.

(** ** Parsed JSON

    What [json.loads] returns: [None], [bool], [int], [float] (the parser
    also accepts [NaN], [Infinity] and exponents that overflow to an
    infinity), [str], [list] and [dict] with string keys. *)
Inductive json : Type :=
| JNull
| JBool (b : bool)
| JInt (z : Z)
| JFloat (f : float)
| JStr (s : string)
| JArr (l : list json)
| JObj (kv : list (string * json)).

Definition jget (kv : list (string * json)) (k : string) : option json :=
  dict_get String.eqb kv k.

(** [bool(v)] *)
Definition truthy (v : json) : bool :=
  match v with
  | JNull => false
  | JBool b => b
  | JInt z => negb (z =? 0)%Z
  | JFloat f => float_truthy f
  | JStr s => negb (String.eqb s EmptyString)
  | JArr l => match l with [] => false | _ => true end
  | JObj kv => match kv with [] => false | _ => true end
  end.

(** [v is None] *)
Definition is_none (v : json) : bool :=
  match v with
  | JNull => true
  | _ => false
  end.

(** [v == s] for a string literal [s]: only a [str] can equal it. *)
Definition eq_str (v : json) (s : string) : bool :=
  match v with
  | JStr t => String.eqb t s
  | _ => false
  end.

(** [v in l] for a list [l] of string literals. *)
Definition in_strs (v : json) (l : list string) : bool :=
  existsb (eq_str v) l.

Definition has_substring (needle s : string) : bool :=
  match String.index 0 needle s with
  | Some _ => true
  | None => false
  end.

(** [k in v] for a string literal [k]: key membership in a [dict], element
    membership in a [list], substring test on a [str]; anything else is not
    iterable. *)
Definition py_in (k : string) (v : json) : result bool :=
  match v with
  | JObj kv => Ret (dict_mem String.eqb kv k)
  | JArr l => Ret (existsb (fun x => eq_str x k) l)
  | JStr s => Ret (has_substring k s)
  | _ => Raise TypeError
  end.

(** [v[k]] for a string literal [k]. *)
Definition getitem_key (v : json) (k : string) : result json :=
  match v with
  | JObj kv =>
      match jget kv k with
      | Some x => Ret x
      | None => Raise KeyError
      end
  | _ => Raise TypeError
  end.

(** [v[i]] for an index [0 <= i]: an element of a [list], a one-character
    [str]; a parsed [dict] has string keys only. *)
Definition getitem_idx (v : json) (i : nat) : result json :=
  match v with
  | JArr l =>
      match nth_error l i with
      | Some x => Ret x
      | None => Raise IndexError
      end
  | JStr s =>
      match nth_error (chars s) i with
      | Some c => Ret (JStr c)
      | None => Raise IndexError
      end
  | JObj _ => Raise KeyError
  | _ => Raise TypeError
  end.

(** [v.get(k, default)]: only a [dict] has the method. *)
Definition py_get (v : json) (k : string) (default : json) : result json :=
  match v with
  | JObj kv =>
      match jget kv k with
      | Some x => Ret x
      | None => Ret default
      end
  | _ => Raise AttributeError
  end.

(** [len(v)] *)
Definition py_len (v : json) : result nat :=
  match v with
  | JArr l => Ret (List.length l)
  | JStr s => Ret (List.length (chars s))
  | JObj kv => Ret (List.length kv)
  | _ => Raise TypeError
  end.

(** [float(z)] for an [int]: the nearest double, or [OverflowError]. *)
Definition float_of_int (z : Z) : result float :=
  match float_of_Z z with
  | S754_infinity _ => Raise OverflowError
  | f => Ret f
  end.

(** [float(v)].  The parser behind [float(str)] is the caller's
    [float_of_str]. *)
Definition py_float (float_of_str : string -> result float) (v : json)
  : result float :=
  match v with
  | JFloat f => Ret f
  | JInt z => float_of_int z
  | JBool b => Ret (float_of_Z (if b then 1 else 0))
  | JStr s => float_of_str s
  | _ => Raise TypeError
  end.

(** [for x in v]: the elements of a [list], the characters of a [str], the
    keys of a [dict]. *)
Definition py_iter (v : json) : result (list json) :=
  match v with
  | JArr l => Ret l
  | JStr s => Ret (map JStr (chars s))
  | JObj kv => Ret (map (fun p => JStr (fst p)) kv)
  | _ => Raise TypeError
  end.

(** [l[0]] and [l[-1]] on a Python list of floats. *)
Definition first (l : list float) : result float :=
  match l with
  | [] => Raise IndexError
  | x :: _ => Ret x
  end.

Definition last (l : list float) : result float :=
  match rev l with
  | [] => Raise IndexError
  | x :: _ => Ret x
  end.

End Py.

(** * [src/lambda_function.py] *)
Module Lambda.
Import Py.
Local Open Scope string_scope.
Local Open Scope list_scope.
Local Open Scope py_scope.

(** What [json.loads(urlopen(request, timeout).read().decode('utf-8'))]
    comes to: an exception ([HTTPError] for a non-2xx status, [URLError] for a
    transport failure, [SocketTimeout], [DecodeError] for bytes that are not
    UTF-8 or not JSON) or the parsed document. *)
Inductive http_outcome : Type :=
| HttpFail (e : exn)
| HttpJson (data : json).

(** The world around one invocation.
    - [chart_api ticker interval]: the chart endpoint, asked for ten years of
      [ticker] at [interval];
    - [search_api q]: the search endpoint, asked for [q];
    - [strftime_jst ts intraday]: [datetime.fromtimestamp(ts, tz=utc)
      .astimezone(JST).strftime(fmt)] with [fmt] the date-and-minute format
      when [intraday] and the date format otherwise; it raises when [ts] is
      not a number or is out of range;
    - [float_of_str]: the parser behind [float(s)] for a [str];
    - [now_isoformat], [now_strftime]: [now_jst.isoformat()] and
      [now_jst.strftime('%Y-%m-%d %H:%M:%S')]. *)
Record env : Type := {
  chart_api : string -> json -> http_outcome;
  search_api : string -> http_outcome;
  strftime_jst : json -> bool -> result string;
  float_of_str : string -> result float;
  now_isoformat : string;
  now_strftime : string
}.

Record price_point : Type := {
  time : string;
  value : float
}.

(** The dict [get_stock_price_yfinance_v8] returns. *)
Record stock_data : Type := {
  data : list price_point;
  current_price : float;
  year_high : float;
  year_low : float;
  year_change_pct : number;
  data_points : nat;
  short_name : json
}.

(** [interval in ['15m', '30m', '60m']] *)
Definition intraday (interval : json) : bool :=
  in_strs interval ["15m"; "30m"; "60m"].

(** Lines 65-85: the loop over [range(len(timestamps))], with the two lists
    it appends to. *)
Fixpoint chart_loop (E : env) (interval timestamps prices : json)
    (idx : list nat) (chart_data : list price_point)
    (valid_prices : list float)
  : result (list price_point * list float) :=
  match idx with
  | [] => Ret (chart_data, valid_prices)
  | i :: rest =>
      n <- py_len prices ;;
      if (n <=? i)%nat then
        chart_loop E interval timestamps prices rest chart_data valid_prices
      else
        p <- getitem_idx prices i ;;
        if is_none p then
          chart_loop E interval timestamps prices rest chart_data valid_prices
        else
          ts <- getitem_idx timestamps i ;;
          date <- strftime_jst E ts (intraday interval) ;;
          price <- py_float (float_of_str E) p ;;
          chart_loop E interval timestamps prices rest
            (chart_data ++ [{| time := date; value := price |}])
            (valid_prices ++ [price])
  end.

(** Line 98: [round(((v[-1] - v[0]) / v[0]) * 100, 2) if len(v) > 1 else 0] *)
Definition change_pct (valid_prices : list float) : result number :=
  if (1 <? List.length valid_prices)%nat then
    l <- last valid_prices ;;
    f <- first valid_prices ;;
    q <- truediv (fsub l f) f ;;
    Ret (NFloat (round2 (fmul q (float_of_Z 100))))
  else Ret (NInt 0).

(** Lines 93-101: the returned dict, its values evaluated in order. *)
Definition summarise (chart_data : list price_point)
    (valid_prices : list float) (short_name : json) : result stock_data :=
  cur <- last valid_prices ;;
  hi <- py_max valid_prices ;;
  lo <- py_min valid_prices ;;
  pct <- change_pct valid_prices ;;
  Ret {| data := chart_data;
         current_price := cur;
         year_high := hi;
         year_low := lo;
         year_change_pct := pct;
         data_points := List.length chart_data;
         short_name := short_name |}.

(** Lines 37-59: the checks on the parsed document and the way down to the
    display name, the timestamps and the close prices; [Ret None] is an
    explicit [return None]. *)
Definition chart_arrays (ticker : string) (data : json)
  : result (option (json * json * json)) :=
  has_chart <- py_in "chart" data ;;
  if negb has_chart then Ret None
  else
    chart <- getitem_key data "chart" ;;
    has_result <- py_in "result" chart ;;
    if negb has_result then Ret None
    else
      chart' <- getitem_key data "chart" ;;
      result <- getitem_key chart' "result" ;;
      if negb (truthy result) then Ret None
      else
        n <- py_len result ;;
        if (n =? 0)%nat then Ret None
        else
          quote <- getitem_idx result 0 ;;
          meta <- py_get quote "meta" (JObj []) ;;
          short_name <- py_get meta "shortName" (JStr ticker) ;;
          timestamps <- py_get quote "timestamp" (JArr []) ;;
          indicators <- py_get quote "indicators" (JObj []) ;;
          quotes <- py_get indicators "quote" (JArr [JObj []]) ;;
          quote0 <- getitem_idx quotes 0 ;;
          prices <- py_get quote0 "close" (JArr []) ;;
          if negb (truthy timestamps) || negb (truthy prices) then Ret None
          else Ret (Some (short_name, timestamps, prices)).

(** Lines 61-101: the point sequence and the returned dict. *)
Definition series (E : env) (interval short_name timestamps prices : json)
  : result (option stock_data) :=
  nts <- py_len timestamps ;;
  st <- chart_loop E interval timestamps prices (seq 0 nts) [] [] ;;
  let '(chart_data, valid_prices) := st in
  match valid_prices with
  | [] => Ret None
  | _ =>
      sd <- summarise chart_data valid_prices short_name ;;
      Ret (Some sd)
  end.

(** Lines 35-101: the body of the [with] block. *)
Definition chart_body (E : env) (ticker : string) (interval data : json)
  : result (option stock_data) :=
  arrays <- chart_arrays ticker data ;;
  match arrays with
  | None => Ret None
  | Some (short_name, timestamps, prices) =>
      series E interval short_name timestamps prices
  end.

(** Lines 21-101: the body of the [try]. *)
Definition fetch_attempt (E : env) (ticker : string) (interval : json)
  : result (option stock_data) :=
  match chart_api E ticker interval with
  | HttpFail e => Raise e
  | HttpJson data => chart_body E ticker interval data
  end.

(** Lines 11-111, without the log lines ([Logged] has them).  The three
    [except] clauses differ in the line they log only. *)
Definition get_stock_price_yfinance_v8 (E : env) (ticker : string)
    (interval : json) : option stock_data :=
  try_except (fetch_attempt E ticker interval)
    (fun e =>
       match e with
       | HTTPError _ => None
       | URLError => None
       | _ => None
       end).

(** One entry of the search result list. *)
Record search_result : Type := {
  symbol : string;
  name : json;
  type : json;
  exchange : json
}.

(** Lines 135-143: one turn of the loop over [quotes]; [Ret None] when the
    quote is skipped. *)
Definition search_entry (quote : json) : result (option search_result) :=
  sym <- py_get quote "symbol" (JStr "") ;;
  match sym with
  | JStr s =>
      if endswith s ".T" then
        long <- py_get quote "longname" sym ;;
        nm <- py_get quote "shortname" long ;;
        ty <- py_get quote "typeDisp" (JStr "Stock") ;;
        ex <- py_get quote "exchange" (JStr "") ;;
        Ret (Some {| symbol := s; name := nm; type := ty; exchange := ex |})
      else Ret None
  | _ => Raise AttributeError
  end.

Fixpoint search_loop (quotes : list json) (results : list search_result)
  : result (list search_result) :=
  match quotes with
  | [] => Ret results
  | quote :: rest =>
      r <- search_entry quote ;;
      match r with
      | Some entry => search_loop rest (results ++ [entry])
      | None => search_loop rest results
      end
  end.

(** Lines 129-145 *)
Definition search_body (data : json) : result (list search_result) :=
  quotes <- py_get data "quotes" (JArr []) ;;
  items <- py_iter quotes ;;
  search_loop items [].

(** Lines 119-120: the URL of the search request. *)
Definition search_url (query : string) : string :=
  "https://query2.finance.yahoo.com/v1/finance/search?q=" ++ quote query
  ++ "&quotesCount=10&newsCount=0&enableFuzzyQuery=true"
  ++ "&quotesQueryId=tss_match_phrase_query".

(** Lines 119-145: the body of the [try].  [urllib.parse.quote] accepts a
    [str] only. *)
Definition search_attempt (E : env) (query : json)
  : result (list search_result) :=
  match query with
  | JStr q =>
      match search_api E q with
      | HttpFail e => Raise e
      | HttpJson data => search_body data
      end
  | _ => Raise TypeError
  end.

(** Lines 114-149 *)
Definition search_ticker (E : env) (query : json) : list search_result :=
  try_except (search_attempt E query) (fun _ => []).

(** ** The request handler *)

Inductive call : Type :=
| FetchCall (ticker : string) (interval : json)
| SearchCall (query : json).

(** One value of [result["stocks"]]:
    [{"name": ..., "ticker": ..., **stock_data}] *)
Record stock_entry : Type := {
  entry_name : json;
  entry_ticker : string;
  entry_stock : stock_data
}.

Record summary : Type := {
  total_tickers : nat;
  successful : nat;
  failed : nat;
  failed_tickers : list string
}.

Record batch_result : Type := {
  updated_at : string;
  updated_at_jst : string;
  timezone : string;
  stocks : list (string * stock_entry);
  batch_summary : summary
}.

(** The dict handed to [json.dumps(..., ensure_ascii=False)]. *)
Inductive payload : Type :=
| ErrorPayload (error : string)
| SearchPayload (results : list search_result) (query : json)
    (updated : string)
| StockPayload (ticker : string) (display_name : json) (stock : stock_data)
    (updated : string)
| BatchPayload (result : batch_result).

Inductive body_text : Type :=
| Raw (s : string)
| JsonDumps (p : payload).

Record response : Type := {
  statusCode : Z;
  headers : list (string * string);
  body : body_text
}.

Definition cors_headers : list (string * string) :=
  [ ("Access-Control-Allow-Origin", "*");
    ("Access-Control-Allow-Headers",
     "Content-Type,X-Amz-Date,Authorization,X-Api-Key,X-Amz-Security-Token");
    ("Access-Control-Allow-Methods", "GET,OPTIONS,POST");
    ("Access-Control-Max-Age", "86400") ].

Definition valid_intervals : list string :=
  ["15m"; "30m"; "60m"; "1d"; "1wk"; "1mo"].

(** The default ticker dict of lines 284-290. *)
Definition TICKERS : list (string * string) :=
  [ ("7203.T", "トヨタ自動車");
    ("6758.T", "ソニーグループ");
    ("9984.T", "ソフトバンクグループ");
    ("6861.T", "キーエンス");
    ("8306.T", "三菱UFJ") ].

(** [{**cors_headers, k1: v1, ...}] *)
Definition with_cors (extra : list (string * string))
  : list (string * string) :=
  dict_update String.eqb cors_headers extra.

Definition content_type : string * string :=
  ("Content-Type", "application/json; charset=utf-8").

Definition cache_control : string * string :=
  ("Cache-Control", "public, max-age=300").

(** The error responses all have the same shape. *)
Definition error_response (status : Z) (msg : string) : response :=
  {| statusCode := status;
     headers := with_cors [content_type];
     body := JsonDumps (ErrorPayload msg) |}.

Definition interval_error : string :=
  "無効なintervalです。有効な値: " ++ String.concat ", " valid_intervals.

(** Lines 233-234 and 279-280:
    [if not t.endswith('.T'): t = t + '.T'] *)
Definition normalize_ticker (t : string) : string :=
  if negb (endswith t ".T") then t ++ ".T" else t.

(** [now_jst.strftime('%Y-%m-%d %H:%M:%S JST')] *)
Definition now_jst_label (E : env) : string := now_strftime E ++ " JST".

(** Line 276:
    [[t.strip() for t in tickers_param.split(',') if t.strip()]] *)
Definition ticker_list (tickers_param : string) : list string :=
  map strip
    (filter (fun t => negb (String.eqb (strip t) EmptyString))
       (split_comma tickers_param)).

(** Lines 277-281: the dict keyed by the normalized tickers. *)
Definition tickers_of (l : list string) : list (string * string) :=
  fold_left
    (fun d t => let t := normalize_ticker t in dict_set String.eqb d t t)
    l [].

(** Lines 308-321: the loop over [TICKERS.items()].  The state is the
    [stocks] dict, the summary and the calls made so far. *)
Definition batch_step (E : env) (interval : json)
    (st : list (string * stock_entry) * summary * list call)
    (item : string * string)
  : list (string * stock_entry) * summary * list call :=
  let '(stocks, sm, calls) := st in
  let '(ticker, name) := item in
  match get_stock_price_yfinance_v8 E ticker interval with
  | Some stock_data =>
      (dict_set String.eqb stocks ticker
         {| entry_name := short_name stock_data;
            entry_ticker := ticker;
            entry_stock := stock_data |},
       {| total_tickers := total_tickers sm;
          successful := successful sm + 1;
          failed := failed sm;
          failed_tickers := failed_tickers sm |},
       calls ++ [FetchCall ticker interval])
  | None =>
      (stocks,
       {| total_tickers := total_tickers sm;
          successful := successful sm;
          failed := failed sm + 1;
          failed_tickers := failed_tickers sm ++ [ticker] |},
       calls ++ [FetchCall ticker interval])
  end.

Definition batch_loop (E : env) (interval : json)
    (tickers : list (string * string))
  : list (string * stock_entry) * summary * list call :=
  fold_left (batch_step E interval) tickers
    ([], {| total_tickers := List.length tickers;
            successful := 0;
            failed := 0;
            failed_tickers := [] |}, []).

(** Line 173 *)
Definition http_method_of (event : json) : result json :=
  m <- py_get event "httpMethod" JNull ;;
  if truthy m then Ret m
  else
    rc <- py_get event "requestContext" (JObj []) ;;
    http <- py_get rc "http" (JObj []) ;;
    py_get http "method" JNull.

(** Line 183 *)
Definition query_params_of (event : json) : result json :=
  q <- py_get event "queryStringParameters" JNull ;;
  Ret (if truthy q then q else JObj []).

(** Lines 187-209 *)
Definition search_route (E : env) (query_params : json)
  : result (response * list call) :=
  search_query <- py_get query_params "q" (JStr "") ;;
  if negb (truthy search_query) then
    Ret (error_response 400 "検索クエリが必要です", [])
  else
    let results := search_ticker E search_query in
    Ret ({| statusCode := 200;
            headers := with_cors [content_type; cache_control];
            body := JsonDumps
                      (SearchPayload results search_query
                         (now_jst_label E)) |},
         [SearchCall search_query]).

(** Lines 212-258 *)
Definition get_stock_route (E : env) (query_params : json)
  : result (response * list call) :=
  ticker <- py_get query_params "ticker" (JStr "") ;;
  interval <- py_get query_params "interval" (JStr "1d") ;;
  if negb (in_strs interval valid_intervals) then
    Ret (error_response 400 interval_error, [])
  else if negb (truthy ticker) then
    Ret (error_response 400 "銘柄コードが必要です", [])
  else
    match ticker with
    | JStr t =>
        let ticker := normalize_ticker t in
        match get_stock_price_yfinance_v8 E ticker interval with
        | Some stock_data =>
            Ret ({| statusCode := 200;
                    headers := with_cors [content_type; cache_control];
                    body := JsonDumps
                              (StockPayload ticker (short_name stock_data)
                                 stock_data (now_jst_label E)) |},
                 [FetchCall ticker interval])
        | None =>
            Ret (error_response 404
                   ("銘柄 " ++ ticker ++ " のデータを取得できませんでした"),
                 [FetchCall ticker interval])
        end
    | _ => Raise AttributeError
    end.

(** Lines 260-340 *)
Definition get_stocks_route (E : env) (query_params : json)
  : result (response * list call) :=
  tickers_param <- py_get query_params "tickers" (JStr "") ;;
  interval <- py_get query_params "interval" (JStr "1d") ;;
  if negb (in_strs interval valid_intervals) then
    Ret (error_response 400 interval_error, [])
  else
    tickers <-
      (if truthy tickers_param then
         match tickers_param with
         | JStr s => Ret (tickers_of (ticker_list s))
         | _ => Raise AttributeError
         end
       else Ret TICKERS) ;;
    let '(stocks, sm, calls) := batch_loop E interval tickers in
    Ret ({| statusCode := if (0 <? successful sm)%nat then 200 else 500;
            headers :=
              with_cors
                [ content_type; cache_control;
                  ("X-Request-Time-JST", now_strftime E);
                  ("X-Success-Count", str_of_nat (successful sm));
                  ("X-Failed-Count", str_of_nat (failed sm)) ];
            body := JsonDumps
                      (BatchPayload
                         {| updated_at := now_isoformat E;
                            updated_at_jst := now_jst_label E;
                            timezone := "Asia/Tokyo (UTC+9)";
                            stocks := stocks;
                            batch_summary := sm |}) |},
         calls).

(** Lines 152-340, without the log lines ([Logged] has them).  The second
    component lists the calls to the Quote Fetcher and to the Ticker Search,
    in order. *)
Definition lambda_handler (E : env) (event : json)
  : result (response * list call) :=
  http_method <- http_method_of event ;;
  if eq_str http_method "OPTIONS" then
    Ret ({| statusCode := 200;
            headers := cors_headers;
            body := Raw EmptyString |}, [])
  else
    query_params <- query_params_of event ;;
    action <- py_get query_params "action" (JStr "get_stocks") ;;
    if eq_str action "search" then search_route E query_params
    else if eq_str action "get_stock" then get_stock_route E query_params
    else get_stocks_route E query_params.

End Lambda.

(** * The handler with its log lines

    [Lambda] leaves the [print] calls of lambda_function.py out.  They write
    to standard output and change no value; but a [print] whose text cannot
    be encoded raises, and the tickers of a request are formatted into
    several lines.  This module embeds the same three functions with every
    [print] in its place. *)
Module Logged.
Import Py Lambda.
Local Open Scope string_scope.
Local Open Scope list_scope.
Local Open Scope py_scope.

(** What [f"{v}"] puts into a line for a parsed JSON value, up to text that
    can always be encoded: a [str] is put as it is; [str()] of anything else
    writes numbers and names, and writes the strings inside a list or a dict
    in [repr] form, lone surrogates escaped. *)
Definition formatted (v : json) : string :=
  match v with
  | JStr s => s
  | _ => EmptyString
  end.

(** Lines 11-111.  Each of the four [return None] of the [try] body (lines
    40, 45, 59, 89) comes right after a [print] of a line that names the
    ticker; the summary is returned after line 91, which names the ticker and
    the interval.  (Line 91 runs before the dict of lines 93-101 is built;
    an exception of either one ends in the same clause, [except Exception],
    so the order does not show.)  A [print] of the body that raises is caught
    by [except Exception], like every exception of the body; the [print] of
    an [except] clause is not inside any [try]. *)
Definition get_stock_price_yfinance_v8 (E : env) (ticker : string)
    (interval : json) : result (option stock_data) :=
  let body :=
    r <- fetch_attempt E ticker interval ;;
    match r with
    | None =>
        _ <- print [ticker] ;;
        Ret None
    | Some stock_data =>
        _ <- print [ticker; formatted interval] ;;
        Ret (Some stock_data)
    end in
  match body with
  | Ret r => Ret r
  | Raise (HTTPError _) =>
      _ <- print [ticker] ;;
      Ret None
  | Raise URLError =>
      _ <- print [ticker] ;;
      Ret None
  | Raise _ =>
      _ <- print [ticker] ;;
      Ret None
  end.

(** Lines 114-149.  Line 148 formats [str(e)] only. *)
Definition search_ticker (E : env) (query : json)
  : result (list search_result) :=
  match search_attempt E query with
  | Ret results => Ret results
  | Raise _ =>
      _ <- print [] ;;
      Ret []
  end.

(** Lines 308-321: one turn of the loop over [TICKERS.items()]. *)
Definition batch_step (E : env) (interval : json)
    (st : list (string * stock_entry) * summary * list call)
    (item : string * string)
  : result (list (string * stock_entry) * summary * list call) :=
  let '(stocks, sm, calls) := st in
  let '(ticker, name) := item in
  _ <- print [ticker; name] ;;
  stock_data <- get_stock_price_yfinance_v8 E ticker interval ;;
  match stock_data with
  | Some stock_data =>
      Ret (dict_set String.eqb stocks ticker
             {| entry_name := short_name stock_data;
                entry_ticker := ticker;
                entry_stock := stock_data |},
           {| total_tickers := total_tickers sm;
              successful := successful sm + 1;
              failed := failed sm;
              failed_tickers := failed_tickers sm |},
           calls ++ [FetchCall ticker interval])
  | None =>
      Ret (stocks,
           {| total_tickers := total_tickers sm;
              successful := successful sm;
              failed := failed sm + 1;
              failed_tickers := failed_tickers sm ++ [ticker] |},
           calls ++ [FetchCall ticker interval])
  end.

Fixpoint batch_turns (E : env) (interval : json)
    (items : list (string * string))
    (st : list (string * stock_entry) * summary * list call)
  : result (list (string * stock_entry) * summary * list call) :=
  match items with
  | [] => Ret st
  | item :: rest =>
      st' <- batch_step E interval st item ;;
      batch_turns E interval rest st'
  end.

Definition batch_loop (E : env) (interval : json)
    (tickers : list (string * string))
  : result (list (string * stock_entry) * summary * list call) :=
  batch_turns E interval tickers
    ([], {| total_tickers := List.length tickers;
            successful := 0;
            failed := 0;
            failed_tickers := [] |}, []).

(** Lines 187-209 *)
Definition search_route (E : env) (query_params : json)
  : result (response * list call) :=
  search_query <- py_get query_params "q" (JStr "") ;;
  if negb (truthy search_query) then
    Ret (error_response 400 "検索クエリが必要です", [])
  else
    results <- search_ticker E search_query ;;
    Ret ({| statusCode := 200;
            headers := with_cors [content_type; cache_control];
            body := JsonDumps
                      (SearchPayload results search_query
                         (now_jst_label E)) |},
         [SearchCall search_query]).

(** Lines 212-258 *)
Definition get_stock_route (E : env) (query_params : json)
  : result (response * list call) :=
  ticker <- py_get query_params "ticker" (JStr "") ;;
  interval <- py_get query_params "interval" (JStr "1d") ;;
  if negb (in_strs interval valid_intervals) then
    Ret (error_response 400 interval_error, [])
  else if negb (truthy ticker) then
    Ret (error_response 400 "銘柄コードが必要です", [])
  else
    match ticker with
    | JStr t =>
        let ticker := normalize_ticker t in
        stock_data <- get_stock_price_yfinance_v8 E ticker interval ;;
        match stock_data with
        | Some stock_data =>
            Ret ({| statusCode := 200;
                    headers := with_cors [content_type; cache_control];
                    body := JsonDumps
                              (StockPayload ticker (short_name stock_data)
                                 stock_data (now_jst_label E)) |},
                 [FetchCall ticker interval])
        | None =>
            Ret (error_response 404
                   ("銘柄 " ++ ticker ++ " のデータを取得できませんでした"),
                 [FetchCall ticker interval])
        end
    | _ => Raise AttributeError
    end.

(** Lines 260-340.  Line 292 formats a number; lines 323-325 format numbers;
    line 327 formats the failed tickers. *)
Definition get_stocks_route (E : env) (query_params : json)
  : result (response * list call) :=
  tickers_param <- py_get query_params "tickers" (JStr "") ;;
  interval <- py_get query_params "interval" (JStr "1d") ;;
  if negb (in_strs interval valid_intervals) then
    Ret (error_response 400 interval_error, [])
  else
    tickers <-
      (if truthy tickers_param then
         match tickers_param with
         | JStr s => Ret (tickers_of (ticker_list s))
         | _ => Raise AttributeError
         end
       else Ret TICKERS) ;;
    _ <- print [] ;;
    st <- batch_loop E interval tickers ;;
    let '(stocks, sm, calls) := st in
    _ <- print [] ;;
    _ <- print [] ;;
    _ <- print [] ;;
    _ <- match failed_tickers sm with
         | [] => Ret tt
         | _ => print (failed_tickers sm)
         end ;;
    Ret ({| statusCode := if (0 <? successful sm)%nat then 200 else 500;
            headers :=
              with_cors
                [ content_type; cache_control;
                  ("X-Request-Time-JST", now_strftime E);
                  ("X-Success-Count", str_of_nat (successful sm));
                  ("X-Failed-Count", str_of_nat (failed sm)) ];
            body := JsonDumps
                      (BatchPayload
                         {| updated_at := now_isoformat E;
                            updated_at_jst := now_jst_label E;
                            timezone := "Asia/Tokyo (UTC+9)";
                            stocks := stocks;
                            batch_summary := sm |}) |},
         calls).

(** Lines 152-340.  Line 158 prints a literal and line 159 the event as
    [json.dumps] writes it, which is ASCII. *)
Definition lambda_handler (E : env) (event : json)
  : result (response * list call) :=
  _ <- print [] ;;
  _ <- print [] ;;
  http_method <- http_method_of event ;;
  if eq_str http_method "OPTIONS" then
    _ <- print [] ;;
    Ret ({| statusCode := 200;
            headers := cors_headers;
            body := Raw EmptyString |}, [])
  else
    query_params <- query_params_of event ;;
    action <- py_get query_params "action" (JStr "get_stocks") ;;
    if eq_str action "search" then search_route E query_params
    else if eq_str action "get_stock" then get_stock_route E query_params
    else get_stocks_route E query_params.

End Logged.

(** * [src/scripts/fetch_prices.py] *)
Module FetchPrices.
Import Py.
Local Open Scope string_scope.
Local Open Scope list_scope.
Local Open Scope py_scope.

Definition TICKERS : list (string * string) :=
  [ ("7203.T", "トヨタ自動車");
    ("6758.T", "ソニーグループ");
    ("9984.T", "ソフトバンクグループ");
    ("6861.T", "キーエンス");
    ("8306.T", "三菱UFJ") ].

(** One row of the history frame: [index.strftime('%Y-%m-%d')] and
    [row['Close']]. *)
Definition row : Type := (string * float)%type.

(** One call [stock.history(period="1y")]: an exception or a frame, which is
    [empty] when it has no row. *)
Inductive hist_outcome : Type :=
| HistRaise (e : exn)
| HistFrame (rows : list row).

(** [history ticker attempt] is what the library answers at the given
    attempt (0, 1, 2) for the given ticker. *)
Record env : Type := {
  history : string -> nat -> hist_outcome;
  now_isoformat : string
}.

Record price_point : Type := {
  time : string;
  value : float
}.

Record stock_entry : Type := {
  name : string;
  ticker : string;
  data : list price_point;
  current_price : float;
  year_high : float;
  year_low : float;
  year_change_pct : float;
  data_points : nat
}.

Record summary : Type := {
  total_tickers : nat;
  successful : nat;
  failed : nat;
  failed_tickers : list string
}.

(** The document written to [data/stock_data.json]. *)
Record report : Type := {
  updated_at : string;
  stocks : list (string * stock_entry);
  report_summary : summary
}.

Definition empty (rows : list row) : bool :=
  match rows with
  | [] => true
  | _ => false
  end.

(** Lines 31-39: up to three attempts; an attempt that raises leaves [hist]
    as it was, a non-empty frame ends the loop. *)
Fixpoint retry (h : nat -> hist_outcome) (attempts : list nat)
    (hist : option (list row)) : option (list row) :=
  match attempts with
  | [] => hist
  | attempt :: rest =>
      match h attempt with
      | HistRaise _ => retry h rest hist
      | HistFrame rows =>
          if negb (empty rows) then Some rows
          else retry h rest (Some rows)
      end
  end.

(** Lines 47-56: rows whose close is falsy or is not equal to itself are
    skipped. *)
Fixpoint rows_loop (rows : list row) (chart_data : list price_point)
  : list price_point :=
  match rows with
  | [] => chart_data
  | (date, close) :: rest =>
      if negb (float_truthy close) || fne close close then
        rows_loop rest chart_data
      else
        rows_loop rest (chart_data ++ [{| time := date; value := close |}])
  end.

(** Lines 64-79: the statistics and the stored dict. *)
Definition summarise (name ticker : string) (chart_data : list price_point)
  : result stock_entry :=
  let prices := map value chart_data in
  current_price <- last prices ;;
  year_high <- py_max prices ;;
  year_low <- py_min prices ;;
  p0 <- first prices ;;
  q <- truediv (fsub current_price p0) p0 ;;
  let year_change := fmul q (float_of_Z 100) in
  Ret {| name := name;
         ticker := ticker;
         data := chart_data;
         current_price := current_price;
         year_high := year_high;
         year_low := year_low;
         year_change_pct := round2 year_change;
         data_points := List.length chart_data |}.

(** Lines 26-81, the body of the [try]: [Ret None] is one of the two
    [failed_tickers.append(ticker); continue] exits. *)
Definition process (E : env) (ticker name : string)
  : result (option stock_entry) :=
  match retry (history E ticker) (seq 0 3) None with
  | None => Ret None
  | Some rows =>
      if empty rows then Ret None
      else
        match rows_loop rows [] with
        | [] => Ret None
        | chart_data =>
            entry <- summarise name ticker chart_data ;;
            Ret (Some entry)
        end
  end.

(** Lines 25-86: one turn of the loop over [TICKERS.items()]; the state is
    [result["stocks"]] and [failed_tickers]. *)
Definition step (E : env)
    (st : list (string * stock_entry) * list string)
    (item : string * string)
  : list (string * stock_entry) * list string :=
  let '(stocks, failed_tickers) := st in
  let '(ticker, name) := item in
  match try_except (process E ticker name) (fun _ => None) with
  | Some entry => (dict_set String.eqb stocks ticker entry, failed_tickers)
  | None => (stocks, failed_tickers ++ [ticker])
  end.

(** Lines 16-112, over any ticker dict. *)
Definition fetch_data_over (tickers : list (string * string)) (E : env)
  : report * bool :=
  let '(stocks, failed_tickers) := fold_left (step E) tickers ([], []) in
  ({| updated_at := now_isoformat E;
      stocks := stocks;
      report_summary :=
        {| total_tickers := List.length tickers;
           successful := List.length stocks;
           failed := List.length failed_tickers;
           failed_tickers := failed_tickers |} |},
   (0 <? List.length stocks)%nat).

Definition fetch_data : env -> report * bool := fetch_data_over TICKERS.


End FetchPrices.

(** * Vocabulary of the statements *)
Module Req.
Import Py Lambda.
Local Open Scope string_scope.
Local Open Scope list_scope.

(** [query_params.get(k, default)] on a dict of parameters. *)
Definition qparam (qp : list (string * json)) (k : string) (default : json)
  : json :=
  match jget qp k with
  | Some v => v
  | None => default
  end.

(** The event is not a preflight request and its query parameters are the
    dict [qp] (the empty one when the event has none). *)
Definition routed (event : json) (qp : list (string * json)) : Prop :=
  exists m,
    http_method_of event = Ret m
    /\ eq_str m "OPTIONS" = false
    /\ query_params_of event = Ret (JObj qp).

Definition action_of (qp : list (string * json)) : json :=
  qparam qp "action" (JStr "get_stocks").

Definition interval_of (qp : list (string * json)) : json :=
  qparam qp "interval" (JStr "1d").

Definition on_search (qp : list (string * json)) : Prop :=
  eq_str (action_of qp) "search" = true.

Definition on_get_stock (qp : list (string * json)) : Prop :=
  eq_str (action_of qp) "search" = false
  /\ eq_str (action_of qp) "get_stock" = true.

Definition on_default (qp : list (string * json)) : Prop :=
  eq_str (action_of qp) "search" = false
  /\ eq_str (action_of qp) "get_stock" = false.

(** A GET event as the gateway builds it. *)
Definition get_event (qp : list (string * json)) : json :=
  JObj [("httpMethod", JStr "GET"); ("queryStringParameters", JObj qp)].

(** The ticker dict the default route works on. *)
Definition batch_tickers (qp : list (string * json))
  : list (string * string) :=
  match qparam qp "tickers" (JStr "") with
  | JStr s =>
      if String.eqb s EmptyString then TICKERS else tickers_of (ticker_list s)
  | _ => TICKERS
  end.

(** Whether the Quote Fetcher returns a dict for the ticker. *)
Definition fetched (E : env) (interval : json) (ticker : string) : bool :=
  match get_stock_price_yfinance_v8 E ticker interval with
  | Some _ => true
  | None => false
  end.

(** The state the batch loop starts from, for a dict of [n] tickers. *)
Definition batch_init (n : nat)
  : list (string * stock_entry) * summary * list call :=
  ([], {| total_tickers := n;
          successful := 0;
          failed := 0;
          failed_tickers := [] |}, []).

(** A [tickers] parameter the default route can work with: a [str], or a
    falsy value (the default dict is used then). *)
Definition str_or_falsy (v : json) : bool :=
  match v with
  | JStr _ => true
  | _ => negb (truthy v)
  end.

(** The response of the default route for the final state of the loop. *)
Definition batch_response (E : env)
    (st : list (string * stock_entry) * summary * list call)
  : response * list call :=
  let '(stocks, sm, calls) := st in
  ({| statusCode := if (0 <? successful sm)%nat then 200%Z else 500%Z;
      headers :=
        with_cors
          [ content_type; cache_control;
            ("X-Request-Time-JST", now_strftime E);
            ("X-Success-Count", str_of_nat (successful sm));
            ("X-Failed-Count", str_of_nat (failed sm)) ];
      body := JsonDumps
                (BatchPayload
                   {| updated_at := now_isoformat E;
                      updated_at_jst := now_jst_label E;
                      timezone := "Asia/Tokyo (UTC+9)";
                      stocks := stocks;
                      batch_summary := sm |}) |},
   calls).

(** Whether the offline fetcher stores an entry for the item. *)
Definition stored (E : FetchPrices.env) (item : string * string) : bool :=
  match try_except (FetchPrices.process E (fst item) (snd item))
          (fun _ => None) with
  | Some _ => true
  | None => false
  end.

(** ** Sample inputs

    A chart document of the provider's shape, and a world in which the chart
    endpoint knows one ticker: five daily closes 100, 105, 95, 110, 108. *)
Definition chart_document (meta : json) (timestamps closes : list json)
  : json :=
  JObj
    [ ("chart",
       JObj
         [ ("result",
            JArr
              [ JObj
                  [ ("meta", meta);
                    ("timestamp", JArr timestamps);
                    ("indicators",
                     JObj [("quote", JArr [JObj [("close", JArr closes)]])])
                  ] ]);
           ("error", JNull) ]) ].

Definition sample_closes : list json :=
  map JInt [100; 105; 95; 110; 108]%Z.

Definition sample_timestamps : list json :=
  map JInt [1704067200; 1704153600; 1704240000; 1704326400; 1704412800]%Z.

Definition sample_search : json :=
  JObj
    [ ("quotes",
       JArr
         [ JObj [ ("symbol", JStr "7203.T"); ("shortname", JStr "TOYOTA");
                  ("longname", JStr "Toyota Motor Corporation");
                  ("typeDisp", JStr "Equity"); ("exchange", JStr "JPX") ];
           JObj [ ("symbol", JStr "TM"); ("shortname", JStr "Toyota ADR") ];
           JObj [ ("symbol", JStr "7211.T");
                  ("longname", JStr "Mitsubishi Motors") ];
           JObj [ ("symbol", JStr "7201.T") ] ]) ].

(** The sample world takes a timestamp to be well-formed when it is an
    [int], and renders it by the name of the format used. *)
Definition sample_env : env :=
  {| chart_api :=
       fun ticker _ =>
         if String.eqb ticker "7203.T" then
           HttpJson
             (chart_document (JObj [("shortName", JStr "TOYOTA MOTOR CORP")])
                sample_timestamps sample_closes)
         else HttpFail (HTTPError 404);
     search_api := fun _ => HttpJson sample_search;
     strftime_jst :=
       fun ts minute =>
         match ts with
         | JInt _ => Ret (if minute then "%Y-%m-%d %H:%M" else "%Y-%m-%d")
         | _ => Raise TypeError
         end;
     float_of_str := fun _ => Raise ValueError;
     now_isoformat := "2024-01-05T09:00:00+09:00";
     now_strftime := "2024-01-05 09:00:00" |}.

(** A world of the offline fetcher in which the first ticker answers at the
    third attempt and the others never do. *)
Definition sample_history : FetchPrices.env :=
  {| FetchPrices.history :=
       fun ticker attempt =>
         if String.eqb ticker "7203.T" then
           if Nat.eqb attempt 2 then
             FetchPrices.HistFrame
               [ ("2024-01-01", float_of_Z 100);
                 ("2024-01-02", S754_nan);
                 ("2024-01-03", float_of_Z 108) ]
           else FetchPrices.HistRaise SocketTimeout
         else FetchPrices.HistFrame [];
     FetchPrices.now_isoformat := "2024-01-05T09:00:00" |}.

(** ** Headers *)

(** [response['headers'].get(k)] *)
Definition header (r : response) (k : string) : option string :=
  dict_get String.eqb (headers r) k.

(** The response carries every CORS header with its value. *)
Definition carries_cors (r : response) : Prop :=
  forall k v, In (k, v) cors_headers -> header r k = Some v.

Definition json_content_type (r : response) : Prop :=
  header r "Content-Type" = Some "application/json; charset=utf-8".

(** ** Search *)

(** The symbol of an upstream quote, when it is a dict with a string under
    ["symbol"]. *)
Definition symbol_of (quote : json) : option string :=
  match quote with
  | JObj kv =>
      match qparam kv "symbol" (JStr "") with
      | JStr s => Some s
      | _ => None
      end
  | _ => None
  end.

(** The entry the search keeps for a quote [kv] with symbol [s]. *)
Definition kept_entry (kv : list (string * json)) (s : string)
  : search_result :=
  {| symbol := s;
     name := qparam kv "shortname" (qparam kv "longname" (JStr s));
     type := qparam kv "typeDisp" (JStr "Stock");
     exchange := qparam kv "exchange" (JStr "") |}.

(** What the search makes of a list of quotes that are all dicts with a
    string symbol. *)
Fixpoint kept (quotes : list json) : list search_result :=
  match quotes with
  | [] => []
  | JObj kv :: rest =>
      match qparam kv "symbol" (JStr "") with
      | JStr s => if endswith s ".T" then kept_entry kv s :: kept rest
                  else kept rest
      | _ => kept rest
      end
  | _ :: rest => kept rest
  end.

(** ** Prices *)

(** A valid price: a finite float. *)
Definition valid_price (f : float) : bool := is_finite f.

(** The price a close entry of the document stands for: a JSON number that
    [float] turns into a float other than NaN. *)
Definition price_of (p : json) : option float :=
  match p with
  | JFloat f => if is_nan f then None else Some f
  | JInt z =>
      match float_of_int z with
      | Ret f => if is_nan f then None else Some f
      | Raise _ => None
      end
  | _ => None
  end.

(** The prices of the valid entries of a close array, in order. *)
Definition prices_in (ps : list json) : list float :=
  flat_map (fun p => match price_of p with
                     | Some f => [f]
                     | None => []
                     end) ps.

(** The handler's loop seen as a walk down the two arrays side by side. *)
Fixpoint pair_loop (E : env) (interval : json) (ts ps : list json)
    (chart_data : list price_point) (valid_prices : list float)
  : result (list price_point * list float) :=
  match ts, ps with
  | t :: ts', p :: ps' =>
      if is_none p then pair_loop E interval ts' ps' chart_data valid_prices
      else
        bind (strftime_jst E t (intraday interval))
          (fun date =>
             bind (py_float (float_of_str E) p)
               (fun price =>
                  pair_loop E interval ts' ps'
                    (chart_data ++ [{| time := date; value := price |}])
                    (valid_prices ++ [price])))
  | _, _ => Ret (chart_data, valid_prices)
  end.

(** [m] is a greatest (least) element of [l] for the order of the floats. *)
Definition is_max_of (m : float) (l : list float) : Prop :=
  In m l /\ forall v, In v l -> SFleb v m = true.

Definition is_min_of (m : float) (l : list float) : Prop :=
  In m l /\ forall v, In v l -> SFleb m v = true.

(** A world whose chart endpoint answers every request with [doc], with the
    sample rendering of timestamps. *)
Definition world_of (doc : json) : env :=
  {| chart_api := fun _ _ => HttpJson doc;
     search_api := fun _ => HttpFail URLError;
     strftime_jst := strftime_jst sample_env;
     float_of_str := float_of_str sample_env;
     now_isoformat := now_isoformat sample_env;
     now_strftime := now_strftime sample_env |}.

(** A world of the offline fetcher whose library answers every call with the
    frame [rows]. *)
Definition frame_of (rows : list FetchPrices.row) : FetchPrices.env :=
  {| FetchPrices.history := fun _ _ => FetchPrices.HistFrame rows;
     FetchPrices.now_isoformat := "2024-01-05T09:00:00" |}.

(** The rows the offline fetcher keeps. *)
Definition kept_row (r : FetchPrices.row) : bool :=
  negb (negb (float_truthy (snd r)) || fne (snd r) (snd r)).

Definition point_of_row (r : FetchPrices.row) : FetchPrices.price_point :=
  {| FetchPrices.time := fst r; FetchPrices.value := snd r |}.

(** [a] and the float [b] are the same float, or equal as numbers. *)
Definition same_number (a : number) (b : float) : Prop :=
  a = NFloat b \/ num_eqb a (NFloat b) = true.

(** The five statistics of a router summary and of an offline entry agree. *)
Definition same_statistics (sd : stock_data) (entry : FetchPrices.stock_entry)
  : Prop :=
  current_price sd = FetchPrices.current_price entry
  /\ year_high sd = FetchPrices.year_high entry
  /\ year_low sd = FetchPrices.year_low entry
  /\ same_number (year_change_pct sd) (FetchPrices.year_change_pct entry)
  /\ data_points sd = FetchPrices.data_points entry.

(** ** URLs *)

(** The value of an upper-case hexadecimal digit. *)
Definition hex_value (c : ascii) : option nat :=
  let n := nat_of_ascii c in
  if ((48 <=? n) && (n <=? 57))%nat then Some (n - 48)
  else if ((65 <=? n) && (n <=? 70))%nat then Some (n - 55)
  else None.

(** The server's reading of a percent-encoded string: [%XX] is one byte. *)
Fixpoint unquote (s : string) : string :=
  match s with
  | EmptyString => EmptyString
  | String c rest =>
      match rest with
      | String a (String b t) =>
          if Ascii.eqb c "%"%char then
            match hex_value a, hex_value b with
            | Some x, Some y => String (ascii_of_nat (16 * x + y)) (unquote t)
            | _, _ => String c (unquote rest)
            end
          else String c (unquote rest)
      | _ => String c (unquote rest)
      end
  end.

(** The characters that separate or delimit the parameters of a URL. *)
Definition url_delimiter (c : ascii) : bool :=
  existsb (Ascii.eqb c) ["&"; "="; "?"; "#"; " "; "+"; ";"]%char.

Fixpoint string_forall (p : ascii -> bool) (s : string) : bool :=
  match s with
  | EmptyString => true
  | String c t => p c && string_forall p t
  end.

(** ** Events *)

(** Every value of the dict is a string. *)
Definition string_params (qp : list (string * json)) : Prop :=
  Forall (fun kv => exists s, snd kv = JStr s) qp.

(** An event as the REST gateway builds it: a dict with the method as a
    non-empty string under ["httpMethod"], and with the query parameters
    absent, null, or a dict of strings. *)
Definition gateway_event (event : json) : Prop :=
  exists ev m,
    event = JObj ev
    /\ jget ev "httpMethod" = Some (JStr m)
    /\ m <> EmptyString
    /\ (jget ev "queryStringParameters" = None
        \/ jget ev "queryStringParameters" = Some JNull
        \/ exists qp,
             jget ev "queryStringParameters" = Some (JObj qp)
             /\ string_params qp).

(** ** The shape of a response *)

(** What the body of a response tells about its status and about the calls
    made for it. *)
Definition well_shaped (E : env) (r : response) (calls : list call) : Prop :=
  match body r with
  | Raw s => s = EmptyString /\ statusCode r = 200%Z /\ calls = []
  | JsonDumps (ErrorPayload _) =>
      (statusCode r = 400%Z /\ calls = [])
      \/ (statusCode r = 404%Z
          /\ exists t i,
               calls = [FetchCall t i]
               /\ get_stock_price_yfinance_v8 E t i = None)
  | JsonDumps (SearchPayload results q _) =>
      statusCode r = 200%Z
      /\ calls = [SearchCall q]
      /\ results = search_ticker E q
  | JsonDumps (StockPayload t n sd _) =>
      statusCode r = 200%Z
      /\ n = short_name sd
      /\ exists i,
           calls = [FetchCall t i]
           /\ get_stock_price_yfinance_v8 E t i = Some sd
  | JsonDumps (BatchPayload b) =>
      (statusCode r = 200%Z /\ 0 < successful (batch_summary b))
      \/ (statusCode r = 500%Z /\ successful (batch_summary b) = 0)
  end.

(** The cache header a response of that body carries. *)
Definition cache_policy (r : response) : option string :=
  match body r with
  | Raw _ => None
  | JsonDumps (ErrorPayload _) => None
  | JsonDumps _ => Some "public, max-age=300"
  end.

(** ** The batch document *)


(** A call the handler may make: a fetch of a ticker that ends with the
    market suffix at one of the six intervals, or a search of a truthy
    query. *)
Definition permitted_call (c : call) : Prop :=
  match c with
  | FetchCall t i =>
      endswith t ".T" = true /\ in_strs i valid_intervals = true
  | SearchCall q => truthy q = true
  end.

(** ** The point sequence *)

(** The (timestamp, close) pairs the loop of lines 65-85 turns into points:
    the positions both arrays have, without those whose close is null. *)
Definition priced_pairs (ts ps : list json) : list (json * json) :=
  filter (fun tp => negb (is_none (snd tp))) (combine ts ps).

(** The point [pt] is what lines 70-85 make of the pair [tp]. *)
Definition point_of_pair (E : env) (interval : json) (pt : price_point)
    (tp : json * json) : Prop :=
  strftime_jst E (fst tp) (intraday interval) = Ret (time pt)
  /\ py_float (float_of_str E) (snd tp) = Ret (value pt).

(** ** The offline fetcher *)

(** An attempt that leaves the offline fetcher without rows: the library
    raised, or answered with an empty frame. *)
Definition no_rows (o : FetchPrices.hist_outcome) : bool :=
  match o with
  | FetchPrices.HistRaise _ => true
  | FetchPrices.HistFrame rows => FetchPrices.empty rows
  end.

(** What the offline fetcher stores for an item of its ticker dict, if
    anything. *)
Definition offline_entry (E : FetchPrices.env) (ticker name : string)
  : option FetchPrices.stock_entry :=
  try_except (FetchPrices.process E ticker name) (fun _ => None).

(** ** Ticker lists *)

(** [n] spaces. *)
Fixpoint spaces (n : nat) : string :=
  match n with
  | 0 => EmptyString
  | S k => String " " (spaces k)
  end.

(** A ticker written with letters, digits and [_.-~] only, and not empty. *)
Definition plain_ticker (t : string) : bool :=
  negb (String.eqb t EmptyString) && string_forall always_safe t.

(** One piece of a [tickers] parameter: a ticker with spaces around it. *)
Definition core (p : nat * string * nat) : string := snd (fst p).

Definition padded (p : nat * string * nat) : string :=
  spaces (fst (fst p)) ++ core p ++ spaces (snd p).

(** The string with one character. *)
Definition single (c : ascii) : string := String c EmptyString.

(** ** The CORS headers, spelled out *)

(** The response carries the four headers of lines 165-170 with the values
    given there. *)
Definition full_cors (r : response) : Prop :=
  header r "Access-Control-Allow-Origin" = Some "*"
  /\ header r "Access-Control-Allow-Headers"
     = Some
         "Content-Type,X-Amz-Date,Authorization,X-Api-Key,X-Amz-Security-Token"
  /\ header r "Access-Control-Allow-Methods" = Some "GET,OPTIONS,POST"
  /\ header r "Access-Control-Max-Age" = Some "86400".

(** The answer to a preflight request, lines 176-180. *)
Definition preflight_response : response :=
  {| statusCode := 200;
     headers :=
       [ ("Access-Control-Allow-Origin", "*");
         ("Access-Control-Allow-Headers",
          "Content-Type,X-Amz-Date,Authorization,X-Api-Key,X-Amz-Security-Token");
         ("Access-Control-Allow-Methods", "GET,OPTIONS,POST");
         ("Access-Control-Max-Age", "86400") ];
     body := Raw EmptyString |}.

(** ** Log lines *)

(** The ticker of a fetch can be encoded. *)
Definition call_encodable (c : call) : bool :=
  match c with
  | FetchCall t _ => encodable t
  | SearchCall _ => true
  end.

(** Every ticker the request asks for can be encoded, once normalized. *)
Definition tickers_encodable (qp : list (string * json)) : Prop :=
  (forall t, qparam qp "ticker" (JStr "") = JStr t ->
             encodable (normalize_ticker t) = true)
  /\ forallb encodable (dict_keys (batch_tickers qp)) = true.

(** The [str] ["\ud800"], a lone surrogate. *)
Definition lone_surrogate : string := bytes [237; 160; 128].

End Req.

(** * Properties *)

Import Py.
Local Open Scope string_scope.
Local Open Scope list_scope.

(** ** Strings *)

Lemma endswith_refl (s : string) : endswith s s = true.
Proof.
  destruct s; simpl; [reflexivity|].
  now rewrite Ascii.eqb_refl, String.eqb_refl.
Qed.

Lemma endswith_app (s suf : string) : endswith (s ++ suf) suf = true.
Proof.
  induction s as [|c s IH]; simpl.
  - apply endswith_refl.
  - rewrite IH. apply orb_true_r.
Qed.

Lemma normalize_ticker_suffix (t : string) :
  endswith (Lambda.normalize_ticker t) ".T" = true.
Proof.
  unfold Lambda.normalize_ticker.
  destruct (endswith t ".T") eqn:H; simpl; [exact H|apply endswith_app].
Qed.


(** ** Dictionaries *)
Section DictFacts.
Variables (K V : Type) (keq : K -> K -> bool).
Hypothesis keq_spec : forall a b, keq a b = true <-> a = b.

Lemma dict_get_none (d : list (K * V)) (k : K) :
  dict_get keq d k = None <-> ~ In k (dict_keys d).
Proof.
  induction d as [|[k' v] d IH]; simpl.
  - tauto.
  - destruct (keq k' k) eqn:E.
    + apply keq_spec in E. split; [discriminate|]. intros H. tauto.
    + rewrite IH. split; [|tauto]. intros H [H'|H']; [|tauto].
      apply keq_spec in H'. congruence.
Qed.

Lemma dict_keys_set (d : list (K * V)) (k : K) (v : V) :
  dict_keys (dict_set keq d k v)
  = if dict_mem keq d k then dict_keys d else dict_keys d ++ [k].
Proof.
  unfold dict_mem.
  induction d as [|[k' v'] d IH]; simpl; [reflexivity|].
  destruct (keq k' k) eqn:E; simpl; [reflexivity|].
  rewrite IH. now destruct (dict_get keq d k).
Qed.

Lemma dict_set_fresh (d : list (K * V)) (k : K) (v : V) :
  ~ In k (dict_keys d) -> dict_set keq d k v = d ++ [(k, v)].
Proof.
  induction d as [|[k' v'] d IH]; simpl; [reflexivity|].
  intros H. destruct (keq k' k) eqn:E.
  - apply keq_spec in E. tauto.
  - rewrite IH; tauto.
Qed.

Lemma dict_set_forall (P : K * V -> Prop) (d : list (K * V)) (k : K)
    (v : V) :
  Forall P d -> P (k, v) ->
  (forall k' v', keq k' k = true -> P (k', v') -> P (k', v)) ->
  Forall P (dict_set keq d k v).
Proof.
  intros Hd Hkv Hupd.
  induction Hd as [|[k' v'] d Hx Hd IH]; simpl.
  - now constructor.
  - destruct (keq k' k) eqn:E; constructor; eauto.
Qed.

Lemma dict_get_some (d : list (K * V)) (k : K) (v : V) :
  dict_get keq d k = Some v -> In k (dict_keys d).
Proof.
  induction d as [|[k' v'] d IH]; simpl; [discriminate|].
  destruct (keq k' k) eqn:E.
  - apply keq_spec in E. tauto.
  - intros H. right. now apply IH.
Qed.

Lemma dict_mem_in (d : list (K * V)) (k : K) :
  dict_mem keq d k = true <-> In k (dict_keys d).
Proof.
  unfold dict_mem. destruct (dict_get keq d k) eqn:E.
  - apply dict_get_some in E. tauto.
  - apply dict_get_none in E. split; [discriminate|tauto].
Qed.
End DictFacts.

Lemma string_eqb_spec' (a b : string) : String.eqb a b = true <-> a = b.
Proof. apply String.eqb_eq. Qed.

(** The keys of the dict built from a ticker list are the normalized
    tickers, each once. *)
Lemma tickers_of_keys (l : list string) :
  NoDup (dict_keys (Lambda.tickers_of l))
  /\ (forall k, In k (dict_keys (Lambda.tickers_of l))
                <-> In k (map Lambda.normalize_ticker l))
  /\ Forall (fun kv => snd kv = fst kv) (Lambda.tickers_of l).
Proof.
  unfold Lambda.tickers_of.
  induction l as [|t l IH] using rev_ind; simpl.
  - repeat split; try constructor; tauto.
  - rewrite fold_left_app. simpl.
    set (d := fold_left _ l []) in *.
    destruct IH as (ND & Hk & Hv).
    rewrite dict_keys_set, map_app. simpl.
    destruct (dict_mem String.eqb d (Lambda.normalize_ticker t)) eqn:M.
    + apply (@dict_mem_in _ _ _ string_eqb_spec') in M.
      split; [exact ND|]. split.
      * intros k. rewrite in_app_iff, Hk. simpl.
        split; [tauto|]. intros [H|[<-|[]]]; [exact H|]. now apply Hk.
      * apply dict_set_forall; [exact Hv|reflexivity|].
        intros k' v' E H. apply String.eqb_eq in E. simpl in *. congruence.
    + assert (N : ~ In (Lambda.normalize_ticker t) (dict_keys d)).
      { intros H. apply (@dict_mem_in _ _ _ string_eqb_spec') in H.
        congruence. }
      split.
      * apply NoDup_app; [exact ND | repeat constructor; simpl; tauto |].
        intros a Ha [<-|[]]. tauto.
      * split.
        -- intros k. rewrite !in_app_iff, Hk. tauto.
        -- rewrite (@dict_set_fresh _ _ _ string_eqb_spec'); [|exact N].
           apply Forall_app. split; [exact Hv|]. now repeat constructor.
Qed.

(** ** The batch loop of the handler *)

Lemma batch_fold_spec (E : Lambda.env) (i : json) (n : nat)
    (l : list (string * string)) :
  NoDup (dict_keys l) ->
  let '(stocks, sm, calls) :=
    fold_left (Lambda.batch_step E i) l (Req.batch_init n) in
  dict_keys stocks = filter (Req.fetched E i) (dict_keys l)
  /\ Lambda.successful sm
     = List.length (filter (Req.fetched E i) (dict_keys l))
  /\ Lambda.failed_tickers sm
     = filter (fun k => negb (Req.fetched E i k)) (dict_keys l)
  /\ Lambda.failed sm = List.length (Lambda.failed_tickers sm)
  /\ Lambda.total_tickers sm = n
  /\ calls = map (fun k => Lambda.FetchCall k i) (dict_keys l).
Proof.
  unfold dict_keys.
  induction l as [|[k nm] l IH] using rev_ind; intros ND.
  - simpl. repeat split; reflexivity.
  - rewrite map_app in *. simpl in ND.
    rewrite fold_left_app. simpl.
    assert (ND' : NoDup (map fst l)) by (now apply NoDup_app_remove_r in ND).
    specialize (IH ND').
    destruct (fold_left _ l _) as [[stocks sm] calls].
    destruct IH as (Hk & Hs & Hft & Hf & Ht & Hc).
    rewrite !filter_app, !map_app. simpl.
    destruct (Lambda.get_stock_price_yfinance_v8 E k i) as [sd|] eqn:F.
    + assert (Fk : Req.fetched E i k = true)
        by (unfold Req.fetched; now rewrite F).
      rewrite Fk. simpl.
      match goal with
      | |- map fst (dict_set _ _ _ ?e) = _ /\ _ =>
          pose proof (dict_keys_set String.eqb stocks k e) as DK
      end.
      unfold dict_keys in DK. rewrite DK. clear DK.
      assert (M : dict_mem String.eqb stocks k = false).
      { destruct (dict_mem String.eqb stocks k) eqn:M; [|reflexivity].
        apply (@dict_mem_in _ _ _ string_eqb_spec') in M.
        unfold dict_keys in M. rewrite Hk in M.
        apply filter_In in M. destruct M as [M _].
        apply NoDup_remove_2 in ND. rewrite app_nil_r in ND. tauto. }
      rewrite M, Hk, Hs, Hc, length_app, app_nil_r. simpl.
      repeat split; try reflexivity; try assumption.
    + assert (Fk : Req.fetched E i k = false)
        by (unfold Req.fetched; now rewrite F).
      rewrite Fk. simpl.
      rewrite Hk, Hs, Hc, Hf, <- Hft, !length_app, !app_nil_r. simpl.
      repeat split; try reflexivity; try assumption; lia.
Qed.

(** ** Routing *)

Lemma py_get_obj (qp : list (string * json)) (k : string) (d : json) :
  py_get (JObj qp) k d = Ret (Req.qparam qp k d).
Proof. unfold py_get, Req.qparam. now destruct (jget qp k). Qed.

Lemma handler_routed (E : Lambda.env) (event : json)
    (qp : list (string * json)) :
  Req.routed event qp ->
  Lambda.lambda_handler E event
  = if eq_str (Req.action_of qp) "search" then
      Lambda.search_route E (JObj qp)
    else if eq_str (Req.action_of qp) "get_stock" then
      Lambda.get_stock_route E (JObj qp)
    else Lambda.get_stocks_route E (JObj qp).
Proof.
  intros (m & Hm & Ho & Hq).
  unfold Lambda.lambda_handler. rewrite Hm. cbn [bind]. rewrite Ho, Hq.
  cbn [bind]. now rewrite py_get_obj.
Qed.

Lemma get_event_routed (qp : list (string * json)) :
  Req.routed (Req.get_event qp) qp.
Proof.
  exists (JStr "GET"). repeat split. now destruct qp.
Qed.

Lemma get_stocks_route_invalid (E : Lambda.env) (qp : list (string * json)) :
  in_strs (Req.interval_of qp) Lambda.valid_intervals = false ->
  Lambda.get_stocks_route E (JObj qp)
  = Ret (Lambda.error_response 400 Lambda.interval_error, []).
Proof.
  intros H. unfold Lambda.get_stocks_route. rewrite !py_get_obj. cbn [bind].
  fold (Req.interval_of qp). now rewrite H.
Qed.

Lemma get_stocks_route_valid (E : Lambda.env) (qp : list (string * json)) :
  in_strs (Req.interval_of qp) Lambda.valid_intervals = true ->
  Req.str_or_falsy (Req.qparam qp "tickers" (JStr "")) = true ->
  Lambda.get_stocks_route E (JObj qp)
  = Ret (Req.batch_response E
           (Lambda.batch_loop E (Req.interval_of qp) (Req.batch_tickers qp))).
Proof.
  intros H T. unfold Lambda.get_stocks_route, Req.batch_tickers.
  rewrite !py_get_obj. cbn [bind]. fold (Req.interval_of qp). rewrite H.
  cbn [negb].
  destruct (Req.qparam qp "tickers" (JStr "")) as [| | | |s| |] eqn:Q;
    simpl in *;
    try (apply negb_true_iff in T; rewrite T; simpl);
    try (now destruct (Lambda.batch_loop E (Req.interval_of qp) Lambda.TICKERS)
           as [[? ?] ?]).
  destruct (String.eqb s "") eqn:Es; simpl.
  - now destruct (Lambda.batch_loop E (Req.interval_of qp) Lambda.TICKERS)
      as [[? ?] ?].
  - now destruct (Lambda.batch_loop E (Req.interval_of qp)
                    (Lambda.tickers_of (Lambda.ticker_list s))) as [[? ?] ?].
Qed.

Lemma default_tickers_nodup : NoDup (dict_keys Lambda.TICKERS).
Proof.
  unfold dict_keys. simpl.
  repeat (constructor; [simpl; intuition discriminate|]). constructor.
Qed.

Lemma batch_tickers_nodup (qp : list (string * json)) :
  NoDup (dict_keys (Req.batch_tickers qp)).
Proof.
  unfold Req.batch_tickers.
  destruct (Req.qparam qp "tickers" (JStr "")); try apply default_tickers_nodup.
  destruct (String.eqb s ""); [apply default_tickers_nodup|].
  apply tickers_of_keys.
Qed.

(** The default route, once the interval is accepted: the response is built
    from the final state of the loop, which sorts the tickers of the dict
    into the fetched ones and the failed ones. *)
Lemma default_route_spec (E : Lambda.env) (qp : list (string * json)) :
  in_strs (Req.interval_of qp) Lambda.valid_intervals = true ->
  Req.str_or_falsy (Req.qparam qp "tickers" (JStr "")) = true ->
  exists stocks sm calls,
    Lambda.get_stocks_route E (JObj qp)
    = Ret (Req.batch_response E (stocks, sm, calls))
    /\ dict_keys stocks
       = filter (Req.fetched E (Req.interval_of qp))
           (dict_keys (Req.batch_tickers qp))
    /\ Lambda.successful sm
       = List.length (filter (Req.fetched E (Req.interval_of qp))
                        (dict_keys (Req.batch_tickers qp)))
    /\ Lambda.failed_tickers sm
       = filter (fun k => negb (Req.fetched E (Req.interval_of qp) k))
           (dict_keys (Req.batch_tickers qp))
    /\ Lambda.failed sm = List.length (Lambda.failed_tickers sm)
    /\ Lambda.total_tickers sm = List.length (Req.batch_tickers qp)
    /\ calls = map (fun k => Lambda.FetchCall k (Req.interval_of qp))
                 (dict_keys (Req.batch_tickers qp)).
Proof.
  intros Hi Ht.
  rewrite (get_stocks_route_valid E qp Hi Ht).
  pose proof (batch_fold_spec E (Req.interval_of qp)
                (List.length (Req.batch_tickers qp))
                (Req.batch_tickers qp) (batch_tickers_nodup qp)) as S.
  unfold Lambda.batch_loop. unfold Req.batch_init in S.
  destruct (fold_left _ _ _) as [[stocks sm] calls].
  now exists stocks, sm, calls.
Qed.

Lemma filter_length_split {A : Type} (f : A -> bool) (l : list A) :
  List.length (filter f l) + List.length (filter (fun x => negb (f x)) l)
  = List.length l.
Proof.
  induction l as [|x l IH]; simpl; [reflexivity|].
  destruct (f x); simpl; lia.
Qed.


(** ** The loop of the offline fetcher *)

Lemma offline_fold_spec (E : FetchPrices.env) (l : list (string * string)) :
  NoDup (dict_keys l) ->
  let '(stocks, failed_tickers) :=
    fold_left (FetchPrices.step E) l ([], []) in
  dict_keys stocks = map fst (filter (Req.stored E) l)
  /\ failed_tickers
     = map fst (filter (fun it => negb (Req.stored E it)) l).
Proof.
  unfold dict_keys.
  induction l as [|[k nm] l IH] using rev_ind; intros ND.
  - simpl. split; reflexivity.
  - rewrite map_app in ND. simpl in ND.
    rewrite fold_left_app. simpl.
    assert (ND' : NoDup (map fst l)) by (now apply NoDup_app_remove_r in ND).
    specialize (IH ND').
    destruct (fold_left _ l _) as [stocks failed].
    destruct IH as (Hk & Hf).
    rewrite !filter_app, !map_app. simpl.
    unfold Req.stored at 2 4. simpl.
    destruct (try_except (FetchPrices.process E k nm) (fun _ => None))
      as [entry|] eqn:F; simpl.
    + pose proof (dict_keys_set String.eqb stocks k entry) as DK.
      unfold dict_keys in DK. rewrite DK. clear DK.
      assert (M : dict_mem String.eqb stocks k = false).
      { destruct (dict_mem String.eqb stocks k) eqn:M; [|reflexivity].
        apply (@dict_mem_in _ _ _ string_eqb_spec') in M.
        unfold dict_keys in M. rewrite Hk in M.
        apply in_map_iff in M. destruct M as ([k' n'] & Hx & M).
        apply filter_In in M. destruct M as [M _]. simpl in Hx. subst k'.
        apply NoDup_remove_2 in ND. rewrite app_nil_r in ND.
        exfalso. apply ND. apply in_map_iff. now exists (k, n'). }
      rewrite M, Hk, Hf, app_nil_r. split; reflexivity.
    + rewrite Hk, Hf, app_nil_r. split; reflexivity.
Qed.

Lemma offline_tickers_nodup : NoDup (dict_keys FetchPrices.TICKERS).
Proof.
  unfold dict_keys. simpl.
  repeat (constructor; [simpl; intuition discriminate|]). constructor.
Qed.

(** ** What each route can answer *)

Lemma search_route_payload (E : Lambda.env) (q : json) (r : Lambda.response)
    (calls : list Lambda.call) (b : Lambda.batch_result) :
  Lambda.search_route E q = Ret (r, calls) ->
  Lambda.body r <> Lambda.JsonDumps (Lambda.BatchPayload b).
Proof.
  unfold Lambda.search_route.
  destruct (py_get q "q" (JStr "")) as [sq|]; cbn [bind]; [|discriminate].
  destruct (negb (truthy sq)); intros [= <- <-]; discriminate.
Qed.

Lemma get_stock_route_payload (E : Lambda.env) (q : json)
    (r : Lambda.response) (calls : list Lambda.call)
    (b : Lambda.batch_result) :
  Lambda.get_stock_route E q = Ret (r, calls) ->
  Lambda.body r <> Lambda.JsonDumps (Lambda.BatchPayload b).
Proof.
  unfold Lambda.get_stock_route.
  destruct (py_get q "ticker" (JStr "")) as [t|]; cbn [bind]; [|discriminate].
  destruct (py_get q "interval" (JStr "1d")) as [i|]; cbn [bind];
    [|discriminate].
  destruct (negb (in_strs i Lambda.valid_intervals));
    [intros [= <- <-]; discriminate|].
  destruct (negb (truthy t)); [intros [= <- <-]; discriminate|].
  destruct t; try discriminate.
  destruct (Lambda.get_stock_price_yfinance_v8 E _ i);
    intros [= <- <-]; discriminate.
Qed.

(** A batch payload comes from the default route, with an accepted interval
    and a usable [tickers] parameter. *)
Lemma batch_payload_origin (E : Lambda.env) (event : json)
    (qp : list (string * json)) (r : Lambda.response)
    (calls : list Lambda.call) (b : Lambda.batch_result) :
  Req.routed event qp ->
  Lambda.lambda_handler E event = Ret (r, calls) ->
  Lambda.body r = Lambda.JsonDumps (Lambda.BatchPayload b) ->
  Req.on_default qp
  /\ in_strs (Req.interval_of qp) Lambda.valid_intervals = true
  /\ Req.str_or_falsy (Req.qparam qp "tickers" (JStr "")) = true.
Proof.
  intros R H B. rewrite (handler_routed E R) in H. unfold Req.on_default.
  destruct (eq_str (Req.action_of qp) "search").
  { now apply search_route_payload with (b := b) in H. }
  destruct (eq_str (Req.action_of qp) "get_stock").
  { now apply get_stock_route_payload with (b := b) in H. }
  split; [split; reflexivity|].
  destruct (in_strs (Req.interval_of qp) Lambda.valid_intervals) eqn:I.
  - split; [reflexivity|].
    unfold Lambda.get_stocks_route in H. rewrite !py_get_obj in H.
    cbn [bind] in H. fold (Req.interval_of qp) in H. rewrite I in H.
    cbn [negb] in H.
    destruct (Req.qparam qp "tickers" (JStr "")); simpl in *;
      try reflexivity;
      match type of H with
      | context [if ?c then _ else _] => destruct c; simpl in *
      end; try reflexivity; discriminate.
  - rewrite (get_stocks_route_invalid E qp I) in H.
    injection H as <- <-. discriminate.
Qed.

(** ** C5: the outcome signal of a batch run *)



(** ** C10: the counters of a batch summary *)

(** C10.  Whenever the handler answers with a batch document, its summary
    satisfies [successful + failed = total_tickers] and [failed] is the
    length of [failed_tickers]; [total_tickers] is the number of keys of the
    ticker dict, which holds no key twice, and for a non-empty [tickers]
    parameter those keys are exactly the normalized entries of the
    comma-separated list, so that entries with the same normalized form count
    once.  The summary of the offline fetcher satisfies the same two
    equations over its five tickers. *)
Theorem C10_summary_counts :
  (forall (E : Lambda.env) (event : json) (qp : list (string * json))
          (r : Lambda.response) (calls : list Lambda.call)
          (b : Lambda.batch_result),
      Req.routed event qp ->
      Lambda.lambda_handler E event = Ret (r, calls) ->
      Lambda.body r = Lambda.JsonDumps (Lambda.BatchPayload b) ->
      let sm := Lambda.batch_summary b in
      let tickers := dict_keys (Req.batch_tickers qp) in
      Lambda.successful sm + Lambda.failed sm = Lambda.total_tickers sm
      /\ Lambda.failed sm = List.length (Lambda.failed_tickers sm)
      /\ Lambda.total_tickers sm = List.length tickers
      /\ NoDup tickers
      /\ (forall s,
             Req.qparam qp "tickers" (JStr "") = JStr s ->
             s <> EmptyString ->
             forall k,
               In k tickers
               <-> In k (map Lambda.normalize_ticker (Lambda.ticker_list s))))
  /\ (forall (E : Lambda.env),
         exists r calls b,
           Lambda.lambda_handler E
             (Req.get_event [("tickers", JStr "7203,7203.T, 7203 ,6758")])
           = Ret (r, calls)
           /\ Lambda.body r = Lambda.JsonDumps (Lambda.BatchPayload b)
           /\ Lambda.total_tickers (Lambda.batch_summary b) = 2)
  /\ (forall E : FetchPrices.env,
         let sm :=
           FetchPrices.report_summary (fst (FetchPrices.fetch_data E)) in
         FetchPrices.successful sm + FetchPrices.failed sm
         = FetchPrices.total_tickers sm
         /\ FetchPrices.failed sm = List.length (FetchPrices.failed_tickers sm)
         /\ FetchPrices.total_tickers sm = 5).
Proof.
  split; [|split].
  - intros E event qp r calls b R H B.
    destruct (batch_payload_origin E R H B) as ([A1 A2] & Hi & Ht).
    destruct (default_route_spec E qp Hi Ht)
      as (stocks & sm & calls' & Hr & Hk & Hs & Hft & Hf & Htot & Hc).
    rewrite (handler_routed E R), A1, A2, Hr in H.
    unfold Req.batch_response in H. injection H as <- <-.
    cbn [Lambda.body] in B. injection B as <-.
    cbn [Lambda.batch_summary]. cbn zeta.
    assert (Len : List.length (dict_keys (Req.batch_tickers qp))
                  = List.length (Req.batch_tickers qp))
      by (unfold dict_keys; apply length_map).
    pose proof (filter_length_split (Req.fetched E (Req.interval_of qp))
                  (dict_keys (Req.batch_tickers qp))) as L.
    split; [rewrite Hf, Hft, Hs, Htot; lia|].
    split; [exact Hf|].
    split; [rewrite Htot; now rewrite Len|].
    split; [apply batch_tickers_nodup|].
    intros s Q Ne k. unfold Req.batch_tickers. rewrite Q.
    apply String.eqb_neq in Ne. rewrite Ne.
    apply tickers_of_keys.
  - intros E.
    destruct (default_route_spec E [("tickers", JStr "7203,7203.T, 7203 ,6758")]
                eq_refl eq_refl)
      as (stocks & sm & calls & Hr & _ & _ & _ & _ & Htot & _).
    rewrite (handler_routed E (get_event_routed _)).
    change (eq_str (Req.action_of [("tickers", JStr "7203,7203.T, 7203 ,6758")])
              "search") with false.
    change (eq_str (Req.action_of [("tickers", JStr "7203,7203.T, 7203 ,6758")])
              "get_stock") with false.
    cbv iota. rewrite Hr. unfold Req.batch_response.
    eexists _, calls, _. split; [reflexivity|]. split; [reflexivity|].
    exact Htot.
  - intros E. unfold FetchPrices.fetch_data, FetchPrices.fetch_data_over.
    pose proof (offline_fold_spec E FetchPrices.TICKERS offline_tickers_nodup)
      as S.
    destruct (fold_left _ _ _) as [stocks failed]. destruct S as [Hk Hf].
    cbn [fst FetchPrices.report_summary FetchPrices.successful
           FetchPrices.failed FetchPrices.total_tickers
           FetchPrices.failed_tickers].
    repeat split.
    rewrite <- (length_map fst stocks). fold (dict_keys stocks).
    rewrite Hk, Hf, !length_map.
    apply (filter_length_split (Req.stored E) FetchPrices.TICKERS).
Qed.

Lemma C10_witness :
  exists b,
    Lambda.successful (Lambda.batch_summary b)
    + Lambda.failed (Lambda.batch_summary b) = 3
    /\ Lambda.total_tickers (Lambda.batch_summary b) = 3
    /\ Lambda.failed_tickers (Lambda.batch_summary b) = ["6758.T"; "9984.T"].
Proof.
  pose (qp := [("tickers", JStr "7203, 6758.T,7203.T,9984")]).
  destruct (Lambda.lambda_handler Req.sample_env (Req.get_event qp))
    as [[r calls]|] eqn:H; [|discriminate H].
  destruct (Lambda.body r) as [|[| | |b]] eqn:B;
    try (vm_compute in H; injection H as <- _; discriminate B).
  exists b.
  destruct (proj1 C10_summary_counts Req.sample_env (Req.get_event qp) qp
              r calls b (get_event_routed qp) H B)
    as (Hsum & _ & Htot & _).
  rewrite Hsum, Htot. split; [reflexivity|]. split; [reflexivity|].
  vm_compute in H. injection H as <- _. injection B as <-. reflexivity.
Defined.

(** ** The single-ticker route *)


Lemma get_stock_route_valid (E : Lambda.env) (qp : list (string * json))
    (t : string) :
  in_strs (Req.interval_of qp) Lambda.valid_intervals = true ->
  Req.qparam qp "ticker" (JStr "") = JStr t ->
  t <> EmptyString ->
  exists r,
    Lambda.get_stock_route E (JObj qp)
    = Ret (r, [Lambda.FetchCall (Lambda.normalize_ticker t)
                 (Req.interval_of qp)])
    /\ (Lambda.statusCode r = 200%Z \/ Lambda.statusCode r = 404%Z)
    /\ (Lambda.statusCode r = 200%Z
        <-> Req.fetched E (Req.interval_of qp) (Lambda.normalize_ticker t)
            = true).
Proof.
  intros H Q Ne. unfold Lambda.get_stock_route. rewrite !py_get_obj.
  cbn [bind]. fold (Req.interval_of qp). rewrite H, Q. cbn [negb truthy].
  apply String.eqb_neq in Ne. rewrite Ne. cbn [negb].
  unfold Req.fetched.
  destruct (Lambda.get_stock_price_yfinance_v8 E (Lambda.normalize_ticker t)
              (Req.interval_of qp)) as [sd|].
  - eexists. split; [reflexivity|]. cbn. split; [now left|]. tauto.
  - eexists. split; [reflexivity|]. cbn. split; [now right|].
    split; discriminate.
Qed.

(** ** C7: ticker normalization *)



(** ** C3: interval validation *)






(** ** C9: headers of every response *)

Ltac cors_cases :=
  let k := fresh "k" in
  let v := fresh "v" in
  let H := fresh "H" in
  intros k v H; simpl in H;
  repeat (destruct H as [H|H]; [injection H as <- <-; reflexivity|]);
  destruct H.

Lemma error_response_headers (status : Z) (msg : string) :
  Req.carries_cors (Lambda.error_response status msg)
  /\ Req.json_content_type (Lambda.error_response status msg).
Proof. split; [cors_cases|reflexivity]. Qed.

Lemma search_route_headers (E : Lambda.env) (q : json) (r : Lambda.response)
    (calls : list Lambda.call) :
  Lambda.search_route E q = Ret (r, calls) ->
  Req.carries_cors r /\ Req.json_content_type r
  /\ exists p, Lambda.body r = Lambda.JsonDumps p.
Proof.
  unfold Lambda.search_route.
  destruct (py_get q "q" (JStr "")) as [sq|]; cbn [bind]; [|discriminate].
  destruct (negb (truthy sq)); intros [= <- <-].
  - split; [|split]; [apply error_response_headers ..|]. now eexists.
  - split; [cors_cases|]. split; [reflexivity|now eexists].
Qed.

Lemma get_stock_route_headers (E : Lambda.env) (q : json)
    (r : Lambda.response) (calls : list Lambda.call) :
  Lambda.get_stock_route E q = Ret (r, calls) ->
  Req.carries_cors r /\ Req.json_content_type r
  /\ exists p, Lambda.body r = Lambda.JsonDumps p.
Proof.
  unfold Lambda.get_stock_route.
  destruct (py_get q "ticker" (JStr "")) as [t|]; cbn [bind]; [|discriminate].
  destruct (py_get q "interval" (JStr "1d")) as [i|]; cbn [bind];
    [|discriminate].
  destruct (negb (in_strs i Lambda.valid_intervals)).
  { intros [= <- <-]. split; [|split]; [apply error_response_headers ..|].
    now eexists. }
  destruct (negb (truthy t)).
  { intros [= <- <-]. split; [|split]; [apply error_response_headers ..|].
    now eexists. }
  destruct t; try discriminate.
  destruct (Lambda.get_stock_price_yfinance_v8 E _ i); intros [= <- <-].
  - split; [cors_cases|]. split; [reflexivity|now eexists].
  - split; [|split]; [apply error_response_headers ..|]. now eexists.
Qed.

Lemma get_stocks_route_headers (E : Lambda.env) (q : json)
    (r : Lambda.response) (calls : list Lambda.call) :
  Lambda.get_stocks_route E q = Ret (r, calls) ->
  Req.carries_cors r /\ Req.json_content_type r
  /\ exists p, Lambda.body r = Lambda.JsonDumps p.
Proof.
  unfold Lambda.get_stocks_route.
  destruct (py_get q "tickers" (JStr "")) as [t|]; cbn [bind];
    [|discriminate].
  destruct (py_get q "interval" (JStr "1d")) as [i|]; cbn [bind];
    [|discriminate].
  destruct (negb (in_strs i Lambda.valid_intervals)).
  { intros [= <- <-]. split; [|split]; [apply error_response_headers ..|].
    now eexists. }
  match goal with
  | |- bind ?t _ = _ -> _ => destruct t as [tk|]; cbn [bind]; [|discriminate]
  end.
  destruct (Lambda.batch_loop E i tk) as [[stocks sm] cs].
  intros [= <- <-].
  split; [cors_cases|]. split; [reflexivity|now eexists].
Qed.

Lemma carries_cors_full (r : Lambda.response) :
  Req.carries_cors r -> Req.full_cors r.
Proof.
  intros H. unfold Req.full_cors.
  repeat split; apply H; simpl; tauto.
Qed.

(** C9.  Every response the handler returns carries the four CORS headers
    [Access-Control-Allow-Origin: *], [Access-Control-Allow-Headers:
    Content-Type,X-Amz-Date,Authorization,X-Api-Key,X-Amz-Security-Token],
    [Access-Control-Allow-Methods: GET,OPTIONS,POST] and
    [Access-Control-Max-Age: 86400]; its body is either the empty string or a JSON
    document, and with a JSON document the response also carries
    [Content-Type: application/json; charset=utf-8].  When the method of the
    event is OPTIONS (read from [httpMethod], or from
    [requestContext.http.method] when the former is missing) the response is
    status 200 with exactly these four headers and the empty body, and nothing is
    fetched, whatever else the event holds. *)
Theorem C9_response_headers :
  (forall (E : Lambda.env) event r calls,
      Lambda.lambda_handler E event = Ret (r, calls) ->
      Req.full_cors r
      /\ (Lambda.body r = Lambda.Raw EmptyString
          \/ exists p, Lambda.body r = Lambda.JsonDumps p)
      /\ (forall p, Lambda.body r = Lambda.JsonDumps p
                    -> Req.json_content_type r))
  /\ (forall (E : Lambda.env) event,
         Lambda.http_method_of event = Ret (JStr "OPTIONS") ->
         Lambda.lambda_handler E event
         = Ret (Req.preflight_response, []))
  /\ (forall (E : Lambda.env) ev,
         jget ev "httpMethod" = Some (JStr "OPTIONS") ->
         Lambda.lambda_handler E (JObj ev)
         = Ret (Req.preflight_response, []))
  /\ (forall (E : Lambda.env) ev rc http,
         jget ev "httpMethod" = None ->
         jget ev "requestContext" = Some (JObj rc) ->
         jget rc "http" = Some (JObj http) ->
         jget http "method" = Some (JStr "OPTIONS") ->
         Lambda.lambda_handler E (JObj ev)
         = Ret (Req.preflight_response, [])).
Proof.
  assert (Opt : forall (E : Lambda.env) event,
             Lambda.http_method_of event = Ret (JStr "OPTIONS") ->
             Lambda.lambda_handler E event
             = Ret (Req.preflight_response, [])).
  { intros E event H. unfold Lambda.lambda_handler. now rewrite H. }
  split; [|split; [exact Opt|split]].
  - intros E event r calls. unfold Lambda.lambda_handler.
    destruct (Lambda.http_method_of event) as [m|]; cbn [bind];
      [|discriminate].
    destruct (eq_str m "OPTIONS").
    { intros [= <- <-].
      split; [apply carries_cors_full; cors_cases|]. split; [now left|].
      discriminate. }
    destruct (Lambda.query_params_of event) as [q|]; cbn [bind];
      [|discriminate].
    destruct (py_get q "action" (JStr "get_stocks")) as [a|]; cbn [bind];
      [|discriminate].
    intros H.
    assert (G : Req.carries_cors r /\ Req.json_content_type r
                /\ exists p, Lambda.body r = Lambda.JsonDumps p).
    { destruct (eq_str a "search");
        [now apply search_route_headers in H|].
      destruct (eq_str a "get_stock");
        [now apply get_stock_route_headers in H|].
      now apply get_stocks_route_headers in H. }
    destruct G as (G1 & G2 & G3).
    split; [exact (carries_cors_full G1)|]. split; [now right|].
    intros _ _. exact G2.
  - intros E ev H. apply Opt. unfold Lambda.http_method_of, py_get.
    now rewrite H.
  - intros E ev rc http H1 H2 H3 H4. apply Opt.
    unfold Lambda.http_method_of, py_get.
    rewrite H1. cbn [bind truthy]. rewrite H2. cbn [bind]. rewrite H3.
    cbn [bind]. now rewrite H4.
Qed.

Lemma C9_witness :
  Lambda.lambda_handler Req.sample_env
    (JObj [("httpMethod", JStr "OPTIONS");
           ("queryStringParameters",
            JObj [("action", JStr "get_stock"); ("interval", JStr "bad")])])
  = Ret (Req.preflight_response, [])
  /\ Lambda.lambda_handler Req.sample_env
       (JObj [("requestContext",
               JObj [("http", JObj [("method", JStr "OPTIONS")])])])
     = Ret (Req.preflight_response, [])
  /\ (exists r calls,
         Lambda.lambda_handler Req.sample_env
           (Req.get_event
              [("action", JStr "get_stock"); ("ticker", JStr "9999")])
         = Ret (r, calls)
         /\ Lambda.statusCode r = 404%Z
         /\ Req.full_cors r
         /\ Req.json_content_type r)
  /\ Lambda.lambda_handler Req.sample_env
       (JObj [("httpMethod", JStr "");
              ("requestContext",
               JObj [("http", JObj [("method", JStr "OPTIONS")])]);
              ("queryStringParameters", JStr "not a dict")])
     = Ret (Req.preflight_response, []).
Proof.
  destruct C9_response_headers as (Hall & Hm & Hopt & Hopt2).
  split; [|split; [|split]].
  - apply Hopt. reflexivity.
  - apply (Hopt2 Req.sample_env _
             [("http", JObj [("method", JStr "OPTIONS")])]
             [("method", JStr "OPTIONS")]); reflexivity.
  - destruct (Lambda.lambda_handler Req.sample_env
                (Req.get_event
                   [("action", JStr "get_stock"); ("ticker", JStr "9999")]))
      as [[r calls]|] eqn:H; [|vm_compute in H; discriminate H].
    exists r, calls. split; [reflexivity|].
    destruct (Hall _ _ _ _ H) as (Hc & _ & Hj).
    split; [vm_compute in H; injection H as <- _; reflexivity|].
    split; [exact Hc|]. vm_compute in H.
    injection H as <- _. eapply Hj. reflexivity.
  - apply Hm. reflexivity.
Defined.

(** ** C8: the search filter *)

Lemma search_entry_obj (kv : list (string * json)) :
  Lambda.search_entry (JObj kv)
  = match Req.qparam kv "symbol" (JStr "") with
    | JStr s =>
        Ret (if endswith s ".T" then Some (Req.kept_entry kv s) else None)
    | _ => Raise AttributeError
    end.
Proof.
  unfold Lambda.search_entry. rewrite py_get_obj. cbn [bind].
  destruct (Req.qparam kv "symbol" (JStr "")); try reflexivity.
  destruct (endswith s ".T"); [|reflexivity].
  do 4 (rewrite py_get_obj; cbn [bind]). reflexivity.
Qed.

Lemma search_entry_some (quote : json) (r : Lambda.search_result) :
  Lambda.search_entry quote = Ret (Some r) ->
  exists kv,
    quote = JObj kv
    /\ jget kv "symbol" = Some (JStr (Lambda.symbol r))
    /\ endswith (Lambda.symbol r) ".T" = true
    /\ r = Req.kept_entry kv (Lambda.symbol r).
Proof.
  destruct quote as [| | | | | |kv]; try discriminate.
  rewrite search_entry_obj. unfold Req.qparam at 1.
  destruct (jget kv "symbol") as [v|] eqn:S.
  - destruct v; try discriminate.
    destruct (endswith s ".T") eqn:En; intros [= <-].
    exists kv. now repeat split.
  - simpl. discriminate.
Qed.

Lemma search_loop_sound (items : list json) :
  forall acc res,
    Lambda.search_loop items acc = Ret res ->
    forall r, In r res ->
      In r acc
      \/ exists kv,
           In (JObj kv) items
           /\ jget kv "symbol" = Some (JStr (Lambda.symbol r))
           /\ endswith (Lambda.symbol r) ".T" = true
           /\ r = Req.kept_entry kv (Lambda.symbol r).
Proof.
  induction items as [|q items IH]; intros acc res H r Hr; simpl in H.
  - injection H as <-. now left.
  - destruct (Lambda.search_entry q) as [[e|]|] eqn:Eq; cbn [bind] in H;
      [| |discriminate].
    + destruct (IH _ _ H r Hr) as [Hin|(kv & Hin & Hrest)].
      * apply in_app_iff in Hin. destruct Hin as [Hin|[<-|[]]];
          [now left|].
        apply search_entry_some in Eq. destruct Eq as (kv & -> & Hrest).
        right. exists kv. split; [now left|exact Hrest].
      * right. exists kv. split; [now right|exact Hrest].
    + destruct (IH _ _ H r Hr) as [Hin|(kv & Hin & Hrest)]; [now left|].
      right. exists kv. split; [now right|exact Hrest].
Qed.

Lemma search_loop_kept (items : list json) :
  Forall (fun q => exists s, Req.symbol_of q = Some s) items ->
  forall acc,
    Lambda.search_loop items acc = Ret (acc ++ Req.kept items).
Proof.
  induction 1 as [|q items (s & Hq) _ IH]; intros acc; simpl.
  - now rewrite app_nil_r.
  - destruct q as [| | | | | |kv]; try discriminate.
    rewrite search_entry_obj. unfold Req.symbol_of in Hq.
    destruct (Req.qparam kv "symbol" (JStr "")); try discriminate.
    cbn [bind]. destruct (endswith s0 ".T").
    + rewrite IH. now rewrite <- app_assoc.
    + apply IH.
Qed.

(** C8.  Every entry of a search result has a symbol that ends with [".T"]
    and comes from a quote of the upstream list with that symbol: its name is
    the quote's short name, else its long name, else the symbol; its type is
    the quote's, else ["Stock"]; its exchange is the quote's, else the empty
    string.  When every upstream quote is a dict with a string symbol, the
    result is exactly the kept entries of the quotes that end with [".T"], in
    order, the others being dropped. *)
Theorem C8_search_filter :
  (forall (E : Lambda.env) query r,
      In r (Lambda.search_ticker E query) ->
      endswith (Lambda.symbol r) ".T" = true
      /\ exists q data quotes kv,
           query = JStr q
           /\ Lambda.search_api E q = Lambda.HttpJson data
           /\ py_get data "quotes" (JArr []) = Ret (JArr quotes)
           /\ In (JObj kv) quotes
           /\ jget kv "symbol" = Some (JStr (Lambda.symbol r))
           /\ Lambda.name r
              = Req.qparam kv "shortname"
                  (Req.qparam kv "longname" (JStr (Lambda.symbol r)))
           /\ Lambda.type r = Req.qparam kv "typeDisp" (JStr "Stock")
           /\ Lambda.exchange r = Req.qparam kv "exchange" (JStr ""))
  /\ (forall (E : Lambda.env) q data quotes,
         Lambda.search_api E q = Lambda.HttpJson data ->
         py_get data "quotes" (JArr []) = Ret (JArr quotes) ->
         Forall (fun x => exists s, Req.symbol_of x = Some s) quotes ->
         Lambda.search_ticker E (JStr q) = Req.kept quotes
         /\ map Lambda.symbol (Req.kept quotes)
            = filter (fun s => endswith s ".T")
                (flat_map (fun x => match Req.symbol_of x with
                                    | Some s => [s]
                                    | None => []
                                    end) quotes)).
Proof.
  split.
  - intros E query r. unfold Lambda.search_ticker, Lambda.search_attempt.
    destruct query as [| | | |q| |]; try (intros []).
    destruct (Lambda.search_api E q) as [e|data] eqn:A; [intros []|].
    unfold Lambda.search_body.
    destruct (py_get data "quotes" (JArr [])) as [qs|] eqn:Q; cbn [bind];
      [|intros []].
    destruct (py_iter qs) as [items|] eqn:I; cbn [bind]; [|intros []].
    destruct (Lambda.search_loop items []) as [res|] eqn:L; [|intros []].
    cbn [try_except]. intros Hr.
    destruct (search_loop_sound _ _ L r Hr) as [[]|(kv & Hin & Hs & He & Hk)].
    split; [exact He|].
    assert (Hqs : qs = JArr items).
    { destruct qs; try discriminate; simpl in I; injection I as <-.
      - apply in_map_iff in Hin. destruct Hin as (? & [=] & _).
      - reflexivity.
      - apply in_map_iff in Hin. destruct Hin as (? & [=] & _). }
    subst qs. exists q, data, items, kv.
    repeat split; try assumption; now rewrite Hk.
  - intros E q data quotes A Q W. split.
    + unfold Lambda.search_ticker, Lambda.search_attempt, Lambda.search_body.
      rewrite A, Q. cbn [bind py_iter].
      now rewrite (search_loop_kept W []).
    + clear A Q. induction W as [|x quotes (s & Hx) _ IH]; [reflexivity|].
      destruct x as [| | | | | |kv]; try discriminate.
      simpl. unfold Req.symbol_of in Hx.
      destruct (Req.qparam kv "symbol" (JStr "")); try discriminate.
      simpl. destruct (endswith s0 ".T"); simpl; now rewrite IH.
Qed.

Lemma C8_witness :
  map Lambda.symbol (Lambda.search_ticker Req.sample_env (JStr "toyota"))
  = ["7203.T"; "7211.T"; "7201.T"]
  /\ map Lambda.name (Lambda.search_ticker Req.sample_env (JStr "toyota"))
     = [JStr "TOYOTA"; JStr "Mitsubishi Motors"; JStr "7201.T"]
  /\ Forall (fun r => endswith (Lambda.symbol r) ".T" = true)
       (Lambda.search_ticker Req.sample_env (JStr "toyota")).
Proof.
  destruct C8_search_filter as [Hsound Hexact].
  destruct (Hexact Req.sample_env "toyota" Req.sample_search
              [ JObj [ ("symbol", JStr "7203.T"); ("shortname", JStr "TOYOTA");
                       ("longname", JStr "Toyota Motor Corporation");
                       ("typeDisp", JStr "Equity"); ("exchange", JStr "JPX") ];
                JObj [ ("symbol", JStr "TM");
                       ("shortname", JStr "Toyota ADR") ];
                JObj [ ("symbol", JStr "7211.T");
                       ("longname", JStr "Mitsubishi Motors") ];
                JObj [ ("symbol", JStr "7201.T") ] ]
              eq_refl eq_refl) as [H _].
  - repeat constructor; eexists; reflexivity.
  - split; [rewrite H; reflexivity|]. split; [rewrite H; reflexivity|].
    apply Forall_forall. intros r Hr.
    exact (proj1 (Hsound Req.sample_env (JStr "toyota") r Hr)).
Defined.

(** ** Failures at the fetch boundary *)

Lemma getitem_idx_null (ps : list json) (i : nat) :
  Forall (fun p => p = JNull) ps ->
  i < List.length ps ->
  getitem_idx (JArr ps) i = Ret JNull.
Proof.
  intros F L. simpl.
  destruct (nth_error ps i) as [p|] eqn:N.
  - apply nth_error_In in N. rewrite Forall_forall in F. now rewrite (F _ N).
  - apply nth_error_None in N. lia.
Qed.

(** A price array of nulls leaves the two lists of the loop as they are,
    whatever the timestamps. *)
Lemma chart_loop_nulls (E : Lambda.env) (interval timestamps : json)
    (ps : list json) (idx : list nat) (cd : list Lambda.price_point)
    (vp : list float) :
  Forall (fun p => p = JNull) ps ->
  Lambda.chart_loop E interval timestamps (JArr ps) idx cd vp = Ret (cd, vp).
Proof.
  intros F. induction idx as [|i idx IH]; [reflexivity|].
  cbn [Lambda.chart_loop py_len bind].
  destruct (List.length ps <=? i)%nat eqn:L; [exact IH|].
  apply Nat.leb_gt in L. rewrite (getitem_idx_null F L). cbn [bind is_none].
  exact IH.
Qed.

(** The way down a document of the provider's shape. *)
Lemma chart_arrays_document (ticker : string) (meta : json)
    (ts ps : list json) :
  Lambda.chart_arrays ticker (Req.chart_document meta ts ps)
  = bind (py_get meta "shortName" (JStr ticker))
      (fun short_name =>
         if negb (truthy (JArr ts)) || negb (truthy (JArr ps)) then Ret None
         else Ret (Some (short_name, JArr ts, JArr ps))).
Proof. reflexivity. Qed.

Lemma fetch_of_body (E : Lambda.env) (ticker : string) (interval data : json) :
  Lambda.chart_api E ticker interval = Lambda.HttpJson data ->
  Lambda.get_stock_price_yfinance_v8 E ticker interval
  = match Lambda.chart_body E ticker interval data with
    | Ret r => r
    | Raise _ => None
    end.
Proof.
  intros H. unfold Lambda.get_stock_price_yfinance_v8, Lambda.fetch_attempt.
  rewrite H. destruct (Lambda.chart_body E ticker interval data) as [r|e];
    [reflexivity|]. now destruct e.
Qed.

(** With its log lines left out, the Quote Fetcher returns [None] whenever
    the body of its [try] raises, in particular when the request fails with
    any exception (HTTP status, transport, timeout, undecodable or malformed
    body), and it returns [None] when the document is not a dict or has no
    ["chart"] key, when the checks on its shape end in [return None], when
    the timestamp or the close array is empty, and when every close price is
    null.  The Ticker Search returns the empty list whenever the body of its
    [try] raises, in particular when the request fails and when the query is
    not a string. *)
Lemma core_failures_absorbed :
  (forall (E : Lambda.env) ticker interval e,
      Lambda.fetch_attempt E ticker interval = Raise e ->
      Lambda.get_stock_price_yfinance_v8 E ticker interval = None)
  /\ (forall (E : Lambda.env) ticker interval e,
         Lambda.chart_api E ticker interval = Lambda.HttpFail e ->
         Lambda.get_stock_price_yfinance_v8 E ticker interval = None)
  /\ (forall (E : Lambda.env) ticker interval data,
         Lambda.chart_api E ticker interval = Lambda.HttpJson data ->
         (forall kv, data = JObj kv -> jget kv "chart" = None) ->
         Lambda.get_stock_price_yfinance_v8 E ticker interval = None)
  /\ (forall (E : Lambda.env) ticker interval data,
         Lambda.chart_api E ticker interval = Lambda.HttpJson data ->
         Lambda.chart_arrays ticker data = Ret None ->
         Lambda.get_stock_price_yfinance_v8 E ticker interval = None)
  /\ (forall (E : Lambda.env) ticker interval meta ts ps,
         Lambda.chart_api E ticker interval
         = Lambda.HttpJson (Req.chart_document meta ts ps) ->
         ts = [] \/ ps = [] ->
         Lambda.get_stock_price_yfinance_v8 E ticker interval = None)
  /\ (forall (E : Lambda.env) ticker interval data short_name timestamps ps,
         Lambda.chart_api E ticker interval = Lambda.HttpJson data ->
         Lambda.chart_arrays ticker data
         = Ret (Some (short_name, timestamps, JArr ps)) ->
         Forall (fun p => p = JNull) ps ->
         Lambda.get_stock_price_yfinance_v8 E ticker interval = None)
  /\ (forall (E : Lambda.env) query e,
         Lambda.search_attempt E query = Raise e ->
         Lambda.search_ticker E query = [])
  /\ (forall (E : Lambda.env) q e,
         Lambda.search_api E q = Lambda.HttpFail e ->
         Lambda.search_ticker E (JStr q) = [])
  /\ (forall (E : Lambda.env) query,
         (forall q, query <> JStr q) ->
         Lambda.search_ticker E query = []).
Proof.
  repeat match goal with |- _ /\ _ => split end.
  - intros E ticker interval e H.
    unfold Lambda.get_stock_price_yfinance_v8. rewrite H. now destruct e.
  - intros E ticker interval e H.
    unfold Lambda.get_stock_price_yfinance_v8, Lambda.fetch_attempt.
    rewrite H. now destruct e.
  - intros E ticker interval data H Hk. rewrite (fetch_of_body _ _ _ H).
    unfold Lambda.chart_body, Lambda.chart_arrays.
    destruct data as [| | | |s|l|kv]; try reflexivity.
    + cbn [py_in bind]. destruct (has_substring "chart" s); reflexivity.
    + cbn [py_in bind].
      destruct (existsb (fun x => eq_str x "chart") l); reflexivity.
    + cbn [py_in bind]. unfold dict_mem. fold (jget kv "chart").
      now rewrite (Hk kv eq_refl).
  - intros E ticker interval data H Hn. rewrite (fetch_of_body _ _ _ H).
    unfold Lambda.chart_body. now rewrite Hn.
  - intros E ticker interval meta ts ps H Hemp.
    rewrite (fetch_of_body _ _ _ H).
    unfold Lambda.chart_body. rewrite chart_arrays_document.
    destruct (py_get meta "shortName" (JStr ticker)); [|reflexivity].
    cbn [bind]. destruct Hemp as [-> | ->]; [reflexivity|].
    cbn [truthy negb]. now rewrite orb_true_r.
  - intros E ticker interval data short_name timestamps ps H Ha F.
    rewrite (fetch_of_body _ _ _ H).
    unfold Lambda.chart_body. rewrite Ha. cbn [bind]. unfold Lambda.series.
    destruct (py_len timestamps) as [n|]; [|reflexivity]. cbn [bind].
    now rewrite (chart_loop_nulls E interval timestamps (seq 0 n) [] [] F).
  - intros E query e H. unfold Lambda.search_ticker. now rewrite H.
  - intros E q e H. unfold Lambda.search_ticker, Lambda.search_attempt.
    now rewrite H.
  - intros E query H. unfold Lambda.search_ticker, Lambda.search_attempt.
    destruct query; try reflexivity. now destruct (H s).
Qed.

(** ** Floats *)

(** [x - x] is [+0.0] for a finite [x]. *)
Lemma fsub_diag (x : float) :
  is_finite x = true -> fsub x x = S754_zero false.
Proof.
  destruct x as [s|s| |s m e]; try discriminate; intros _.
  - now destruct s.
  - unfold fsub, SFsub. rewrite Z.sub_diag. reflexivity.
Qed.

(** The change of a single finite non-zero price, as the offline fetcher
    computes it, is a zero. *)
Lemma single_change_zero (p : float) :
  is_finite p = true -> is_zero p = false ->
  exists s,
    round2 (fmul (fdiv (fsub p p) p) (float_of_Z 100)) = S754_zero s.
Proof.
  intros F Z. rewrite (fsub_diag p F).
  destruct p as [s|s| |s m e]; try discriminate.
  exists (xorb (xorb false s) false). reflexivity.
Qed.

Lemma lt_not_nan (x y : float) : SFltb x y = true -> is_nan x = false.
Proof. now destruct x. Qed.

Ltac cmp_cases :=
  repeat match goal with
    | |- context [Z.compare ?a ?b] =>
        destruct (Z.compare_spec a b); try subst
    | H : context [Z.compare ?a ?b] |- _ =>
        destruct (Z.compare_spec a b); try subst
    | |- context [Pos.compare_cont Eq ?a ?b] =>
        change (Pos.compare_cont Eq a b) with (Pos.compare a b);
        destruct (Pos.compare_spec a b); try subst
    | H : context [Pos.compare_cont Eq ?a ?b] |- _ =>
        change (Pos.compare_cont Eq a b) with (Pos.compare a b) in H;
        destruct (Pos.compare_spec a b); try subst
    end;
  simpl in *; try reflexivity; try discriminate; try lia.

Lemma fle_refl (x : float) : is_nan x = false -> SFleb x x = true.
Proof.
  destruct x as [s|s| |s m e]; try discriminate; intros _;
    unfold SFleb, SFcompare; try (now destruct s).
  destruct s; cmp_cases.
Qed.

Lemma fle_total (x y : float) :
  is_nan x = false -> is_nan y = false ->
  SFltb x y = false -> SFleb y x = true.
Proof.
  destruct x as [s|s| |s m e]; try discriminate;
    destruct y as [s'|s'| |s' m' e']; try discriminate; intros _ _;
      unfold SFltb, SFleb, SFcompare;
      try (destruct s; try destruct s'; simpl; congruence).
  destruct s, s'; cmp_cases.
Qed.

Lemma flt_fle (x y : float) : SFltb x y = true -> SFleb x y = true.
Proof.
  unfold SFltb, SFleb. now destruct (SFcompare x y) as [[]|].
Qed.

Lemma fle_trans (x y z : float) :
  SFleb x y = true -> SFleb y z = true -> SFleb x z = true.
Proof.
  destruct x as [s|s| |s m e]; destruct y as [s'|s'| |s' m' e'];
    destruct z as [s''|s''| |s'' m'' e''];
    unfold SFleb, SFcompare;
    try discriminate; try reflexivity;
    try (destruct s; try destruct s'; try destruct s''; simpl; congruence).
  destruct s, s', s''; simpl; try discriminate; try reflexivity;
    intros H1 H2; cmp_cases.
Qed.

Lemma max_from_spec (l : list float) :
  forall cur,
    is_nan cur = false ->
    Forall (fun v => is_nan v = false) l ->
    Req.is_max_of (max_from cur l) (cur :: l).
Proof.
  induction l as [|x l IH]; intros cur Hc Hl; simpl.
  - split; [now left|]. intros v [<-|[]]. now apply fle_refl.
  - inversion Hl as [|? ? Hx Hl']; subst.
    assert (Hn : is_nan (if fgt x cur then x else cur) = false)
      by now destruct (fgt x cur).
    destruct (IH _ Hn Hl') as [Hin Hle]. split.
    + destruct Hin as [<-|Hin]; [|now right; right].
      destruct (fgt x cur); [right|]; now left.
    + assert (Hcur : SFleb cur (if fgt x cur then x else cur) = true
                     /\ SFleb x (if fgt x cur then x else cur) = true).
      { unfold fgt. destruct (SFltb cur x) eqn:L.
        - split; [now apply flt_fle|now apply fle_refl].
        - split; [now apply fle_refl|now apply fle_total]. }
      destruct Hcur as [H1 H2].
      intros v [<-|[<-|Hv]].
      * apply fle_trans with (1 := H1). apply Hle. now left.
      * apply fle_trans with (1 := H2). apply Hle. now left.
      * apply Hle. now right.
Qed.

Lemma min_from_spec (l : list float) :
  forall cur,
    is_nan cur = false ->
    Forall (fun v => is_nan v = false) l ->
    Req.is_min_of (min_from cur l) (cur :: l).
Proof.
  induction l as [|x l IH]; intros cur Hc Hl; simpl.
  - split; [now left|]. intros v [<-|[]]. now apply fle_refl.
  - inversion Hl as [|? ? Hx Hl']; subst.
    assert (Hn : is_nan (if flt x cur then x else cur) = false)
      by now destruct (flt x cur).
    destruct (IH _ Hn Hl') as [Hin Hle]. split.
    + destruct Hin as [<-|Hin]; [|now right; right].
      destruct (flt x cur); [right|]; now left.
    + assert (Hcur : SFleb (if flt x cur then x else cur) cur = true
                     /\ SFleb (if flt x cur then x else cur) x = true).
      { unfold flt. destruct (SFltb x cur) eqn:L.
        - split; [now apply flt_fle|now apply fle_refl].
        - split; [now apply fle_refl|now apply fle_total]. }
      destruct Hcur as [H1 H2].
      intros v [<-|[<-|Hv]].
      * apply fle_trans with (2 := H1). apply Hle. now left.
      * apply fle_trans with (2 := H2). apply Hle. now left.
      * apply Hle. now right.
Qed.

Lemma py_max_spec (l : list float) (m : float) :
  Forall (fun v => is_nan v = false) l ->
  py_max l = Ret m -> Req.is_max_of m l.
Proof.
  destruct l as [|x l]; [discriminate|]. intros F [= <-].
  inversion F; subst. now apply max_from_spec.
Qed.

Lemma py_min_spec (l : list float) (m : float) :
  Forall (fun v => is_nan v = false) l ->
  py_min l = Ret m -> Req.is_min_of m l.
Proof.
  destruct l as [|x l]; [discriminate|]. intros F [= <-].
  inversion F; subst. now apply min_from_spec.
Qed.

(** ** The loop of the Quote Fetcher *)

(** The two lists grow together. *)
Lemma chart_loop_values (E : Lambda.env) (interval timestamps prices : json)
    (idx : list nat) :
  forall cd vp cd' vp',
    Lambda.chart_loop E interval timestamps prices idx cd vp
    = Ret (cd', vp') ->
    vp = map Lambda.value cd ->
    vp' = map Lambda.value cd'.
Proof.
  induction idx as [|i idx IH]; intros cd vp cd' vp' H Hv.
  - simpl in H. injection H as <- <-. exact Hv.
  - cbn [Lambda.chart_loop] in H.
    destruct (py_len prices) as [n|]; cbn [bind] in H; [|discriminate].
    destruct (n <=? i)%nat; [now apply (IH _ _ _ _ H)|].
    destruct (getitem_idx prices i) as [p|]; cbn [bind] in H;
      [|discriminate].
    destruct (is_none p); [now apply (IH _ _ _ _ H)|].
    destruct (getitem_idx timestamps i) as [t|]; cbn [bind] in H;
      [|discriminate].
    destruct (Lambda.strftime_jst E t (Lambda.intraday interval)) as [d|];
      cbn [bind] in H; [|discriminate].
    destruct (py_float (Lambda.float_of_str E) p) as [f|]; cbn [bind] in H;
      [|discriminate].
    apply (IH _ _ _ _ H). rewrite map_app, Hv. reflexivity.
Qed.

(** Past the end of the price array nothing is appended. *)
Lemma chart_loop_beyond (E : Lambda.env) (interval timestamps : json)
    (ps : list json) (idx : list nat) (cd : list Lambda.price_point)
    (vp : list float) :
  Forall (fun i => List.length ps <= i) idx ->
  Lambda.chart_loop E interval timestamps (JArr ps) idx cd vp = Ret (cd, vp).
Proof.
  induction 1 as [|i idx Hi _ IH]; [reflexivity|].
  cbn [Lambda.chart_loop py_len bind].
  apply Nat.leb_le in Hi. now rewrite Hi.
Qed.

Lemma chart_loop_pairs (E : Lambda.env) (interval : json) (ts : list json) :
  forall ts0 ps0 ps cd vp,
    List.length ts0 = List.length ps0 ->
    Lambda.chart_loop E interval (JArr (ts0 ++ ts)) (JArr (ps0 ++ ps))
      (seq (List.length ts0) (List.length ts)) cd vp
    = Req.pair_loop E interval ts ps cd vp.
Proof.
  induction ts as [|t ts IH]; intros ts0 ps0 ps cd vp L; [reflexivity|].
  cbn [List.length seq Lambda.chart_loop py_len bind].
  destruct ps as [|p ps].
  - rewrite app_nil_r, <- L, Nat.leb_refl.
    cbn [Req.pair_loop]. apply chart_loop_beyond.
    apply Forall_forall. intros i Hi. apply in_seq in Hi. lia.
  - assert (Hlt : (List.length (ps0 ++ p :: ps) <=? List.length ts0)%nat
                  = false).
    { apply Nat.leb_gt. rewrite length_app. simpl. lia. }
    rewrite Hlt. cbn [getitem_idx].
    rewrite L at 1. rewrite (nth_error_app2 ps0) by lia.
    rewrite Nat.sub_diag. cbn [nth_error bind Req.pair_loop].
    assert (Hts : ts0 ++ t :: ts = (ts0 ++ [t]) ++ ts)
      by now rewrite <- app_assoc.
    assert (Hps : ps0 ++ p :: ps = (ps0 ++ [p]) ++ ps)
      by now rewrite <- app_assoc.
    assert (Hl : S (List.length ts0) = List.length (ts0 ++ [t]))
      by (rewrite length_app; simpl; lia).
    assert (L' : List.length (ts0 ++ [t]) = List.length (ps0 ++ [p]))
      by (rewrite !length_app; simpl; lia).
    destruct (is_none p).
    + rewrite Hts, Hps, Hl. now apply IH.
    + rewrite (nth_error_app2 ts0) by lia.
      rewrite Nat.sub_diag. cbn [nth_error bind].
      destruct (Lambda.strftime_jst E t (Lambda.intraday interval)) as [d|];
        cbn [bind]; [|reflexivity].
      destruct (py_float (Lambda.float_of_str E) p) as [f|]; cbn [bind];
        [|reflexivity].
      rewrite Hts, Hps, Hl. now apply IH.
Qed.

Lemma price_of_float (fos : string -> result float) (p : json) (f : float) :
  Req.price_of p = Some f ->
  is_none p = false /\ py_float fos p = Ret f /\ is_nan f = false.
Proof.
  destruct p as [| |z|g| | |]; try discriminate; simpl.
  - destruct (float_of_int z) as [g|]; [|discriminate].
    destruct (is_nan g) eqn:N; intros [= <-]. now repeat split.
  - destruct (is_nan g) eqn:N; intros [= <-]. now repeat split.
Qed.

Lemma prices_in_app (a b : list json) :
  Req.prices_in (a ++ b) = Req.prices_in a ++ Req.prices_in b.
Proof. unfold Req.prices_in. apply flat_map_app. Qed.

Lemma prices_in_valid (ps : list json) :
  Forall (fun p => exists f, Req.price_of p = Some f) ps ->
  List.length (Req.prices_in ps) = List.length ps
  /\ Forall (fun f => is_nan f = false) (Req.prices_in ps).
Proof.
  induction 1 as [|p ps (f & Hf) _ [IH1 IH2]]; simpl.
  - split; [reflexivity|constructor].
  - rewrite Hf. simpl. split; [now rewrite IH1|]. constructor; [|exact IH2].
    now apply (price_of_float (fun _ => Raise ValueError)) in Hf.
Qed.

Lemma prices_in_null (pre post : list json) :
  Req.prices_in (pre ++ JNull :: post) = Req.prices_in (pre ++ post).
Proof. now rewrite !prices_in_app. Qed.

(** Side by side, with the timestamps well-formed as far as the prices go and
    every price null or valid, the walk appends one point per valid price. *)
Lemma pair_loop_valid (E : Lambda.env) (interval : json) (ps : list json) :
  forall ts cd vp,
    List.length ps <= List.length ts ->
    (forall i t p,
        nth_error ts i = Some t -> nth_error ps i = Some p -> p <> JNull ->
        returns (Lambda.strftime_jst E t (Lambda.intraday interval)) = true) ->
    Forall (fun p => p = JNull \/ exists f, Req.price_of p = Some f) ps ->
    exists cd',
      Req.pair_loop E interval ts ps cd vp
      = Ret (cd ++ cd', vp ++ Req.prices_in ps)
      /\ map Lambda.value cd' = Req.prices_in ps.
Proof.
  induction ps as [|p ps IH]; intros ts cd vp L T V.
  - exists []. rewrite !app_nil_r. now destruct ts.
  - destruct ts as [|t ts]; [simpl in L; lia|].
    simpl in L. inversion V as [|? ? Hp V']; subst.
    assert (L' : List.length ps <= List.length ts) by lia.
    assert (T' : forall i t' p',
               nth_error ts i = Some t' -> nth_error ps i = Some p' ->
               p' <> JNull ->
               returns (Lambda.strftime_jst E t' (Lambda.intraday interval))
               = true)
      by (intros i t' p' H1 H2; exact (T (S i) t' p' H1 H2)).
    cbn [Req.pair_loop]. destruct Hp as [-> | (f & Hf)].
    + cbn [is_none]. destruct (IH ts cd vp L' T' V') as (cd' & H & Hm).
      exists cd'. split; [exact H|exact Hm].
    + destruct (price_of_float (Lambda.float_of_str E) _ Hf)
        as (Hn & Hfl & _).
      rewrite Hn, Hfl.
      assert (Ht : returns (Lambda.strftime_jst E t
                              (Lambda.intraday interval)) = true).
      { apply (T 0 t p eq_refl eq_refl). intros ->. discriminate. }
      destruct (Lambda.strftime_jst E t (Lambda.intraday interval)) as [d|];
        [|discriminate]. cbn [bind].
      destruct (IH ts (cd ++ [{| Lambda.time := d; Lambda.value := f |}])
                  (vp ++ [f]) L' T' V') as (cd' & H & Hm).
      exists ({| Lambda.time := d; Lambda.value := f |} :: cd').
      unfold Req.prices_in in *. cbn [flat_map]. rewrite Hf.
      rewrite H, <- !app_assoc. simpl. split; [reflexivity|].
      now rewrite Hm.
Qed.

(** ** The summary of the Quote Fetcher *)

Lemma summarise_inv (cd : list Lambda.price_point) (vp : list float)
    (sn : json) (sd : Lambda.stock_data) :
  Lambda.summarise cd vp sn = Ret sd ->
  Lambda.data sd = cd
  /\ last vp = Ret (Lambda.current_price sd)
  /\ py_max vp = Ret (Lambda.year_high sd)
  /\ py_min vp = Ret (Lambda.year_low sd)
  /\ Lambda.change_pct vp = Ret (Lambda.year_change_pct sd)
  /\ Lambda.data_points sd = List.length cd
  /\ Lambda.short_name sd = sn.
Proof.
  unfold Lambda.summarise.
  destruct (last vp) as [l|]; cbn [bind]; [|discriminate].
  destruct (py_max vp) as [hi|]; cbn [bind]; [|discriminate].
  destruct (py_min vp) as [lo|]; cbn [bind]; [|discriminate].
  destruct (Lambda.change_pct vp) as [pct|]; cbn [bind]; [|discriminate].
  intros [= <-]. now repeat split.
Qed.

Lemma last_nonempty (vp : list float) :
  vp <> [] -> exists l, last vp = Ret l.
Proof.
  intros H. unfold last. destruct (rev vp) eqn:R.
  - apply (f_equal (@rev float)) in R. rewrite rev_involutive in R.
    now destruct H.
  - now eexists.
Qed.

Lemma summarise_ok (cd : list Lambda.price_point) (vp : list float)
    (sn : json) (pct : number) :
  vp <> [] ->
  Lambda.change_pct vp = Ret pct ->
  exists sd, Lambda.summarise cd vp sn = Ret sd.
Proof.
  intros Hne Hp. unfold Lambda.summarise.
  destruct (last_nonempty Hne) as (l & ->). cbn [bind].
  destruct vp as [|x vp]; [now destruct Hne|].
  cbn [py_max py_min bind]. rewrite Hp. cbn [bind]. now eexists.
Qed.

(** What a successful fetch went through. *)
Lemma fetch_some_inv (E : Lambda.env) (ticker : string) (interval : json)
    (sd : Lambda.stock_data) :
  Lambda.get_stock_price_yfinance_v8 E ticker interval = Some sd ->
  exists data timestamps prices n vp,
    Lambda.chart_api E ticker interval = Lambda.HttpJson data
    /\ Lambda.chart_arrays ticker data
       = Ret (Some (Lambda.short_name sd, timestamps, prices))
    /\ py_len timestamps = Ret n
    /\ Lambda.chart_loop E interval timestamps prices (seq 0 n) [] []
       = Ret (Lambda.data sd, vp)
    /\ vp = map Lambda.value (Lambda.data sd)
    /\ vp <> []
    /\ Lambda.summarise (Lambda.data sd) vp (Lambda.short_name sd) = Ret sd.
Proof.
  unfold Lambda.get_stock_price_yfinance_v8, Lambda.fetch_attempt.
  destruct (Lambda.chart_api E ticker interval) as [e|data] eqn:A.
  { now destruct e. }
  unfold Lambda.chart_body.
  destruct (Lambda.chart_arrays ticker data) as [[[[sn ts] ps]|]|e] eqn:Ar;
    cbn [bind try_except]; try discriminate; [|now destruct e].
  unfold Lambda.series.
  destruct (py_len ts) as [n|e] eqn:Ln; cbn [bind try_except];
    [|now destruct e].
  destruct (Lambda.chart_loop E interval ts ps (seq 0 n) [] [])
    as [[cd vp]|e] eqn:Lp; cbn [bind try_except]; [|now destruct e].
  destruct vp as [|v vp]; [discriminate|].
  destruct (Lambda.summarise cd (v :: vp) sn) as [sd'|e] eqn:S;
    cbn [bind try_except]; [|now destruct e].
  intros [= ->].
  destruct (summarise_inv _ _ _ S) as (Hd & _ & _ & _ & _ & _ & Hs).
  subst cd sn.
  exists data, ts, ps, n, (v :: vp).
  repeat split; try assumption; try discriminate.
  now apply (@chart_loop_values E interval ts ps (seq 0 n) [] [] _ _ Lp).
Qed.

(** ** The offline fetcher, ticker by ticker *)

Lemma rows_loop_filter (rows : list FetchPrices.row) :
  forall cd,
    FetchPrices.rows_loop rows cd
    = cd ++ map Req.point_of_row (filter Req.kept_row rows).
Proof.
  induction rows as [|[d c] rows IH]; intros cd; simpl.
  - now rewrite app_nil_r.
  - unfold Req.kept_row at 1. simpl.
    destruct (negb (float_truthy c) || fne c c); simpl.
    + apply IH.
    + rewrite IH, <- app_assoc. reflexivity.
Qed.

Lemma feq_refl (c : float) : is_nan c = false -> SFeqb c c = true.
Proof.
  destruct c as [s|s| |s m e]; try discriminate; intros _;
    unfold SFeqb, SFcompare; try (now destruct s).
  destruct s; cmp_cases.
Qed.

Lemma kept_row_iff (r : FetchPrices.row) :
  Req.kept_row r = true <-> is_nan (snd r) = false /\ is_zero (snd r) = false.
Proof.
  destruct r as [d c]. unfold Req.kept_row, float_truthy, fne. simpl. split.
  - intros H. apply negb_true_iff, orb_false_iff in H. destruct H as [H1 H2].
    rewrite !negb_false_iff in *. split.
    + destruct c; try reflexivity. discriminate.
    + apply negb_true_iff. exact H1.
  - intros [H1 H2]. rewrite H2, (feq_refl c H1). reflexivity.
Qed.

Lemma offline_summarise_inv (name ticker : string)
    (cd : list FetchPrices.price_point) (entry : FetchPrices.stock_entry) :
  FetchPrices.summarise name ticker cd = Ret entry ->
  let prices := map FetchPrices.value cd in
  FetchPrices.data entry = cd
  /\ FetchPrices.data_points entry = List.length cd
  /\ last prices = Ret (FetchPrices.current_price entry)
  /\ py_max prices = Ret (FetchPrices.year_high entry)
  /\ py_min prices = Ret (FetchPrices.year_low entry)
  /\ exists p0,
       first prices = Ret p0
       /\ is_zero p0 = false
       /\ FetchPrices.year_change_pct entry
          = round2 (fmul (fdiv (fsub (FetchPrices.current_price entry) p0) p0)
                      (float_of_Z 100)).
Proof.
  unfold FetchPrices.summarise. cbn zeta.
  destruct (last (map FetchPrices.value cd)) as [l|]; cbn [bind];
    [|discriminate].
  destruct (py_max (map FetchPrices.value cd)) as [hi|]; cbn [bind];
    [|discriminate].
  destruct (py_min (map FetchPrices.value cd)) as [lo|]; cbn [bind];
    [|discriminate].
  destruct (first (map FetchPrices.value cd)) as [p0|]; cbn [bind];
    [|discriminate].
  unfold truediv. destruct (is_zero p0) eqn:Z; cbn [bind]; [discriminate|].
  intros [= <-]. cbn. repeat split. exists p0. now repeat split.
Qed.

Lemma offline_summarise_ok (name ticker : string)
    (cd : list FetchPrices.price_point) :
  cd <> [] ->
  (forall p0,
      first (map FetchPrices.value cd) = Ret p0 -> is_zero p0 = false) ->
  exists entry, FetchPrices.summarise name ticker cd = Ret entry.
Proof.
  intros Hne Hz. unfold FetchPrices.summarise. cbn zeta.
  assert (Hne' : map FetchPrices.value cd <> []) by now destruct cd.
  destruct (last_nonempty Hne') as (l & ->). cbn [bind].
  destruct (map FetchPrices.value cd) as [|x vp]; [now destruct Hne'|].
  cbn [py_max py_min first bind]. unfold truediv.
  rewrite (Hz x eq_refl). cbn [bind]. now eexists.
Qed.

Lemma process_inv (E : FetchPrices.env) (ticker name : string)
    (entry : FetchPrices.stock_entry) :
  FetchPrices.process E ticker name = Ret (Some entry) ->
  exists rows,
    FetchPrices.retry (FetchPrices.history E ticker) (seq 0 3) None
    = Some rows
    /\ FetchPrices.data entry = map Req.point_of_row (filter Req.kept_row rows)
    /\ FetchPrices.data entry <> []
    /\ FetchPrices.summarise name ticker (FetchPrices.data entry) = Ret entry.
Proof.
  unfold FetchPrices.process.
  destruct (FetchPrices.retry _ _ _) as [rows|] eqn:R; [|discriminate].
  destruct (FetchPrices.empty rows); [discriminate|].
  rewrite rows_loop_filter. cbn [app].
  destruct (map Req.point_of_row (filter Req.kept_row rows)) as [|pt cd] eqn:M;
    [discriminate|].
  destruct (FetchPrices.summarise name ticker (pt :: cd)) as [e|] eqn:S;
    cbn [bind]; [|discriminate].
  intros [= ->].
  destruct (offline_summarise_inv _ _ _ S) as (Hd & _).
  exists rows. rewrite Hd.
  split; [reflexivity|]. split; [now rewrite M|].
  split; [discriminate|exact S].
Qed.

(** ** C1: the percentage change *)

Lemma length_le_one {A : Type} (l : list A) :
  l <> [] -> List.length l <= 1 -> exists x, l = [x].
Proof.
  destruct l as [|x [|y l]]; simpl; intros H L;
    [now destruct H|now exists x|lia].
Qed.

(** C1 (amended).  When the Quote Fetcher returns a summary, the values of
    its points are a non-empty sequence counted by [data_points];
    [year_change_pct] is the integer 0 when the sequence has at most one
    value, and otherwise the first value is not zero and [year_change_pct] is
    [round(((last - first) / first) * 100, 2)] (with two values or more and a
    zero first value no summary is returned).  When the offline fetcher
    stores an entry the same holds, the value for a single price being a
    float zero, which equals 0, when that price is finite.  On the sample
    request [action=get_stock&ticker=7203&interval=1d] with closes
    100, 105, 95, 110, 108 the answer is status 200 with [current_price] 108,
    [year_high] 110, [year_low] 95, [year_change_pct] 8.0 and [data_points]
    5.  On the closes 3, 4 both programs give 33.33, the double nearest to
    3333/100, where the quotient before rounding is 33.33333333333333. *)
Theorem C1_year_change_pct :
  (forall (E : Lambda.env) ticker interval sd,
      Lambda.get_stock_price_yfinance_v8 E ticker interval = Some sd ->
      let vp := map Lambda.value (Lambda.data sd) in
      vp <> []
      /\ Lambda.data_points sd = List.length vp
      /\ (List.length vp <= 1 -> Lambda.year_change_pct sd = NInt 0)
      /\ (1 < List.length vp ->
          exists f l,
            first vp = Ret f /\ last vp = Ret l /\ is_zero f = false
            /\ Lambda.year_change_pct sd
               = NFloat (round2 (fmul (fdiv (fsub l f) f) (float_of_Z 100)))))
  /\ (forall (E : FetchPrices.env) ticker name entry,
         FetchPrices.process E ticker name = Ret (Some entry) ->
         let vp := map FetchPrices.value (FetchPrices.data entry) in
         vp <> []
         /\ FetchPrices.data_points entry = List.length vp
         /\ (List.length vp <= 1 ->
             Forall (fun p => Req.valid_price p = true) vp ->
             num_eqb (NFloat (FetchPrices.year_change_pct entry)) (NInt 0)
             = true)
         /\ (1 < List.length vp ->
             exists f l,
               first vp = Ret f /\ last vp = Ret l /\ is_zero f = false
               /\ FetchPrices.year_change_pct entry
                  = round2 (fmul (fdiv (fsub l f) f) (float_of_Z 100))))
  /\ (exists r sd,
         Lambda.lambda_handler Req.sample_env
           (Req.get_event
              [("action", JStr "get_stock"); ("ticker", JStr "7203");
               ("interval", JStr "1d")])
         = Ret (r, [Lambda.FetchCall "7203.T" (JStr "1d")])
         /\ Lambda.statusCode r = 200%Z
         /\ Lambda.body r
            = Lambda.JsonDumps
                (Lambda.StockPayload "7203.T" (JStr "TOYOTA MOTOR CORP") sd
                   "2024-01-05 09:00:00 JST")
         /\ map Lambda.value (Lambda.data sd)
            = map float_of_Z [100; 105; 95; 110; 108]%Z
         /\ Lambda.current_price sd = float_of_Z 108
         /\ Lambda.year_high sd = float_of_Z 110
         /\ Lambda.year_low sd = float_of_Z 95
         /\ Lambda.year_change_pct sd = NFloat (float_of_Z 8)
         /\ Lambda.data_points sd = 5)
  /\ (exists sd entry,
         Lambda.get_stock_price_yfinance_v8
           (Req.world_of
              (Req.chart_document (JObj [])
                 (map JInt [1704067200; 1704153600]%Z) [JInt 3; JInt 4]))
           "7203.T" (JStr "1d") = Some sd
         /\ FetchPrices.process
              (Req.frame_of
                 [("2024-01-01", float_of_Z 3); ("2024-01-02", float_of_Z 4)])
              "7203.T" "トヨタ自動車" = Ret (Some entry)
         /\ Lambda.year_change_pct sd
            = NFloat (fdiv (float_of_Z 3333) (float_of_Z 100))
         /\ FetchPrices.year_change_pct entry
            = fdiv (float_of_Z 3333) (float_of_Z 100)
         /\ fmul (fdiv (fsub (float_of_Z 4) (float_of_Z 3)) (float_of_Z 3))
              (float_of_Z 100)
            <> fdiv (float_of_Z 3333) (float_of_Z 100)).
Proof.
  split; [|split; [|split]].
  - intros E ticker interval sd H.
    destruct (fetch_some_inv _ _ _ H)
      as (data & ts & ps & n & vp & _ & _ & _ & _ & Hv & Hne & S).
    cbn zeta. rewrite <- Hv.
    destruct (summarise_inv _ _ _ S) as (_ & Hl & _ & _ & Hp & Hn & _).
    split; [exact Hne|].
    split; [rewrite Hn, Hv; now rewrite length_map|].
    unfold Lambda.change_pct in Hp. split.
    + intros L. apply Nat.ltb_ge in L. rewrite L in Hp. now injection Hp.
    + intros L. apply Nat.ltb_lt in L. rewrite L in Hp. rewrite Hl in Hp.
      cbn [bind] in Hp.
      destruct (first vp) as [f|]; cbn [bind] in Hp; [|discriminate].
      unfold truediv in Hp.
      destruct (is_zero f) eqn:Z; cbn [bind] in Hp; [discriminate|].
      injection Hp as <-. exists f, (Lambda.current_price sd).
      now repeat split.
  - intros E ticker name entry H.
    destruct (process_inv _ _ _ H) as (rows & _ & _ & Hne & S).
    destruct (offline_summarise_inv _ _ _ S)
      as (_ & Hn & Hl & _ & _ & p0 & Hf & Hz & Hp).
    cbn zeta.
    assert (Hne' : map FetchPrices.value (FetchPrices.data entry) <> [])
      by now destruct (FetchPrices.data entry).
    split; [exact Hne'|]. split; [now rewrite length_map|]. split.
    + intros L F. destruct (length_le_one Hne' L) as (x & Hx).
      rewrite Hx in Hf, Hl, F. cbn in Hf, Hl.
      injection Hf as E1. injection Hl as E2.
      apply Forall_inv in F. rewrite <- E1 in Hz.
      destruct (single_change_zero x F Hz) as (s & Hs).
      rewrite Hp, <- E2, <- E1, Hs. reflexivity.
    + intros _. exists p0, (FetchPrices.current_price entry).
      now repeat split.
  - eexists _, _. split; [vm_compute; reflexivity|].
    repeat split; vm_compute; reflexivity.
  - eexists _, _. split; [vm_compute; reflexivity|].
    split; [vm_compute; reflexivity|]. split; [vm_compute; reflexivity|].
    split; [vm_compute; reflexivity|]. vm_compute. discriminate.
Qed.

Lemma C1_witness :
  (exists sd,
      Lambda.get_stock_price_yfinance_v8 Req.sample_env "7203.T" (JStr "1wk")
      = Some sd
      /\ Lambda.data_points sd = 5
      /\ Lambda.year_change_pct sd = NFloat (float_of_Z 8))
  /\ (exists entry,
         FetchPrices.process Req.sample_history "7203.T" "トヨタ自動車"
         = Ret (Some entry)
         /\ FetchPrices.data_points entry = 2
         /\ FetchPrices.year_change_pct entry = float_of_Z 8)
  /\ (exists entry,
         FetchPrices.process
           (Req.frame_of [("2024-01-01", float_of_Z 100)])
           "7203.T" "トヨタ自動車" = Ret (Some entry)
         /\ num_eqb (NFloat (FetchPrices.year_change_pct entry)) (NInt 0)
            = true).
Proof.
  destruct C1_year_change_pct as (Hr & Ho & _ & _).
  split; [|split].
  - destruct (Lambda.get_stock_price_yfinance_v8 Req.sample_env "7203.T"
                (JStr "1wk")) as [sd|] eqn:H;
      [|vm_compute in H; discriminate H].
    exists sd. split; [reflexivity|].
    destruct (Hr _ _ _ _ H) as (_ & Hn & _ & Hp).
    assert (Hv : map Lambda.value (Lambda.data sd)
                 = map float_of_Z [100; 105; 95; 110; 108]%Z)
      by (vm_compute in H; injection H as <-; vm_compute; reflexivity).
    rewrite Hv in Hn, Hp. split; [exact Hn|].
    destruct Hp as (f & l & Hf & Hl & _ & ->); [simpl; lia|].
    vm_compute in Hf, Hl. injection Hf as <-. injection Hl as <-.
    vm_compute. reflexivity.
  - destruct (FetchPrices.process Req.sample_history "7203.T" "トヨタ自動車")
      as [[entry|]|] eqn:H; try (vm_compute in H; discriminate H).
    exists entry. split; [reflexivity|].
    destruct (Ho _ _ _ _ H) as (_ & Hn & _ & Hp).
    assert (Hv : map FetchPrices.value (FetchPrices.data entry)
                 = map float_of_Z [100; 108]%Z)
      by (vm_compute in H; injection H as <-; vm_compute; reflexivity).
    rewrite Hv in Hn, Hp. split; [exact Hn|].
    destruct Hp as (f & l & Hf & Hl & _ & ->); [simpl; lia|].
    vm_compute in Hf, Hl. injection Hf as <-. injection Hl as <-.
    vm_compute. reflexivity.
  - destruct (FetchPrices.process
                (Req.frame_of [("2024-01-01", float_of_Z 100)])
                "7203.T" "トヨタ自動車")
      as [[entry|]|] eqn:H; try (vm_compute in H; discriminate H).
    exists entry. split; [reflexivity|].
    destruct (Ho _ _ _ _ H) as (_ & _ & Hz & _).
    assert (Hv : map FetchPrices.value (FetchPrices.data entry)
                 = [float_of_Z 100])
      by (vm_compute in H; injection H as <-; vm_compute; reflexivity).
    rewrite Hv in Hz. apply Hz; [simpl; lia|].
    repeat constructor.
Defined.

(** C1 as stated fails on two sequences of valid prices.  A single infinite
    close, which the offline filter keeps (it is truthy and equal to itself),
    gives the offline entry a [year_change_pct] of NaN, not 0.  The closes
    0, 5 give the Quote Fetcher no summary at all: the percentage divides by
    the first price, and the exception ends the fetch. *)
Lemma C1_counterexample :
  (exists entry,
      FetchPrices.process
        (Req.frame_of [("2024-01-01", S754_infinity false)])
        "7203.T" "トヨタ自動車" = Ret (Some entry)
      /\ map FetchPrices.value (FetchPrices.data entry)
         = [S754_infinity false]
      /\ FetchPrices.year_change_pct entry = S754_nan
      /\ num_eqb (NFloat (FetchPrices.year_change_pct entry)) (NInt 0)
         = false)
  /\ Lambda.get_stock_price_yfinance_v8
       (Req.world_of
          (Req.chart_document (JObj [])
             (map JInt [1704067200; 1704153600]%Z) [JInt 0; JInt 5]))
       "7203.T" (JStr "1d") = None.
Proof.
  split; [|vm_compute; reflexivity].
  eexists. split; [vm_compute; reflexivity|]. repeat split.
Qed.

(** ** C2: entries without a price are dropped *)

Lemma first_nonempty (vp : list float) :
  vp <> [] -> exists f, first vp = Ret f.
Proof. destruct vp as [|x vp]; [now intros []|]. now exists x. Qed.

Lemma change_pct_ok (vp : list float) :
  vp <> [] ->
  (1 < List.length vp -> forall f, first vp = Ret f -> is_zero f = false) ->
  exists pct, Lambda.change_pct vp = Ret pct.
Proof.
  intros Hne Hz. unfold Lambda.change_pct.
  destruct (1 <? List.length vp)%nat eqn:L; [|now eexists].
  apply Nat.ltb_lt in L.
  destruct (last_nonempty Hne) as (l & ->).
  destruct (first_nonempty Hne) as (f & Hf). rewrite Hf. cbn [bind].
  unfold truediv. rewrite (Hz L f Hf). cbn [bind]. now eexists.
Qed.

(** C2 (amended).  Router: when the timestamp array is at least as long as
    the close array, every timestamp paired with a price is well-formed, the
    close array holds one null amid N entries that are numbers which
    [float] accepts (an int beyond the range of a double is rejected) and
    turns into a float other than NaN, and the first price is not zero when
    N > 1, the fetch returns a
    summary whose points carry exactly those N prices in order, none of them
    NaN, with [year_high] a greatest and [year_low] a least of the N prices.
    Offline fetcher: when the frame holds one NaN close amid N closes that
    are neither NaN nor zero, the stored entry has exactly the N points of
    those rows, with [year_high] a greatest and [year_low] a least of the N
    closes. *)
Theorem C2_missing_entries_dropped :
  (forall (E : Lambda.env) ticker interval data short_name ts pre post,
      Lambda.chart_api E ticker interval = Lambda.HttpJson data ->
      Lambda.chart_arrays ticker data
      = Ret (Some (short_name, JArr ts, JArr (pre ++ JNull :: post))) ->
      List.length (pre ++ JNull :: post) <= List.length ts ->
      (forall i t p,
          nth_error ts i = Some t ->
          nth_error (pre ++ JNull :: post) i = Some p ->
          p <> JNull ->
          returns (Lambda.strftime_jst E t (Lambda.intraday interval))
          = true) ->
      Forall (fun p => exists f, Req.price_of p = Some f) (pre ++ post) ->
      pre ++ post <> [] ->
      (1 < List.length (pre ++ post) ->
       forall f, first (Req.prices_in (pre ++ post)) = Ret f ->
                 is_zero f = false) ->
      exists sd,
        Lambda.get_stock_price_yfinance_v8 E ticker interval = Some sd
        /\ map Lambda.value (Lambda.data sd) = Req.prices_in (pre ++ post)
        /\ List.length (Lambda.data sd) = List.length (pre ++ post)
        /\ Lambda.data_points sd = List.length (pre ++ post)
        /\ Forall (fun pt => is_nan (Lambda.value pt) = false) (Lambda.data sd)
        /\ Req.is_max_of (Lambda.year_high sd) (Req.prices_in (pre ++ post))
        /\ Req.is_min_of (Lambda.year_low sd) (Req.prices_in (pre ++ post)))
  /\ (forall (E : FetchPrices.env) ticker name pre d c post,
         FetchPrices.retry (FetchPrices.history E ticker) (seq 0 3) None
         = Some (pre ++ (d, c) :: post) ->
         is_nan c = true ->
         Forall (fun r => is_nan (snd r) = false /\ is_zero (snd r) = false)
           (pre ++ post) ->
         pre ++ post <> [] ->
         exists entry,
           FetchPrices.process E ticker name = Ret (Some entry)
           /\ FetchPrices.data entry = map Req.point_of_row (pre ++ post)
           /\ List.length (FetchPrices.data entry) = List.length (pre ++ post)
           /\ FetchPrices.data_points entry = List.length (pre ++ post)
           /\ Forall (fun pt => is_nan (FetchPrices.value pt) = false)
                (FetchPrices.data entry)
           /\ Req.is_max_of (FetchPrices.year_high entry)
                (map snd (pre ++ post))
           /\ Req.is_min_of (FetchPrices.year_low entry)
                (map snd (pre ++ post))).
Proof.
  split.
  - intros E ticker interval data sn ts pre post A Ar L T V Hne Hz.
    set (ps := pre ++ JNull :: post) in *.
    assert (V' : Forall (fun p => p = JNull
                                  \/ exists f, Req.price_of p = Some f) ps).
    { apply Forall_app in V. destruct V as [V1 V2].
      apply Forall_app. split.
      - eapply Forall_impl; [|exact V1]. intros p H. now right.
      - constructor; [now left|].
        eapply Forall_impl; [|exact V2]. intros p H. now right. }
    destruct (prices_in_valid V) as [Hlen Hnan].
    assert (Hp : Req.prices_in ps = Req.prices_in (pre ++ post))
      by apply prices_in_null.
    destruct (pair_loop_valid E interval ts [] [] L T V') as (cd & Hl & Hm).
    cbn [app] in Hl. rewrite Hp in Hl, Hm.
    assert (Hvne : Req.prices_in (pre ++ post) <> []).
    { intros Hnil. rewrite Hnil in Hlen. simpl in Hlen.
      destruct (pre ++ post); [now apply Hne|discriminate]. }
    assert (Hz' : 1 < List.length (Req.prices_in (pre ++ post)) ->
                  forall f, first (Req.prices_in (pre ++ post)) = Ret f ->
                            is_zero f = false)
      by (rewrite Hlen; exact Hz).
    destruct (change_pct_ok Hvne Hz') as (pct & Hpct).
    destruct (summarise_ok cd sn Hvne Hpct) as (sd & S).
    exists sd.
    destruct (summarise_inv _ _ _ S) as (Hd & _ & Hmax & Hmin & _ & Hn & _).
    assert (F : Lambda.get_stock_price_yfinance_v8 E ticker interval
                = Some sd).
    { rewrite (fetch_of_body _ _ _ A). unfold Lambda.chart_body.
      rewrite Ar. cbn [bind]. unfold Lambda.series. cbn [py_len bind].
      pose proof (chart_loop_pairs E interval ts [] [] ps [] [] eq_refl)
        as CL.
      cbn [app List.length] in CL. rewrite CL, Hl. cbn [bind].
      destruct (Req.prices_in (pre ++ post)); [now destruct Hvne|].
      now rewrite S. }
    split; [exact F|]. rewrite Hd.
    split; [exact Hm|].
    split; [now rewrite <- (length_map Lambda.value), Hm|].
    split; [now rewrite Hn, <- (length_map Lambda.value), Hm|].
    split.
    { apply Forall_forall. intros pt Hpt.
      rewrite Forall_forall in Hnan. apply Hnan. rewrite <- Hm.
      now apply in_map. }
    split; [now apply py_max_spec|now apply py_min_spec].
  - intros E ticker name pre d c post R Hc V Hne.
    assert (Hk : filter Req.kept_row (pre ++ (d, c) :: post) = pre ++ post).
    { apply Forall_app in V. destruct V as [V1 V2].
      assert (K : forall l,
                 Forall (fun r => is_nan (snd r) = false
                                  /\ is_zero (snd r) = false) l ->
                 filter Req.kept_row l = l).
      { induction 1 as [|r l Hr _ IH]; [reflexivity|]. simpl.
        apply kept_row_iff in Hr. now rewrite Hr, IH. }
      rewrite filter_app. simpl.
      assert (Kc : Req.kept_row (d, c) = false).
      { destruct (Req.kept_row (d, c)) eqn:Kc; [|reflexivity].
        apply kept_row_iff in Kc. simpl in Kc. destruct Kc. congruence. }
      now rewrite Kc, !K. }
    assert (Hcd : map Req.point_of_row (pre ++ post) <> [])
      by now destruct (pre ++ post).
    assert (Hvals : map FetchPrices.value (map Req.point_of_row (pre ++ post))
                    = map snd (pre ++ post))
      by (rewrite map_map; reflexivity).
    assert (Hnan : Forall (fun v => is_nan v = false) (map snd (pre ++ post))).
    { apply Forall_map. eapply Forall_impl; [|exact V]. now intros r [? _]. }
    assert (Hz : forall p0,
               first (map FetchPrices.value
                        (map Req.point_of_row (pre ++ post))) = Ret p0 ->
               is_zero p0 = false).
    { rewrite Hvals. destruct (pre ++ post) as [|r l]; [discriminate|].
      intros p0 [= <-]. inversion V; subst. tauto. }
    destruct (offline_summarise_ok name ticker Hcd Hz) as (entry & S).
    exists entry.
    destruct (offline_summarise_inv _ _ _ S)
      as (Hd & Hn & _ & Hmax & Hmin & _).
    rewrite Hvals in Hmax, Hmin.
    split.
    { unfold FetchPrices.process. rewrite R.
      assert (Em : FetchPrices.empty (pre ++ (d, c) :: post) = false)
        by now destruct pre.
      rewrite Em, rows_loop_filter, Hk. cbn [app].
      destruct (map Req.point_of_row (pre ++ post)); [now destruct Hcd|].
      now rewrite S. }
    rewrite Hd, Hn.
    split; [reflexivity|]. split; [apply length_map|].
    split; [apply length_map|]. split.
    { apply Forall_map. eapply Forall_impl; [|exact V]. now intros r [? _]. }
    split; [now apply py_max_spec|now apply py_min_spec].
Qed.

Lemma C2_witness :
  (exists sd,
      Lambda.get_stock_price_yfinance_v8
        (Req.world_of
           (Req.chart_document (JObj [])
              (map JInt [1704067200; 1704153600; 1704240000]%Z)
              [JInt 100; JNull; JInt 105]))
        "7203.T" (JStr "1d") = Some sd
      /\ List.length (Lambda.data sd) = 2)
  /\ (exists entry,
         FetchPrices.process
           (Req.frame_of
              [ ("2024-01-01", float_of_Z 100); ("2024-01-02", S754_nan);
                ("2024-01-03", float_of_Z 108) ])
           "7203.T" "トヨタ自動車" = Ret (Some entry)
         /\ List.length (FetchPrices.data entry) = 2).
Proof.
  destruct C2_missing_entries_dropped as [Hr Ho]. split.
  - destruct (Hr (Req.world_of
                    (Req.chart_document (JObj [])
                       (map JInt [1704067200; 1704153600; 1704240000]%Z)
                       [JInt 100; JNull; JInt 105]))
                "7203.T" (JStr "1d") _ (JStr "7203.T")
                (map JInt [1704067200; 1704153600; 1704240000]%Z)
                [JInt 100] [JInt 105] eq_refl eq_refl)
      as (sd & H & _ & Hlen & _).
    + simpl. lia.
    + intros i t p Ht _ _. cbn [map] in Ht.
      do 3 (destruct i as [|i]; [injection Ht as <-; reflexivity|]).
      now destruct i.
    + repeat constructor; eexists; vm_compute; reflexivity.
    + discriminate.
    + intros _ f Hf. vm_compute in Hf. injection Hf as <-. reflexivity.
    + exists sd. split; [exact H|exact Hlen].
  - destruct (Ho (Req.frame_of
                    [ ("2024-01-01", float_of_Z 100); ("2024-01-02", S754_nan);
                      ("2024-01-03", float_of_Z 108) ])
                "7203.T" "トヨタ自動車"
                [("2024-01-01", float_of_Z 100)] "2024-01-02" S754_nan
                [("2024-01-03", float_of_Z 108)] eq_refl eq_refl)
      as (entry & H & _ & Hlen & _).
    + repeat constructor.
    + discriminate.
    + exists entry. split; [exact H|exact Hlen].
Defined.

(** C2 as stated fails on three inputs.  A close array with one
    null amid two valid entries and a single timestamp gives one point, not
    two.  A NaN entry (which [json.loads] accepts) amid two valid entries is
    not dropped by the router: three points, one of them NaN.  A zero close
    amid the valid closes of a frame is dropped by the offline fetcher along
    with the NaN one: two points for three valid closes. *)
Lemma C2_counterexample :
  (exists sd,
      Lambda.get_stock_price_yfinance_v8
        (Req.world_of
           (Req.chart_document (JObj []) [JInt 1704067200]
              [JInt 100; JNull; JInt 105]))
        "7203.T" (JStr "1d") = Some sd
      /\ List.length (Lambda.data sd) = 1
      /\ Lambda.year_high sd = float_of_Z 100)
  /\ (exists sd,
         Lambda.get_stock_price_yfinance_v8
           (Req.world_of
              (Req.chart_document (JObj [])
                 (map JInt [1704067200; 1704153600; 1704240000]%Z)
                 [JFloat (float_of_Z 100); JFloat S754_nan;
                  JFloat (float_of_Z 105)]))
           "7203.T" (JStr "1d") = Some sd
         /\ map Lambda.value (Lambda.data sd)
            = [float_of_Z 100; S754_nan; float_of_Z 105])
  /\ (exists entry,
         FetchPrices.process
           (Req.frame_of
              [ ("2024-01-01", float_of_Z 100); ("2024-01-02", S754_nan);
                ("2024-01-03", S754_zero false);
                ("2024-01-04", float_of_Z 108) ])
           "7203.T" "トヨタ自動車" = Ret (Some entry)
         /\ map FetchPrices.value (FetchPrices.data entry)
            = [float_of_Z 100; float_of_Z 108]).
Proof.
  split; [|split]; eexists; (split; [vm_compute; reflexivity|]);
    repeat split; vm_compute; reflexivity.
Qed.

(** ** C4: the two reduce steps *)

Lemma reduce_steps_agree (cd : list Lambda.price_point)
    (cd' : list FetchPrices.price_point) (short_name : json)
    (name ticker : string) (p0 : float) :
  map Lambda.value cd = map FetchPrices.value cd' ->
  first (map Lambda.value cd) = Ret p0 ->
  is_zero p0 = false ->
  1 < List.length cd \/ Req.valid_price p0 = true ->
  exists sd entry,
    Lambda.summarise cd (map Lambda.value cd) short_name = Ret sd
    /\ FetchPrices.summarise name ticker cd' = Ret entry
    /\ Req.same_statistics sd entry
    /\ (1 < List.length cd ->
        Lambda.year_change_pct sd
        = NFloat (FetchPrices.year_change_pct entry)).
Proof.
  revert cd cd' short_name name ticker p0.
  intros cd cd' sn name ticker p0 Hv Hf Hz Hcase.
  assert (Hlen : List.length cd' = List.length cd)
    by (rewrite <- (length_map FetchPrices.value), <- Hv; apply length_map).
  unfold Lambda.summarise, FetchPrices.summarise, Lambda.change_pct.
  cbn zeta. rewrite <- Hv, Hlen, length_map.
  set (prices := map Lambda.value cd) in *.
  assert (Hne : prices <> []) by (destruct prices; discriminate).
  destruct (last_nonempty Hne) as (l & Hl). rewrite Hl, Hf.
  destruct prices as [|x rest] eqn:P; [now destruct Hne|].
  injection Hf as ->.
  cbn [py_max py_min bind]. unfold truediv. rewrite Hz. cbn [bind].
  destruct (1 <? List.length cd)%nat eqn:L; cbn [bind].
  + eexists _, _. split; [reflexivity|]. split; [reflexivity|].
    split; [|reflexivity]. unfold Req.same_statistics.
    repeat split; try reflexivity. now left.
  + apply Nat.ltb_ge in L.
    destruct Hcase as [Hcase|Hfin]; [lia|].
    assert (Hrest : rest = []).
    { assert (Hl1 : List.length (p0 :: rest) = List.length cd)
        by (rewrite <- P; apply length_map).
      destruct rest; [reflexivity|simpl in Hl1; lia]. }
    subst rest. cbn in Hl. injection Hl as <-.
    destruct (single_change_zero p0 Hfin Hz) as (s & Hs).
    eexists _, _. split; [reflexivity|]. split; [reflexivity|].
    split; [|intros L'; lia]. unfold Req.same_statistics.
    repeat split; try reflexivity. right.
    cbn [Lambda.year_change_pct FetchPrices.year_change_pct].
    rewrite Hs. reflexivity.
Qed.

(** C4 (amended).  On the same non-empty sequence of prices, carried by the
    points of either program, whose first price is not zero and which has at
    least two prices or one finite price, both reduce steps return and their
    statistics agree ([year_change_pct] is the same float for two prices or
    more, and the router's integer 0 against a float zero for a single
    price).  In particular, whenever the Quote Fetcher returns a summary and
    the offline fetcher stores an entry over the same values, with at least
    two values or finite ones, the five statistics of the two agree. *)
Theorem C4_reduce_steps_agree :
  (forall (cd : list Lambda.price_point) (cd' : list FetchPrices.price_point)
          (short_name : json) (name ticker : string) (p0 : float),
      map Lambda.value cd = map FetchPrices.value cd' ->
      first (map Lambda.value cd) = Ret p0 ->
      is_zero p0 = false ->
      1 < List.length cd \/ Req.valid_price p0 = true ->
      exists sd entry,
        Lambda.summarise cd (map Lambda.value cd) short_name = Ret sd
        /\ FetchPrices.summarise name ticker cd' = Ret entry
        /\ Req.same_statistics sd entry
        /\ (1 < List.length cd ->
            Lambda.year_change_pct sd
            = NFloat (FetchPrices.year_change_pct entry)))
  /\ (forall (E : Lambda.env) (E' : FetchPrices.env) ticker interval
             ticker' name sd entry,
         Lambda.get_stock_price_yfinance_v8 E ticker interval = Some sd ->
         FetchPrices.process E' ticker' name = Ret (Some entry) ->
         map Lambda.value (Lambda.data sd)
         = map FetchPrices.value (FetchPrices.data entry) ->
         1 < List.length (Lambda.data sd)
         \/ Forall (fun v => Req.valid_price v = true)
              (map Lambda.value (Lambda.data sd)) ->
         Req.same_statistics sd entry
         /\ (1 < List.length (Lambda.data sd) ->
             Lambda.year_change_pct sd
             = NFloat (FetchPrices.year_change_pct entry))).
Proof.
  split; [exact reduce_steps_agree|].
  intros E E' ticker interval ticker' name sd entry F P Hv Hcase.
  apply fetch_some_inv in F.
  destruct F as (data & tss & pss & n & vp & _ & _ & _ & _ & -> & _ & S).
  apply process_inv in P. destruct P as (rows & _ & _ & _ & S').
  pose proof S' as Inv. apply offline_summarise_inv in Inv. cbn zeta in Inv.
  destruct Inv as (_ & _ & _ & _ & _ & p0 & Hf & Hz & _).
  rewrite <- Hv in Hf.
  assert (Hc : 1 < List.length (Lambda.data sd) \/ Req.valid_price p0 = true).
  { destruct Hcase as [L|V]; [now left|right].
    destruct (map Lambda.value (Lambda.data sd)) as [|x l]; [discriminate|].
    injection Hf as <-. now inversion V. }
  destruct (@reduce_steps_agree (Lambda.data sd) (FetchPrices.data entry)
              (Lambda.short_name sd) name ticker' p0 Hv Hf Hz Hc)
    as (sd0 & entry0 & S0 & S0' & St & Pc).
  rewrite S in S0. injection S0 as <-.
  rewrite S' in S0'. injection S0' as <-.
  split; [exact St|exact Pc].
Qed.

Lemma C4_witness :
  (exists sd entry,
      Lambda.summarise
        [ {| Lambda.time := "2024-01-01"; Lambda.value := float_of_Z 100 |} ]
        [float_of_Z 100] (JStr "7203.T") = Ret sd
      /\ FetchPrices.summarise "トヨタ自動車" "7203.T"
           [ {| FetchPrices.time := "2024-01-01";
                FetchPrices.value := float_of_Z 100 |} ] = Ret entry
      /\ Req.same_statistics sd entry)
  /\ (exists sd entry,
         Lambda.get_stock_price_yfinance_v8 Req.sample_env "7203.T"
           (JStr "1d") = Some sd
         /\ FetchPrices.process
              (Req.frame_of
                 [ ("2024-01-01", float_of_Z 100);
                   ("2024-01-02", float_of_Z 105);
                   ("2024-01-03", float_of_Z 95);
                   ("2024-01-04", float_of_Z 110);
                   ("2024-01-05", float_of_Z 108) ])
              "7203.T" "トヨタ自動車" = Ret (Some entry)
         /\ Req.same_statistics sd entry
         /\ Lambda.year_change_pct sd
            = NFloat (FetchPrices.year_change_pct entry)).
Proof.
  destruct C4_reduce_steps_agree as [Hok Hrun]. split.
  - destruct (Hok
                [ {| Lambda.time := "2024-01-01";
                     Lambda.value := float_of_Z 100 |} ]
                [ {| FetchPrices.time := "2024-01-01";
                     FetchPrices.value := float_of_Z 100 |} ]
                (JStr "7203.T") "トヨタ自動車" "7203.T" (float_of_Z 100)
                eq_refl eq_refl eq_refl (or_intror eq_refl))
      as (sd & entry & H1 & H2 & H3 & _).
    exists sd, entry. split; [exact H1|]. split; [exact H2|exact H3].
  - destruct (Lambda.get_stock_price_yfinance_v8 Req.sample_env "7203.T"
                (JStr "1d")) as [sd|] eqn:F;
      [|vm_compute in F; discriminate F].
    destruct (FetchPrices.process
                (Req.frame_of
                   [ ("2024-01-01", float_of_Z 100);
                     ("2024-01-02", float_of_Z 105);
                     ("2024-01-03", float_of_Z 95);
                     ("2024-01-04", float_of_Z 110);
                     ("2024-01-05", float_of_Z 108) ])
                "7203.T" "トヨタ自動車") as [[entry|]|] eqn:P;
      try (vm_compute in P; discriminate P).
    exists sd, entry. split; [reflexivity|]. split; [reflexivity|].
    assert (Hv : map Lambda.value (Lambda.data sd)
                 = map FetchPrices.value (FetchPrices.data entry)).
    { pose proof F as F'. pose proof P as P'.
      vm_compute in F'. injection F' as <-.
      vm_compute in P'. injection P' as <-. reflexivity. }
    assert (Hl : 1 < List.length (Lambda.data sd)).
    { pose proof F as F'. vm_compute in F'. injection F' as <-.
      simpl. lia. }
    destruct (Hrun _ _ _ _ _ _ _ _ F P Hv (or_introl Hl)) as [St Pc].
    split; [exact St|exact (Pc Hl)].
Defined.

(** C4 as stated fails on a single infinite close, which both programs keep
    as a valid price ([json.loads] reads [Infinity], and the offline filter
    keeps a close that is truthy and equal to itself): over the same
    one-price sequence the router's summary has [year_change_pct] 0 and the
    offline entry has NaN, which no number equals. *)
Lemma C4_counterexample :
  exists sd entry,
    Lambda.get_stock_price_yfinance_v8
      (Req.world_of
         (Req.chart_document (JObj []) [JInt 1704067200]
            [JFloat (S754_infinity false)]))
      "7203.T" (JStr "1d") = Some sd
    /\ FetchPrices.process
         (Req.frame_of [("2024-01-01", S754_infinity false)])
         "7203.T" "トヨタ自動車" = Ret (Some entry)
    /\ map Lambda.value (Lambda.data sd) = [S754_infinity false]
    /\ map FetchPrices.value (FetchPrices.data entry) = [S754_infinity false]
    /\ Lambda.year_change_pct sd = NInt 0
    /\ FetchPrices.year_change_pct entry = S754_nan
    /\ num_eqb (Lambda.year_change_pct sd)
         (NFloat (FetchPrices.year_change_pct entry)) = false.
Proof.
  eexists _, _. split; [vm_compute; reflexivity|].
  split; [vm_compute; reflexivity|]. repeat split.
Qed.

(** * Further properties *)

(** ** The search URL *)

Ltac each_ascii c :=
  destruct c as [[] [] [] [] [] [] [] []].

Lemma quote_char_clean (c : ascii) :
  (always_safe c || Ascii.eqb c "/"%char = true
   -> Req.url_delimiter c = false)
  /\ Req.url_delimiter (hex_digit (nat_of_ascii c / 16)) = false
  /\ Req.url_delimiter (hex_digit (nat_of_ascii c mod 16)) = false.
Proof. each_ascii c; vm_compute; repeat split; congruence. Qed.

Lemma quote_char_decode (c : ascii) :
  always_safe c || Ascii.eqb c "/"%char = false ->
  Req.hex_value (hex_digit (nat_of_ascii c / 16))
  = Some (nat_of_ascii c / 16)
  /\ Req.hex_value (hex_digit (nat_of_ascii c mod 16))
     = Some (nat_of_ascii c mod 16)
  /\ ascii_of_nat (16 * (nat_of_ascii c / 16) + nat_of_ascii c mod 16) = c.
Proof. each_ascii c; vm_compute; intros H; repeat split; congruence. Qed.

Lemma safe_not_percent (c : ascii) :
  always_safe c || Ascii.eqb c "/"%char = true ->
  Ascii.eqb c "%"%char = false.
Proof. each_ascii c; vm_compute; congruence. Qed.

Lemma unquote_plain (c : ascii) (rest : string) :
  Ascii.eqb c "%"%char = false ->
  Req.unquote (String c rest) = String c (Req.unquote rest).
Proof.
  intros H. destruct rest as [|a [|b t]]; simpl; try reflexivity.
  now rewrite H.
Qed.

Lemma unquote_quote (q : string) : Req.unquote (quote q) = q.
Proof.
  induction q as [|c q IH]; [reflexivity|]. cbn [quote].
  destruct (always_safe c || Ascii.eqb c "/"%char) eqn:S.
  - rewrite (@unquote_plain c (quote q) (@safe_not_percent c S)).
    now rewrite IH.
  - destruct (@quote_char_decode c S) as (H1 & H2 & H3).
    cbn [Req.unquote]. change (Ascii.eqb "%" "%") with true. cbv iota.
    now rewrite H1, H2, H3, IH.
Qed.

Lemma append_inv_head (p a b : string) :
  (p ++ a)%string = (p ++ b)%string -> a = b.
Proof.
  induction p as [|c p IH]; simpl; [tauto|]. intros [= H]. now apply IH.
Qed.

Lemma append_length (a b : string) :
  String.length (a ++ b) = String.length a + String.length b.
Proof. induction a; simpl; congruence. Qed.

Lemma append_inv_tail (a b s : string) :
  (a ++ s)%string = (b ++ s)%string -> a = b.
Proof.
  revert b. induction a as [|c a IH]; intros b H.
  - destruct b as [|d b]; [reflexivity|].
    apply (f_equal String.length) in H. simpl in H.
    rewrite append_length in H. lia.
  - destruct b as [|d b].
    + apply (f_equal String.length) in H. simpl in H.
      rewrite append_length in H. lia.
    + simpl in H. injection H as -> H. f_equal. now apply IH.
Qed.

(** X16.  The percent-encoded query never holds a character that separates
    or delimits URL parameters, so the search URL carries the query in its
    [q] parameter and nothing else of it; decoding the encoded query gives
    the query back, hence distinct queries have distinct encodings and
    distinct search URLs. *)
Theorem X16_search_url_encoding :
  (forall q,
      Req.string_forall (fun c => negb (Req.url_delimiter c)) (quote q)
      = true)
  /\ (forall q, Req.unquote (quote q) = q)
  /\ (forall q1 q2, quote q1 = quote q2 -> q1 = q2)
  /\ (forall q1 q2, Lambda.search_url q1 = Lambda.search_url q2 -> q1 = q2).
Proof.
  assert (Inj : forall q1 q2, quote q1 = quote q2 -> q1 = q2).
  { intros q1 q2 H. rewrite <- (unquote_quote q1), <- (unquote_quote q2).
    now rewrite H. }
  split; [|split; [exact unquote_quote|split; [exact Inj|]]].
  - induction q as [|c q IH]; [reflexivity|]. cbn [quote].
    destruct (quote_char_clean c) as (H1 & H2 & H3).
    destruct (always_safe c || Ascii.eqb c "/"%char) eqn:S;
      cbn [Req.string_forall].
    + now rewrite (H1 eq_refl), IH.
    + now rewrite H2, H3, IH.
  - intros q1 q2 H. unfold Lambda.search_url in H.
    apply append_inv_head in H.
    apply append_inv_tail in H. now apply Inj.
Qed.

Lemma X16_witness :
  "7203 & co" = "7203 & co"
  /\ Lambda.search_url "a&b" <> Lambda.search_url "a" .
Proof.
  destruct X16_search_url_encoding as (_ & _ & Hq & Hu). split.
  - apply Hq. reflexivity.
  - intros H. apply Hu in H. discriminate H.
Defined.

(** ** The routes of the handler *)

(** X1.  Search route: a missing or falsy [q] is answered with status 400 and
    no search; any other [q] is answered with status 200, the results of the
    search, the query as given and the cache header, after exactly one
    search.  A failed request, like a query that is not a string, shows as
    status 200 with an empty result list. *)
Theorem X1_search_route :
  forall (E : Lambda.env) event qp,
    Req.routed event qp ->
    Req.on_search qp ->
    let q := Req.qparam qp "q" (JStr "") in
    (truthy q = false ->
     Lambda.lambda_handler E event
     = Ret (Lambda.error_response 400 "検索クエリが必要です", []))
    /\ (truthy q = true ->
        Lambda.lambda_handler E event
        = Ret ({| Lambda.statusCode := 200;
                  Lambda.headers :=
                    Lambda.with_cors
                      [Lambda.content_type; Lambda.cache_control];
                  Lambda.body :=
                    Lambda.JsonDumps
                      (Lambda.SearchPayload (Lambda.search_ticker E q) q
                         (Lambda.now_jst_label E)) |},
               [Lambda.SearchCall q]))
    /\ (truthy q = true ->
        (forall s, q <> JStr s)
        \/ (exists s e, q = JStr s /\ Lambda.search_api E s = Lambda.HttpFail e) ->
        exists r,
          Lambda.lambda_handler E event = Ret (r, [Lambda.SearchCall q])
          /\ Lambda.statusCode r = 200%Z
          /\ Lambda.body r
             = Lambda.JsonDumps
                 (Lambda.SearchPayload [] q (Lambda.now_jst_label E))).
Proof.
  intros E event qp R A q.
  assert (H : Lambda.lambda_handler E event
              = Lambda.search_route E (JObj qp)).
  { rewrite (handler_routed E R). unfold Req.on_search in A. now rewrite A. }
  rewrite H. unfold Lambda.search_route. rewrite py_get_obj. cbn [bind].
  fold q. split; [|split].
  - intros T. now rewrite T.
  - intros T. now rewrite T.
  - intros T F. rewrite T. cbn [negb].
    assert (Hs : Lambda.search_ticker E q = []).
    { unfold Lambda.search_ticker, Lambda.search_attempt.
      destruct F as [F|(s & e & -> & F)].
      - destruct q; try reflexivity. now destruct (F s).
      - now rewrite F. }
    rewrite Hs. eexists. repeat split.
Qed.

Lemma X1_witness :
  Lambda.lambda_handler Req.sample_env
    (Req.get_event [("action", JStr "search")])
  = Ret (Lambda.error_response 400 "検索クエリが必要です", [])
  /\ (exists r,
         Lambda.lambda_handler (Req.world_of JNull)
           (Req.get_event [("action", JStr "search"); ("q", JStr "toyota")])
         = Ret (r, [Lambda.SearchCall (JStr "toyota")])
         /\ Lambda.statusCode r = 200%Z
         /\ Lambda.body r
            = Lambda.JsonDumps
                (Lambda.SearchPayload [] (JStr "toyota")
                   "2024-01-05 09:00:00 JST"))
  /\ (exists r,
         Lambda.lambda_handler Req.sample_env
           (Req.get_event [("action", JStr "search"); ("q", JStr "toyota")])
         = Ret (r, [Lambda.SearchCall (JStr "toyota")])
         /\ Lambda.statusCode r = 200%Z).
Proof.
  split; [|split].
  - apply (X1_search_route Req.sample_env
             (get_event_routed [("action", JStr "search")]));
      reflexivity.
  - apply (X1_search_route (Req.world_of JNull)
             (get_event_routed
                [("action", JStr "search"); ("q", JStr "toyota")]));
      [reflexivity|reflexivity|].
    right. exists "toyota", URLError. split; reflexivity.
  - eexists. split.
    + apply (X1_search_route Req.sample_env
               (get_event_routed
                  [("action", JStr "search"); ("q", JStr "toyota")]));
        reflexivity.
    + reflexivity.
Defined.



(** ** When the handler raises *)

Lemma py_get_raise (v : json) (k : string) (d : json) (e : exn) :
  py_get v k d = Raise e -> e = AttributeError.
Proof.
  destruct v; simpl; try (now intros [= <-]).
  destruct (jget kv k); discriminate.
Qed.

Ltac get_or_raise H x :=
  match type of H with
  | bind (py_get ?v ?k ?d) _ = _ =>
      let G := fresh "G" in
      destruct (py_get v k d) as [x|] eqn:G; cbn [bind] in H;
      [|injection H as <-; now apply py_get_raise in G]
  end.

Lemma http_method_raise (event : json) (e : exn) :
  Lambda.http_method_of event = Raise e -> e = AttributeError.
Proof.
  unfold Lambda.http_method_of. intros H. get_or_raise H m.
  destruct (truthy m); [discriminate|].
  get_or_raise H rc. get_or_raise H http. now apply py_get_raise in H.
Qed.

Lemma string_params_get (qp : list (string * json)) (k d : string) :
  Req.string_params qp -> exists s, Req.qparam qp k (JStr d) = JStr s.
Proof.
  unfold Req.qparam. intros F.
  destruct (jget qp k) as [v|] eqn:G; [|now exists d].
  induction F as [|[k' v'] qp (s & Hs) _ IH]; [discriminate|].
  unfold jget in *. simpl in G, Hs.
  destruct (String.eqb k' k); [|now apply IH].
  injection G as <-. now exists s.
Qed.

(** With its log lines left out, the only exception the handler lets out is
    [AttributeError], and it returns a response whenever the request is
    routed and the [ticker] and [tickers] parameters are strings or falsy, in
    particular on every event the gateway builds. *)
Lemma core_handler_exceptions :
  (forall (E : Lambda.env) event e,
      Lambda.lambda_handler E event = Raise e -> e = AttributeError)
  /\ (forall (E : Lambda.env) event qp,
         Req.routed event qp ->
         Req.str_or_falsy (Req.qparam qp "ticker" (JStr "")) = true ->
         Req.str_or_falsy (Req.qparam qp "tickers" (JStr "")) = true ->
         exists r calls, Lambda.lambda_handler E event = Ret (r, calls))
  /\ (forall (E : Lambda.env) event,
         Req.gateway_event event ->
         exists r calls, Lambda.lambda_handler E event = Ret (r, calls)).
Proof.
  assert (Routed : forall (E : Lambda.env) event qp,
             Req.routed event qp ->
             Req.str_or_falsy (Req.qparam qp "ticker" (JStr "")) = true ->
             Req.str_or_falsy (Req.qparam qp "tickers" (JStr "")) = true ->
             exists r calls, Lambda.lambda_handler E event = Ret (r, calls)).
  { intros E event qp R T1 T2. rewrite (handler_routed E R).
    destruct (eq_str (Req.action_of qp) "search").
    { unfold Lambda.search_route. rewrite py_get_obj. cbn [bind].
      destruct (negb (truthy _)); now eexists _, _. }
    destruct (eq_str (Req.action_of qp) "get_stock").
    - unfold Lambda.get_stock_route. rewrite !py_get_obj. cbn [bind].
      destruct (negb (in_strs _ _)); [now eexists _, _|].
      destruct (Req.qparam qp "ticker" (JStr "")) as [| |z|f|s|l|kv] eqn:Q;
        cbn [Req.str_or_falsy] in T1;
        try (rewrite T1; now eexists _, _).
      destruct (negb (truthy (JStr s))); [now eexists _, _|].
      destruct (Lambda.get_stock_price_yfinance_v8 E _ _);
        now eexists _, _.
    - destruct (in_strs (Req.interval_of qp) Lambda.valid_intervals) eqn:I.
      + rewrite (get_stocks_route_valid E qp I T2).
        destruct (Req.batch_response E _) as [r calls]. now exists r, calls.
      + rewrite (get_stocks_route_invalid E qp I). now eexists _, _. }
  split; [|split; [exact Routed|]].
  - intros E event e H. unfold Lambda.lambda_handler in H.
    destruct (Lambda.http_method_of event) as [m|e'] eqn:M; cbn [bind] in H;
      [|injection H as <-; now apply http_method_raise in M].
    destruct (eq_str m "OPTIONS"); [discriminate|].
    unfold Lambda.query_params_of in H.
    destruct (py_get event "queryStringParameters" JNull) as [q|e'] eqn:G;
      cbn [bind] in H; [|injection H as <-; now apply py_get_raise in G].
    get_or_raise H action.
    destruct (eq_str action "search").
    { unfold Lambda.search_route in H. get_or_raise H sq.
      destruct (negb (truthy sq)); discriminate. }
    destruct (eq_str action "get_stock").
    + unfold Lambda.get_stock_route in H.
      get_or_raise H ticker. get_or_raise H interval.
      destruct (negb (in_strs _ _)); [discriminate|].
      destruct (negb (truthy ticker)); [discriminate|].
      destruct ticker; try (now injection H as <-).
      destruct (Lambda.get_stock_price_yfinance_v8 E _ _); discriminate.
    + unfold Lambda.get_stocks_route in H.
      get_or_raise H tickers. get_or_raise H interval.
      destruct (negb (in_strs _ _)); [discriminate|].
      destruct (truthy tickers).
      * destruct tickers; cbn [bind] in H; try (now injection H as <-).
        destruct (Lambda.batch_loop E interval _) as [[? ?] ?]. discriminate.
      * cbn [bind] in H.
        destruct (Lambda.batch_loop E interval _) as [[? ?] ?]. discriminate.
  - intros E event (ev & m & -> & Hm & Ne & Hq).
    assert (Hmeth : Lambda.http_method_of (JObj ev) = Ret (JStr m)).
    { unfold Lambda.http_method_of, py_get. rewrite Hm. cbn [bind truthy].
      apply String.eqb_neq in Ne. now rewrite Ne. }
    destruct (eq_str (JStr m) "OPTIONS") eqn:O.
    { unfold Lambda.lambda_handler. rewrite Hmeth. cbn [bind]. rewrite O.
      now eexists _, _. }
    assert (P : exists qp,
               Lambda.query_params_of (JObj ev) = Ret (JObj qp)
               /\ Req.string_params qp).
    { unfold Lambda.query_params_of, py_get.
      destruct Hq as [Hq|[Hq|(qp & Hq & Hs)]]; rewrite Hq; cbn [bind truthy].
      - exists []. split; [reflexivity|constructor].
      - exists []. split; [reflexivity|constructor].
      - exists qp. split; [|exact Hs]. now destruct qp. }
    destruct P as (qp & Hqp & Hs).
    apply (Routed E (JObj ev) qp).
    + exists (JStr m). now repeat split.
    + destruct (string_params_get "ticker" "" Hs) as (s & ->). reflexivity.
    + destruct (string_params_get "tickers" "" Hs) as (s & ->). reflexivity.
Qed.


(** ** The shape of every response *)

Lemma error_response_shape (E : Lambda.env) (msg : string) :
  Req.well_shaped E (Lambda.error_response 400 msg) []
  /\ Req.header (Lambda.error_response 400 msg) "Cache-Control"
     = Req.cache_policy (Lambda.error_response 400 msg).
Proof. split; [now left|reflexivity]. Qed.

Lemma search_route_shape (E : Lambda.env) (q : json) (r : Lambda.response)
    (calls : list Lambda.call) :
  Lambda.search_route E q = Ret (r, calls) ->
  Req.well_shaped E r calls
  /\ Req.header r "Cache-Control" = Req.cache_policy r.
Proof.
  unfold Lambda.search_route.
  destruct (py_get q "q" (JStr "")) as [sq|]; cbn [bind]; [|discriminate].
  destruct (negb (truthy sq)); intros [= <- <-].
  - apply error_response_shape.
  - split; [|reflexivity]. now repeat split.
Qed.

Lemma get_stock_route_shape (E : Lambda.env) (q : json)
    (r : Lambda.response) (calls : list Lambda.call) :
  Lambda.get_stock_route E q = Ret (r, calls) ->
  Req.well_shaped E r calls
  /\ Req.header r "Cache-Control" = Req.cache_policy r.
Proof.
  unfold Lambda.get_stock_route.
  destruct (py_get q "ticker" (JStr "")) as [t|]; cbn [bind]; [|discriminate].
  destruct (py_get q "interval" (JStr "1d")) as [i|]; cbn [bind];
    [|discriminate].
  destruct (negb (in_strs i Lambda.valid_intervals));
    [intros [= <- <-]; apply error_response_shape|].
  destruct (negb (truthy t));
    [intros [= <- <-]; apply error_response_shape|].
  destruct t as [| | | |s| |]; try discriminate.
  destruct (Lambda.get_stock_price_yfinance_v8 E _ i) as [sd|] eqn:F;
    intros [= <- <-].
  - split; [|reflexivity]. split; [reflexivity|]. split; [reflexivity|].
    now exists i.
  - split; [|reflexivity]. right. split; [reflexivity|]. now eexists _, i.
Qed.

Lemma get_stocks_route_shape (E : Lambda.env) (q : json)
    (r : Lambda.response) (calls : list Lambda.call) :
  Lambda.get_stocks_route E q = Ret (r, calls) ->
  Req.well_shaped E r calls
  /\ Req.header r "Cache-Control" = Req.cache_policy r.
Proof.
  unfold Lambda.get_stocks_route.
  destruct (py_get q "tickers" (JStr "")) as [t|]; cbn [bind];
    [|discriminate].
  destruct (py_get q "interval" (JStr "1d")) as [i|]; cbn [bind];
    [|discriminate].
  destruct (negb (in_strs i Lambda.valid_intervals));
    [intros [= <- <-]; apply error_response_shape|].
  match goal with
  | |- bind ?t _ = _ -> _ => destruct t as [tk|]; cbn [bind]; [|discriminate]
  end.
  destruct (Lambda.batch_loop E i tk) as [[stocks sm] cs].
  intros [= <- <-]. split; [|reflexivity].
  unfold Req.well_shaped. cbn.
  destruct (Lambda.successful sm); [now right|left]. split; [reflexivity|lia].
Qed.

Lemma handler_shape (E : Lambda.env) (event : json) (r : Lambda.response)
    (calls : list Lambda.call) :
  Lambda.lambda_handler E event = Ret (r, calls) ->
  Req.well_shaped E r calls
  /\ Req.header r "Cache-Control" = Req.cache_policy r.
Proof.
  unfold Lambda.lambda_handler.
  destruct (Lambda.http_method_of event) as [m|]; cbn [bind]; [|discriminate].
  destruct (eq_str m "OPTIONS").
  { intros [= <- <-]. split; [|reflexivity]. now repeat split. }
  destruct (Lambda.query_params_of event) as [q|]; cbn [bind];
    [|discriminate].
  destruct (py_get q "action" (JStr "get_stocks")) as [a|]; cbn [bind];
    [|discriminate].
  destruct (eq_str a "search"); [apply search_route_shape|].
  destruct (eq_str a "get_stock");
    [apply get_stock_route_shape|apply get_stocks_route_shape].
Qed.

(** X4.  In every response the handler returns, the body settles the status
    and the calls made: the empty body goes with status 200 and no call; an
    error message goes with status 400 and no call, or with status 404 after
    one fetch that returned nothing; search results go with status 200 after
    one search; a summary goes with status 200 after the one fetch that
    returned it; a batch document goes with status 200 when a ticker was
    fetched and with status 500 when none was.  Hence the status is one of
    200, 400, 404 and 500, and a response of status 200 never carries an
    error message. *)
Theorem X4_response_shape :
  forall (E : Lambda.env) event r calls,
    Lambda.lambda_handler E event = Ret (r, calls) ->
    Req.well_shaped E r calls
    /\ In (Lambda.statusCode r) [200; 400; 404; 500]%Z
    /\ (Lambda.statusCode r = 200%Z ->
        forall msg,
          Lambda.body r <> Lambda.JsonDumps (Lambda.ErrorPayload msg))
    /\ (Lambda.statusCode r = 400%Z -> calls = []).
Proof.
  intros E event r calls H. destruct (handler_shape _ _ H) as [W _].
  split; [exact W|]. unfold Req.well_shaped in W.
  destruct (Lambda.body r) as [s|[msg|res q u|t n sd u|b]].
  - destruct W as (_ & S & C). rewrite S. split; [simpl; tauto|].
    split; [discriminate|]. discriminate.
  - destruct W as [[S C]|[S _]]; rewrite S; (split; [simpl; tauto|]);
      (split; [discriminate|]); try discriminate. now intros _.
  - destruct W as (S & _). rewrite S. split; [simpl; tauto|].
    split; [discriminate|]. discriminate.
  - destruct W as (S & _). rewrite S. split; [simpl; tauto|].
    split; [discriminate|]. discriminate.
  - destruct W as [[S _]|[S _]]; rewrite S; (split; [simpl; tauto|]);
      (split; [discriminate|]); discriminate.
Qed.

Lemma X4_witness :
  exists r calls,
    Lambda.lambda_handler Req.sample_env
      (Req.get_event [("action", JStr "get_stock"); ("ticker", JStr "9999")])
    = Ret (r, calls)
    /\ Req.well_shaped Req.sample_env r calls
    /\ Lambda.statusCode r = 404%Z.
Proof.
  destruct (Lambda.lambda_handler Req.sample_env
              (Req.get_event
                 [("action", JStr "get_stock"); ("ticker", JStr "9999")]))
    as [[r calls]|] eqn:H; [|vm_compute in H; discriminate H].
  exists r, calls. split; [reflexivity|].
  split; [exact (proj1 (X4_response_shape _ _ H))|].
  vm_compute in H. injection H as <- _. reflexivity.
Defined.

(** X5.  The cache header [Cache-Control: public, max-age=300] is on every
    response that carries search results, a summary or a batch document,
    the batch document of status 500 included, and on no response that
    carries an error message or the empty body. *)
Theorem X5_cache_header :
  forall (E : Lambda.env) event r calls,
    Lambda.lambda_handler E event = Ret (r, calls) ->
    Req.header r "Cache-Control" = Req.cache_policy r
    /\ (Lambda.statusCode r = 500%Z ->
        Req.header r "Cache-Control" = Some "public, max-age=300")
    /\ (Lambda.statusCode r = 400%Z \/ Lambda.statusCode r = 404%Z ->
        Req.header r "Cache-Control" = None).
Proof.
  intros E event r calls H. destruct (handler_shape _ _ H) as [W C].
  split; [exact C|]. rewrite C. unfold Req.well_shaped in W.
  unfold Req.cache_policy.
  destruct (Lambda.body r) as [s|[msg|res q u|t n sd u|b]].
  - destruct W as (_ & S & _). rewrite S. split; [discriminate|].
    now intros [|].
  - split; [|reflexivity]. destruct W as [[S _]|[S _]]; rewrite S;
      discriminate.
  - destruct W as (S & _). rewrite S. split; [reflexivity|].
    now intros [|].
  - destruct W as (S & _). rewrite S. split; [reflexivity|].
    now intros [|].
  - split; [reflexivity|]. destruct W as [[S _]|[S _]]; rewrite S;
      now intros [|].
Qed.

Lemma X5_witness :
  exists r calls,
    Lambda.lambda_handler Req.sample_env
      (Req.get_event [("tickers", JStr "6758")]) = Ret (r, calls)
    /\ Lambda.statusCode r = 500%Z
    /\ Req.header r "Cache-Control" = Some "public, max-age=300".
Proof.
  destruct (Lambda.lambda_handler Req.sample_env
              (Req.get_event [("tickers", JStr "6758")]))
    as [[r calls]|] eqn:H; [|vm_compute in H; discriminate H].
  exists r, calls. split; [reflexivity|].
  assert (S : Lambda.statusCode r = 500%Z)
    by (vm_compute in H; injection H as <- _; reflexivity).
  split; [exact S|].
  exact (proj1 (proj2 (X5_cache_header _ _ H)) S).
Defined.

(** ** The batch document *)





(** ** The calls the handler makes *)

Lemma fetch_calls_nodup (i : json) (keys : list string) :
  NoDup keys -> NoDup (map (fun k => Lambda.FetchCall k i) keys).
Proof.
  induction 1 as [|k keys Hk _ IH]; simpl; constructor; [|exact IH].
  intros Hin. apply in_map_iff in Hin. destruct Hin as (k' & [= ->] & Hin).
  tauto.
Qed.

Lemma batch_calls (E : Lambda.env) (i : json) (tk : list (string * string)) :
  NoDup (dict_keys tk) ->
  Forall (fun k => endswith k ".T" = true) (dict_keys tk) ->
  in_strs i Lambda.valid_intervals = true ->
  NoDup (snd (Lambda.batch_loop E i tk))
  /\ Forall Req.permitted_call (snd (Lambda.batch_loop E i tk)).
Proof.
  intros ND Hs Hi.
  pose proof (batch_fold_spec E i (List.length tk) tk ND) as S.
  unfold Lambda.batch_loop. unfold Req.batch_init in S.
  destruct (fold_left _ _ _) as [[stocks sm] calls].
  destruct S as (_ & _ & _ & _ & _ & ->). cbn [snd]. split.
  - now apply fetch_calls_nodup.
  - apply Forall_map. eapply Forall_impl; [|exact Hs].
    intros k Hk. now split.
Qed.

Lemma tickers_suffix (tickers_param : json) (tk : list (string * string)) :
  (if truthy tickers_param then
     match tickers_param with
     | JStr s => Ret (Lambda.tickers_of (Lambda.ticker_list s))
     | _ => Raise AttributeError
     end
   else Ret Lambda.TICKERS) = Ret tk ->
  NoDup (dict_keys tk)
  /\ Forall (fun k => endswith k ".T" = true) (dict_keys tk).
Proof.
  destruct (truthy tickers_param).
  - destruct tickers_param as [| | | |s| |]; try discriminate.
    intros [= <-].
    destruct (tickers_of_keys (Lambda.ticker_list s)) as (ND & Hk & _).
    split; [exact ND|]. apply Forall_forall. intros k Hin.
    apply Hk, in_map_iff in Hin. destruct Hin as (t & <- & _).
    apply normalize_ticker_suffix.
  - intros [= <-]. split; [apply default_tickers_nodup|].
    repeat constructor.
Qed.

(** X7.  Whatever the event, the calls made for a returned response hold no
    call twice, and each of them is a fetch of a ticker that ends with [".T"]
    at one of the six accepted intervals, or a search of a truthy query: the
    Quote Fetcher never sees a ticker or an interval as the request gave
    them, and no ticker is fetched twice. *)
Theorem X7_permitted_calls :
  forall (E : Lambda.env) event r calls,
    Lambda.lambda_handler E event = Ret (r, calls) ->
    NoDup calls /\ Forall Req.permitted_call calls.
Proof.
  intros E event r calls. unfold Lambda.lambda_handler.
  destruct (Lambda.http_method_of event) as [m|]; cbn [bind]; [|discriminate].
  destruct (eq_str m "OPTIONS").
  { intros [= <- <-]. split; constructor. }
  destruct (Lambda.query_params_of event) as [q|]; cbn [bind];
    [|discriminate].
  destruct (py_get q "action" (JStr "get_stocks")) as [a|]; cbn [bind];
    [|discriminate].
  destruct (eq_str a "search").
  { unfold Lambda.search_route.
    destruct (py_get q "q" (JStr "")) as [sq|]; cbn [bind]; [|discriminate].
    destruct (negb (truthy sq)) eqn:T; intros [= <- <-].
    - split; constructor.
    - apply negb_false_iff in T.
      split; [constructor; [intros []|constructor]|].
      constructor; [exact T|constructor]. }
  destruct (eq_str a "get_stock").
  - unfold Lambda.get_stock_route.
    destruct (py_get q "ticker" (JStr "")) as [t|]; cbn [bind];
      [|discriminate].
    destruct (py_get q "interval" (JStr "1d")) as [i|]; cbn [bind];
      [|discriminate].
    destruct (negb (in_strs i Lambda.valid_intervals)) eqn:I;
      [intros [= <- <-]; split; constructor|].
    apply negb_false_iff in I.
    destruct (negb (truthy t)); [intros [= <- <-]; split; constructor|].
    destruct t as [| | | |s| |]; try discriminate.
    assert (P : Req.permitted_call
                  (Lambda.FetchCall (Lambda.normalize_ticker s) i))
      by (split; [apply normalize_ticker_suffix|exact I]).
    assert (C : NoDup [Lambda.FetchCall (Lambda.normalize_ticker s) i]
                /\ Forall Req.permitted_call
                     [Lambda.FetchCall (Lambda.normalize_ticker s) i]).
    { split.
      - constructor; [intros []|constructor].
      - constructor; [exact P|constructor]. }
    destruct (Lambda.get_stock_price_yfinance_v8 E _ i);
      intros [= <- <-]; exact C.
  - unfold Lambda.get_stocks_route.
    destruct (py_get q "tickers" (JStr "")) as [t|]; cbn [bind];
      [|discriminate].
    destruct (py_get q "interval" (JStr "1d")) as [i|]; cbn [bind];
      [|discriminate].
    destruct (negb (in_strs i Lambda.valid_intervals)) eqn:I;
      [intros [= <- <-]; split; constructor|].
    apply negb_false_iff in I.
    match goal with
    | |- bind ?x _ = _ -> _ =>
        destruct x as [tk|] eqn:T; cbn [bind]; [|discriminate]
    end.
    destruct (tickers_suffix _ T) as [ND Hs].
    pose proof (@batch_calls E i tk ND Hs I) as C.
    destruct (Lambda.batch_loop E i tk) as [[stocks sm] cs].
    intros [= <- <-]. exact C.
Qed.

Lemma X7_witness :
  exists r calls,
    Lambda.lambda_handler Req.sample_env
      (Req.get_event [("tickers", JStr "7203, 7203.T,6758")])
    = Ret (r, calls)
    /\ NoDup calls
    /\ List.length calls = 2.
Proof.
  destruct (Lambda.lambda_handler Req.sample_env
              (Req.get_event [("tickers", JStr "7203, 7203.T,6758")]))
    as [[r calls]|] eqn:H; [|vm_compute in H; discriminate H].
  exists r, calls. split; [reflexivity|].
  split; [exact (proj1 (X7_permitted_calls _ _ H))|].
  vm_compute in H. injection H as _ <-. reflexivity.
Defined.

(** X8.  A non-empty [tickers] parameter in which nothing is left once the
    pieces between the commas are stripped does not fall back to the default
    tickers: the batch is empty, so the answer is status 500 with
    [total_tickers], [successful] and [failed] all 0 and no fetch. *)
Theorem X8_separators_only :
  forall (E : Lambda.env) event qp s,
    Req.routed event qp ->
    Req.on_default qp ->
    in_strs (Req.interval_of qp) Lambda.valid_intervals = true ->
    Req.qparam qp "tickers" (JStr "") = JStr s ->
    s <> EmptyString ->
    Lambda.ticker_list s = [] ->
    exists r b,
      Lambda.lambda_handler E event = Ret (r, [])
      /\ Lambda.statusCode r = 500%Z
      /\ Lambda.body r = Lambda.JsonDumps (Lambda.BatchPayload b)
      /\ Lambda.stocks b = []
      /\ Lambda.batch_summary b
         = {| Lambda.total_tickers := 0;
              Lambda.successful := 0;
              Lambda.failed := 0;
              Lambda.failed_tickers := [] |}.
Proof.
  intros E event qp s R [A1 A2] Hi Q Ne L.
  assert (Ht : Req.str_or_falsy (Req.qparam qp "tickers" (JStr "")) = true)
    by now rewrite Q.
  rewrite (handler_routed E R), A1, A2, (get_stocks_route_valid E qp Hi Ht).
  unfold Req.batch_tickers. rewrite Q.
  apply String.eqb_neq in Ne. rewrite Ne, L.
  eexists _, _. repeat split.
Qed.

Lemma X8_witness :
  exists r b,
    Lambda.lambda_handler Req.sample_env
      (Req.get_event [("tickers", JStr " , ,")]) = Ret (r, [])
    /\ Lambda.statusCode r = 500%Z
    /\ Lambda.body r = Lambda.JsonDumps (Lambda.BatchPayload b)
    /\ Lambda.total_tickers (Lambda.batch_summary b) = 0.
Proof.
  destruct (X8_separators_only Req.sample_env
              (get_event_routed [("tickers", JStr " , ,")])
              (s := " , ,"))
    as (r & b & H & S & B & _ & Sm);
    [split; reflexivity|reflexivity|reflexivity|discriminate|reflexivity|].
  exists r, b. split; [exact H|]. split; [exact S|]. split; [exact B|].
  now rewrite Sm.
Defined.

(** ** The points of a fetched summary *)

Lemma pair_loop_inv (E : Lambda.env) (interval : json) (ts : list json) :
  forall ps cd vp cd' vp',
    Req.pair_loop E interval ts ps cd vp = Ret (cd', vp') ->
    exists new,
      cd' = cd ++ new
      /\ vp' = vp ++ map Lambda.value new
      /\ Forall2 (Req.point_of_pair E interval) new (Req.priced_pairs ts ps).
Proof.
  induction ts as [|t ts IH]; intros ps cd vp cd' vp' H.
  - simpl in H. injection H as <- <-. exists [].
    rewrite !app_nil_r. repeat split. constructor.
  - destruct ps as [|p ps].
    + simpl in H. injection H as <- <-. exists [].
      rewrite !app_nil_r. repeat split. constructor.
    + cbn [Req.pair_loop] in H. unfold Req.priced_pairs.
      cbn [combine filter snd]. fold (Req.priced_pairs ts ps).
      destruct (is_none p) eqn:N; cbn [negb].
      * exact (IH _ _ _ _ _ H).
      * destruct (Lambda.strftime_jst E t (Lambda.intraday interval))
          as [date|] eqn:D; cbn [bind] in H; [|discriminate].
        destruct (py_float (Lambda.float_of_str E) p) as [price|] eqn:F;
          cbn [bind] in H; [|discriminate].
        destruct (IH _ _ _ _ _ H) as (new & -> & -> & F2).
        exists ({| Lambda.time := date; Lambda.value := price |} :: new).
        rewrite <- !app_assoc. repeat split.
        constructor; [|exact F2]. split; assumption.
Qed.

Lemma fetch_pair_loop (E : Lambda.env) (ticker : string)
    (interval data short_name : json) (ts ps : list json)
    (sd : Lambda.stock_data) :
  Lambda.chart_api E ticker interval = Lambda.HttpJson data ->
  Lambda.chart_arrays ticker data
  = Ret (Some (short_name, JArr ts, JArr ps)) ->
  Lambda.get_stock_price_yfinance_v8 E ticker interval = Some sd ->
  Req.pair_loop E interval ts ps [] []
  = Ret (Lambda.data sd, map Lambda.value (Lambda.data sd))
  /\ Lambda.short_name sd = short_name
  /\ Lambda.summarise (Lambda.data sd) (map Lambda.value (Lambda.data sd))
       short_name = Ret sd.
Proof.
  intros A C F.
  apply fetch_some_inv in F.
  destruct F as (data' & tss & pss & n & vp & A' & C' & L & Lp & -> & _ & S).
  rewrite A in A'. injection A' as <-.
  rewrite C in C'. injection C' as -> <- <-.
  simpl in L. injection L as <-.
  rewrite <- (@chart_loop_pairs E interval ts [] [] ps [] [] eq_refl).
  split; [exact Lp|]. split; [reflexivity|exact S].
Qed.

Lemma priced_pairs_length (ts ps : list json) :
  List.length (Req.priced_pairs ts ps)
  <= Nat.min (List.length ts) (List.length ps).
Proof.
  unfold Req.priced_pairs.
  etransitivity; [apply filter_length_le|].
  now rewrite length_combine.
Qed.

Lemma priced_pairs_in (ts ps : list json) (i : nat) (t p : json) :
  nth_error ts i = Some t -> nth_error ps i = Some p ->
  is_none p = false ->
  In (t, p) (Req.priced_pairs ts ps).
Proof.
  intros Ht Hp N. unfold Req.priced_pairs. apply filter_In. split.
  - revert ps i Ht Hp. induction ts as [|t0 ts IH]; intros ps i Ht Hp.
    + now destruct i.
    + destruct ps as [|p0 ps]; [now destruct i|].
      destruct i as [|i]; simpl in *.
      * injection Ht as ->. injection Hp as ->. now left.
      * right. exact (IH _ _ Ht Hp).
  - cbn [snd]. now rewrite N.
Qed.

Lemma Forall2_in_r {A B : Type} (R : A -> B -> Prop) (l : list A)
    (l' : list B) (b : B) :
  Forall2 R l l' -> In b l' -> exists a, In a l /\ R a b.
Proof.
  induction 1 as [|a b' l l' Hab _ IH]; intros Hin; [destruct Hin|].
  destruct Hin as [<-|Hin].
  - exists a. split; [now left|exact Hab].
  - destruct (IH Hin) as (a' & Ha & Hr). exists a'. split; [now right|exact Hr].
Qed.

(** X10.  When the Quote Fetcher returns a summary for a document whose
    timestamps and closes are two arrays, its points are, in order, the
    positions that both arrays have and whose close is not null: each point
    carries the rendering of the timestamp and the float of the close at its
    position.  Timestamps beyond the last close and closes beyond the last
    timestamp are ignored, so [data_points] is at most the length of the
    shorter array. *)
Theorem X10_positional_pairing :
  forall (E : Lambda.env) ticker interval data short_name ts ps sd,
    Lambda.chart_api E ticker interval = Lambda.HttpJson data ->
    Lambda.chart_arrays ticker data
    = Ret (Some (short_name, JArr ts, JArr ps)) ->
    Lambda.get_stock_price_yfinance_v8 E ticker interval = Some sd ->
    Forall2 (Req.point_of_pair E interval) (Lambda.data sd)
      (Req.priced_pairs ts ps)
    /\ Lambda.data_points sd = List.length (Req.priced_pairs ts ps)
    /\ Lambda.data_points sd <= Nat.min (List.length ts) (List.length ps).
Proof.
  intros E ticker interval data short_name ts ps sd A C F.
  destruct (@fetch_pair_loop E ticker interval data short_name ts ps sd
              A C F) as (P & _ & S).
  apply pair_loop_inv in P. destruct P as (new & Hn & _ & F2).
  cbn [app] in Hn. subst new.
  apply summarise_inv in S. destruct S as (_ & _ & _ & _ & _ & Dp & _).
  assert (L : Lambda.data_points sd = List.length (Req.priced_pairs ts ps))
    by (rewrite Dp; exact (Forall2_length F2)).
  split; [exact F2|]. split; [exact L|].
  rewrite L. apply priced_pairs_length.
Qed.

Lemma X10_witness :
  exists sd,
    Lambda.get_stock_price_yfinance_v8
      (Req.world_of
         (Req.chart_document (JObj [])
            (map JInt [1704067200; 1704153600; 1704240000]%Z)
            [JInt 100; JNull; JInt 105; JInt 110; JInt 120]))
      "7203.T" (JStr "1d") = Some sd
    /\ Lambda.data_points sd = 2.
Proof.
  destruct (Lambda.get_stock_price_yfinance_v8
              (Req.world_of
                 (Req.chart_document (JObj [])
                    (map JInt [1704067200; 1704153600; 1704240000]%Z)
                    [JInt 100; JNull; JInt 105; JInt 110; JInt 120]))
              "7203.T" (JStr "1d")) as [sd|] eqn:F;
    [|vm_compute in F; discriminate F].
  exists sd. split; [reflexivity|].
  refine (proj1 (proj2
            (@X10_positional_pairing _ "7203.T" (JStr "1d")
               (Req.chart_document (JObj [])
                  (map JInt [1704067200; 1704153600; 1704240000]%Z)
                  [JInt 100; JNull; JInt 105; JInt 110; JInt 120])
               (JStr "7203.T")
               (map JInt [1704067200; 1704153600; 1704240000]%Z)
               [JInt 100; JNull; JInt 105; JInt 110; JInt 120] sd
               _ _ F)));
    reflexivity.
Defined.

(** X11.  One close that is not null and cannot be turned into a point, at a
    position that has a timestamp, costs the whole series: when the timestamp
    there cannot be rendered or the close is not a number [float] accepts,
    the Quote Fetcher returns nothing, whatever the other entries are. *)
Theorem X11_one_bad_entry :
  forall (E : Lambda.env) ticker interval data short_name ts ps i t p e,
    Lambda.chart_api E ticker interval = Lambda.HttpJson data ->
    Lambda.chart_arrays ticker data
    = Ret (Some (short_name, JArr ts, JArr ps)) ->
    nth_error ts i = Some t ->
    nth_error ps i = Some p ->
    is_none p = false ->
    Lambda.strftime_jst E t (Lambda.intraday interval) = Raise e
    \/ py_float (Lambda.float_of_str E) p = Raise e ->
    Lambda.get_stock_price_yfinance_v8 E ticker interval = None.
Proof.
  intros E ticker interval data short_name ts ps i t p e A C Ht Hp N Bad.
  destruct (Lambda.get_stock_price_yfinance_v8 E ticker interval)
    as [sd|] eqn:F; [exfalso|reflexivity].
  destruct (@fetch_pair_loop E ticker interval data short_name ts ps sd
              A C F) as (P & _ & _).
  apply pair_loop_inv in P. destruct P as (new & _ & _ & F2).
  pose proof (@priced_pairs_in ts ps i t p Ht Hp N) as Hin.
  destruct (@Forall2_in_r _ _ _ _ _ _ F2 Hin) as (pt & _ & D & Fl).
  cbn [fst snd] in D, Fl.
  destruct Bad as [B|B]; congruence.
Qed.

Lemma X11_witness :
  Lambda.get_stock_price_yfinance_v8
    (Req.world_of
       (Req.chart_document (JObj [])
          (map JInt [1704067200; 1704153600; 1704240000]%Z)
          [JInt 100; JStr "n/a"; JInt 105]))
    "7203.T" (JStr "1d") = None.
Proof.
  apply (@X11_one_bad_entry _ "7203.T" (JStr "1d")
           (Req.chart_document (JObj [])
              (map JInt [1704067200; 1704153600; 1704240000]%Z)
              [JInt 100; JStr "n/a"; JInt 105])
           (JStr "7203.T")
           (map JInt [1704067200; 1704153600; 1704240000]%Z)
           [JInt 100; JStr "n/a"; JInt 105] 1 (JInt 1704153600)
           (JStr "n/a") ValueError);
    try reflexivity.
  right. reflexivity.
Defined.

(** ** Bounds of a summary *)

Lemma max_from_in (l : list float) :
  forall cur, In (max_from cur l) (cur :: l).
Proof.
  induction l as [|x l IH]; intros cur; [now left|].
  cbn [max_from]. destruct (IH (if fgt x cur then x else cur)) as [H|H].
  - rewrite <- H. destruct (fgt x cur); [right; now left|now left].
  - right. now right.
Qed.

Lemma min_from_in (l : list float) :
  forall cur, In (min_from cur l) (cur :: l).
Proof.
  induction l as [|x l IH]; intros cur; [now left|].
  cbn [min_from]. destruct (IH (if flt x cur then x else cur)) as [H|H].
  - rewrite <- H. destruct (flt x cur); [right; now left|now left].
  - right. now right.
Qed.

Lemma py_max_in (l : list float) (m : float) : py_max l = Ret m -> In m l.
Proof.
  destruct l as [|x l]; [discriminate|]. intros [= <-]. apply max_from_in.
Qed.

Lemma py_min_in (l : list float) (m : float) : py_min l = Ret m -> In m l.
Proof.
  destruct l as [|x l]; [discriminate|]. intros [= <-]. apply min_from_in.
Qed.

Lemma last_in (l : list float) (x : float) : last l = Ret x -> In x l.
Proof.
  unfold last. destruct (rev l) as [|y r] eqn:R; [discriminate|].
  intros [= <-]. apply in_rev. rewrite R. now left.
Qed.

Lemma statistics_bounds (vp : list float) (cur hi lo : float) :
  last vp = Ret cur -> py_max vp = Ret hi -> py_min vp = Ret lo ->
  In hi vp /\ In lo vp
  /\ (Forall (fun v => is_nan v = false) vp ->
      Req.is_max_of hi vp /\ Req.is_min_of lo vp
      /\ SFleb lo cur = true /\ SFleb cur hi = true
      /\ SFleb lo hi = true).
Proof.
  intros L Mx Mn. split; [exact (py_max_in _ Mx)|].
  split; [exact (py_min_in _ Mn)|]. intros NN.
  pose proof (py_max_spec NN Mx) as [Hm Hmax].
  pose proof (py_min_spec NN Mn) as [Hn Hmin].
  repeat split; try assumption.
  - apply Hmin, (last_in _ L).
  - apply Hmax, (last_in _ L).
  - apply Hmax, Hn.
Qed.

(** X14.  In every summary the Quote Fetcher returns, [current_price] is the
    value of the last point and [year_high] and [year_low] are values of
    points.  When no value is NaN, [year_high] is a greatest and [year_low] a
    least of the values, so that
    [year_low <= current_price <= year_high]. *)
Theorem X14_summary_bounds :
  forall (E : Lambda.env) ticker interval sd,
    Lambda.get_stock_price_yfinance_v8 E ticker interval = Some sd ->
    let vp := map Lambda.value (Lambda.data sd) in
    last vp = Ret (Lambda.current_price sd)
    /\ In (Lambda.year_high sd) vp
    /\ In (Lambda.year_low sd) vp
    /\ (Forall (fun v => is_nan v = false) vp ->
        Req.is_max_of (Lambda.year_high sd) vp
        /\ Req.is_min_of (Lambda.year_low sd) vp
        /\ SFleb (Lambda.year_low sd) (Lambda.current_price sd) = true
        /\ SFleb (Lambda.current_price sd) (Lambda.year_high sd) = true
        /\ SFleb (Lambda.year_low sd) (Lambda.year_high sd) = true).
Proof.
  intros E ticker interval sd F vp.
  apply fetch_some_inv in F.
  destruct F as (data & tss & pss & n & vp' & _ & _ & _ & _ & -> & _ & S).
  apply summarise_inv in S. destruct S as (_ & L & Mx & Mn & _).
  split; [exact L|]. exact (statistics_bounds _ L Mx Mn).
Qed.

Lemma X14_witness :
  exists sd,
    Lambda.get_stock_price_yfinance_v8 Req.sample_env "7203.T" (JStr "1wk")
    = Some sd
    /\ SFleb (Lambda.year_low sd) (Lambda.current_price sd) = true
    /\ SFleb (Lambda.current_price sd) (Lambda.year_high sd) = true.
Proof.
  destruct (Lambda.get_stock_price_yfinance_v8 Req.sample_env "7203.T"
              (JStr "1wk")) as [sd|] eqn:F;
    [|vm_compute in F; discriminate F].
  exists sd. split; [reflexivity|].
  destruct (X14_summary_bounds _ _ _ F) as (_ & _ & _ & B).
  destruct B as (_ & _ & B1 & B2 & _).
  - vm_compute in F. injection F as <-. vm_compute.
    repeat constructor.
  - split; [exact B1|exact B2].
Defined.

(** ** The offline fetcher on one ticker *)

Lemma kept_rows_first (rows : list FetchPrices.row) (p0 : float) :
  first (map FetchPrices.value
           (map Req.point_of_row (filter Req.kept_row rows))) = Ret p0 ->
  is_zero p0 = false.
Proof.
  intros H.
  destruct (filter Req.kept_row rows) as [|r l] eqn:Fr; [discriminate|].
  injection H as <-.
  assert (Hin : In r (filter Req.kept_row rows)) by (rewrite Fr; now left).
  apply filter_In in Hin. destruct Hin as [_ K].
  apply kept_row_iff in K. exact (proj2 K).
Qed.

Lemma offline_summarise_labels (name ticker : string)
    (cd : list FetchPrices.price_point) (entry : FetchPrices.stock_entry) :
  FetchPrices.summarise name ticker cd = Ret entry ->
  FetchPrices.name entry = name /\ FetchPrices.ticker entry = ticker.
Proof.
  unfold FetchPrices.summarise.
  destruct (last _); cbn [bind]; [|discriminate].
  destruct (py_max _); cbn [bind]; [|discriminate].
  destruct (py_min _); cbn [bind]; [|discriminate].
  destruct (first _); cbn [bind]; [|discriminate].
  destruct (truediv _ _); cbn [bind]; [|discriminate].
  intros [= <-]. split; reflexivity.
Qed.

(** X18.  The work of the offline fetcher on one ticker never raises: zero
    and NaN closes are dropped before the statistics, so the list of prices
    is either empty (the ticker is failed) or starts with a price that the
    percentage can be divided by.  A stored entry carries the name and the
    ticker it was asked for; none of its values is NaN or zero;
    [current_price] is the last value, [year_high] a greatest and [year_low]
    a least of the values, and
    [year_low <= current_price <= year_high]. *)
Theorem X18_offline_entry :
  forall (E : FetchPrices.env) ticker name,
    (exists r, FetchPrices.process E ticker name = Ret r)
    /\ forall entry,
         FetchPrices.process E ticker name = Ret (Some entry) ->
         let vp := map FetchPrices.value (FetchPrices.data entry) in
         FetchPrices.name entry = name
         /\ FetchPrices.ticker entry = ticker
         /\ Forall (fun v => is_nan v = false /\ is_zero v = false) vp
         /\ last vp = Ret (FetchPrices.current_price entry)
         /\ Req.is_max_of (FetchPrices.year_high entry) vp
         /\ Req.is_min_of (FetchPrices.year_low entry) vp
         /\ SFleb (FetchPrices.year_low entry) (FetchPrices.current_price entry)
            = true
         /\ SFleb (FetchPrices.current_price entry) (FetchPrices.year_high entry)
            = true.
Proof.
  intros E ticker name. split.
  - unfold FetchPrices.process.
    destruct (FetchPrices.retry _ _ _) as [rows|]; [|now eexists].
    destruct (FetchPrices.empty rows); [now eexists|].
    rewrite rows_loop_filter. cbn [app].
    destruct (map Req.point_of_row (filter Req.kept_row rows))
      as [|pt cd] eqn:M; [now eexists|].
    destruct (@offline_summarise_ok name ticker (pt :: cd)) as [entry S].
    + discriminate.
    + rewrite <- M. apply kept_rows_first.
    + rewrite S. now eexists.
  - intros entry P vp. apply process_inv in P.
    destruct P as (rows & _ & D & _ & S).
    destruct (offline_summarise_labels _ _ _ S) as [Hn Ht].
    apply offline_summarise_inv in S. cbn zeta in S.
    destruct S as (_ & _ & L & Mx & Mn & _).
    assert (V : Forall (fun v => is_nan v = false /\ is_zero v = false) vp).
    { subst vp. rewrite D, map_map. apply Forall_map, Forall_forall.
      intros r Hin. apply filter_In in Hin. destruct Hin as [_ K].
      apply kept_row_iff in K. exact K. }
    assert (NN : Forall (fun v => is_nan v = false) vp)
      by (eapply Forall_impl; [|exact V]; now intros v [? _]).
    destruct (statistics_bounds _ L Mx Mn) as (_ & _ & B).
    destruct (B NN) as (B1 & B2 & B3 & B4 & _).
    split; [exact Hn|]. split; [exact Ht|]. split; [exact V|].
    split; [exact L|]. split; [exact B1|]. split; [exact B2|].
    split; [exact B3|exact B4].
Qed.

Lemma X18_witness :
  exists entry,
    FetchPrices.process Req.sample_history "7203.T" "トヨタ自動車"
    = Ret (Some entry)
    /\ FetchPrices.name entry = "トヨタ自動車"
    /\ SFleb (FetchPrices.year_low entry) (FetchPrices.current_price entry)
       = true.
Proof.
  destruct (FetchPrices.process Req.sample_history "7203.T" "トヨタ自動車")
    as [[entry|]|] eqn:P; try (vm_compute in P; discriminate P).
  exists entry. split; [reflexivity|].
  destruct (proj2 (X18_offline_entry Req.sample_history "7203.T"
                     "トヨタ自動車") entry P)
    as (Hn & _ & _ & _ & _ & _ & B & _).
  split; [exact Hn|exact B].
Defined.

(** ** The attempts of the offline fetcher *)

(** X17.  The offline fetcher works on the first non-empty frame that one of
    its three attempts gives, as if the library had answered with that frame
    at once: attempts that raise or give an empty frame before it are
    forgotten, and later attempts are not made.  A ticker whose three
    attempts all raise or give an empty frame is failed. *)
Theorem X17_three_attempts :
  (forall (E : FetchPrices.env) ticker name a rows,
      a < 3 ->
      FetchPrices.history E ticker a = FetchPrices.HistFrame rows ->
      rows <> [] ->
      (forall b, b < a ->
                 Req.no_rows (FetchPrices.history E ticker b) = true) ->
      FetchPrices.process E ticker name
      = FetchPrices.process (Req.frame_of rows) ticker name)
  /\ (forall (E : FetchPrices.env) ticker name,
         (forall a, a < 3 ->
                    Req.no_rows (FetchPrices.history E ticker a) = true) ->
         FetchPrices.process E ticker name = Ret None
         /\ Req.stored E (ticker, name) = false).
Proof.
  split.
  - intros E ticker name a rows La Ha Ne Before.
    assert (R : FetchPrices.retry (FetchPrices.history E ticker) (seq 0 3)
                  None = Some rows).
    { cbn [seq FetchPrices.retry].
      destruct rows as [|r rows]; [congruence|].
      destruct a as [|[|[|a]]]; [| | |lia].
      - rewrite Ha. reflexivity.
      - pose proof (Before 0 ltac:(lia)) as B0.
        destruct (FetchPrices.history E ticker 0) as [e|[|r0 rows0]];
          try discriminate B0; rewrite Ha; reflexivity.
      - pose proof (Before 0 ltac:(lia)) as B0.
        pose proof (Before 1 ltac:(lia)) as B1.
        destruct (FetchPrices.history E ticker 0) as [e|[|r0 rows0]];
          try discriminate B0;
          destruct (FetchPrices.history E ticker 1) as [e'|[|r1 rows1]];
          try discriminate B1; rewrite Ha; reflexivity. }
    unfold FetchPrices.process. rewrite R.
    destruct rows as [|r rows]; [congruence|]. reflexivity.
  - intros E ticker name None3.
    assert (P : FetchPrices.process E ticker name = Ret None).
    { unfold FetchPrices.process. cbn [seq FetchPrices.retry].
      pose proof (None3 0 ltac:(lia)) as B0.
      pose proof (None3 1 ltac:(lia)) as B1.
      pose proof (None3 2 ltac:(lia)) as B2.
      destruct (FetchPrices.history E ticker 0) as [e|[|r0 rows0]];
        try discriminate B0;
        destruct (FetchPrices.history E ticker 1) as [e'|[|r1 rows1]];
        try discriminate B1;
        destruct (FetchPrices.history E ticker 2) as [e''|[|r2 rows2]];
        try discriminate B2; reflexivity. }
    split; [exact P|]. unfold Req.stored. cbn [fst snd]. now rewrite P.
Qed.

Lemma X17_witness :
  FetchPrices.process Req.sample_history "7203.T" "トヨタ自動車"
  = FetchPrices.process
      (Req.frame_of
         [ ("2024-01-01", float_of_Z 100); ("2024-01-02", S754_nan);
           ("2024-01-03", float_of_Z 108) ])
      "7203.T" "トヨタ自動車"
  /\ FetchPrices.process Req.sample_history "6758.T" "ソニーグループ"
     = Ret None.
Proof.
  split.
  - apply (proj1 X17_three_attempts Req.sample_history "7203.T"
             "トヨタ自動車" 2).
    + lia.
    + reflexivity.
    + discriminate.
    + intros [|[|b]] Hb; [reflexivity|reflexivity|lia].
  - apply (proj2 X17_three_attempts Req.sample_history "6758.T"
             "ソニーグループ").
    intros a _. reflexivity.
Defined.

(** ** The document of the offline fetcher *)

Lemma offline_fold_stocks (E : FetchPrices.env)
    (l : list (string * string)) :
  NoDup (dict_keys l) ->
  fst (fold_left (FetchPrices.step E) l ([], []))
  = flat_map (fun item =>
                match Req.offline_entry E (fst item) (snd item) with
                | Some e => [(fst item, e)]
                | None => []
                end) l.
Proof.
  unfold dict_keys.
  induction l as [|[k nm] l IH] using rev_ind; intros ND; [reflexivity|].
  rewrite map_app in ND. simpl in ND.
  assert (ND' : NoDup (map fst l)) by (now apply NoDup_app_remove_r in ND).
  specialize (IH ND').
  pose proof (offline_fold_spec E l ND') as S.
  rewrite fold_left_app, flat_map_app. cbn [fold_left flat_map fst snd app].
  destruct (fold_left _ l _) as [stocks failed]. cbn [fst] in IH.
  destruct S as (Hk & _).
  unfold FetchPrices.step, Req.offline_entry.
  destruct (try_except (FetchPrices.process E k nm) (fun _ => None))
    as [e|]; cbn [fst].
  - rewrite (@dict_set_fresh _ _ _ string_eqb_spec').
    + now rewrite IH.
    + rewrite Hk. intros Hin. apply in_map_iff in Hin.
      destruct Hin as (it & Hf & Hin). apply filter_In in Hin.
      destruct Hin as [Hin _].
      apply NoDup_remove_2 in ND. rewrite app_nil_r in ND.
      apply ND. rewrite <- Hf. now apply in_map.
  - now rewrite IH, app_nil_r.
Qed.

Lemma items_lookup (f : string -> string -> option FetchPrices.stock_entry)
    (l : list (string * string)) :
  NoDup (dict_keys l) ->
  (forall k nm,
      In (k, nm) l ->
      dict_get String.eqb
        (flat_map (fun item => match f (fst item) (snd item) with
                               | Some e => [(fst item, e)]
                               | None => []
                               end) l) k
      = f k nm)
  /\ (forall k,
         ~ In k (dict_keys l) ->
         dict_get String.eqb
           (flat_map (fun item => match f (fst item) (snd item) with
                                  | Some e => [(fst item, e)]
                                  | None => []
                                  end) l) k
         = None).
Proof.
  unfold dict_keys.
  induction l as [|[x nx] l IH]; intros ND.
  - split; [intros k nm []|reflexivity].
  - inversion ND as [|? ? Hx ND']; subst. destruct (IH ND') as [IH1 IH2].
    cbn [flat_map fst snd map]. split.
    + intros k nm [[= <- <-]|Hin].
      * destruct (f x nx) as [e|]; simpl.
        -- now rewrite String.eqb_refl.
        -- now apply IH2.
      * assert (Ne : String.eqb x k = false).
        { apply String.eqb_neq. intros <-. apply Hx.
          change x with (fst (x, nm)). now apply in_map. }
        destruct (f x nx) as [e|]; simpl; [rewrite Ne|]; now apply IH1.
    + intros k Hk. simpl in Hk.
      assert (Ne : String.eqb x k = false)
        by (apply String.eqb_neq; tauto).
      destruct (f x nx) as [e|]; simpl; [rewrite Ne|]; apply IH2; tauto.
Qed.

Lemma nodup_keys_functional (l : list (string * string)) (k a b : string) :
  NoDup (dict_keys l) -> In (k, a) l -> In (k, b) l -> a = b.
Proof.
  unfold dict_keys. induction l as [|[x nx] l IH]; intros ND Ha Hb.
  - destruct Ha.
  - inversion ND as [|? ? Hx ND']; subst.
    destruct Ha as [Ha|Ha]; destruct Hb as [Hb|Hb].
    + congruence.
    + exfalso. injection Ha as -> _. apply Hx.
      change k with (fst (k, b)). now apply in_map.
    + exfalso. injection Hb as -> _. apply Hx.
      change k with (fst (k, a)). now apply in_map.
    + exact (IH ND' Ha Hb).
Qed.

Lemma offline_document_over (E : FetchPrices.env)
    (l : list (string * string)) :
  NoDup (dict_keys l) ->
  let rep := fst (FetchPrices.fetch_data_over l E) in
  (forall ticker name,
      In (ticker, name) l ->
      dict_get String.eqb (FetchPrices.stocks rep) ticker
      = Req.offline_entry E ticker name
      /\ (forall entry,
             Req.offline_entry E ticker name = Some entry ->
             FetchPrices.name entry = name
             /\ FetchPrices.ticker entry = ticker)
      /\ (In ticker
            (FetchPrices.failed_tickers (FetchPrices.report_summary rep))
          <-> Req.offline_entry E ticker name = None))
  /\ (forall k,
         ~ In k (dict_keys l) ->
         dict_get String.eqb (FetchPrices.stocks rep) k = None)
  /\ FetchPrices.stocks rep
     = flat_map (fun item =>
                   match Req.offline_entry E (fst item) (snd item) with
                   | Some e => [(fst item, e)]
                   | None => []
                   end) l.
Proof.
  intros ND rep.
  pose proof (@offline_fold_stocks E l ND) as S.
  pose proof (offline_fold_spec E l ND) as Sp.
  subst rep. unfold FetchPrices.fetch_data_over.
  destruct (fold_left (FetchPrices.step E) l ([], [])) as [stocks failed].
  cbn [fst] in S. destruct Sp as (_ & Hf).
  cbn [fst FetchPrices.stocks FetchPrices.report_summary
       FetchPrices.failed_tickers].
  destruct (@items_lookup (Req.offline_entry E) l ND) as [L1 L2].
  rewrite S. split; [|split; [exact L2|reflexivity]].
  intros ticker name Hin. split; [exact (L1 _ _ Hin)|]. split.
  - intros entry He. unfold Req.offline_entry in He.
    destruct (FetchPrices.process E ticker name) as [[e|]|] eqn:P;
      try discriminate He.
    simpl in He. injection He as <-.
    apply process_inv in P. destruct P as (rows & _ & _ & _ & Sm).
    exact (@offline_summarise_labels _ _ _ _ Sm).
  - rewrite Hf. unfold Req.stored. split.
    + intros H. apply in_map_iff in H. destruct H as ([t n] & Ht & H).
      apply filter_In in H. destruct H as [H St]. cbn [fst snd] in *.
      subst t. rewrite (@nodup_keys_functional l ticker n name ND H Hin) in St.
      unfold Req.offline_entry.
      destruct (try_except (FetchPrices.process E ticker name) _);
        [discriminate St|reflexivity].
    + intros N. apply in_map_iff. exists (ticker, name). split; [reflexivity|].
      apply filter_In. split; [exact Hin|]. cbn [fst snd].
      unfold Req.offline_entry in N. now rewrite N.
Qed.

(** X19.  In the document of the offline fetcher, each of the five tickers
    is looked up on its own: [stocks] holds under a ticker exactly what the
    work on that ticker stored, whatever happened to the others, and nothing
    under any other key; the order of the entries is the order of the ticker
    dict, and [failed_tickers] holds exactly the tickers that stored
    nothing.  A stored entry carries the display name of the ticker dict and
    its own key. *)
Theorem X19_offline_document :
  forall (E : FetchPrices.env),
    let rep := fst (FetchPrices.fetch_data E) in
    (forall ticker name,
        In (ticker, name) FetchPrices.TICKERS ->
        dict_get String.eqb (FetchPrices.stocks rep) ticker
        = Req.offline_entry E ticker name
        /\ (forall entry,
               Req.offline_entry E ticker name = Some entry ->
               FetchPrices.name entry = name
               /\ FetchPrices.ticker entry = ticker)
        /\ (In ticker
              (FetchPrices.failed_tickers (FetchPrices.report_summary rep))
            <-> Req.offline_entry E ticker name = None))
    /\ (forall k,
           ~ In k (dict_keys FetchPrices.TICKERS) ->
           dict_get String.eqb (FetchPrices.stocks rep) k = None)
    /\ FetchPrices.stocks rep
       = flat_map (fun item =>
                     match Req.offline_entry E (fst item) (snd item) with
                     | Some e => [(fst item, e)]
                     | None => []
                     end) FetchPrices.TICKERS.
Proof.
  intros E.
  exact (@offline_document_over E FetchPrices.TICKERS offline_tickers_nodup).
Qed.

Lemma X19_witness :
  dict_get String.eqb
    (FetchPrices.stocks (fst (FetchPrices.fetch_data Req.sample_history)))
    "7203.T"
  = Req.offline_entry Req.sample_history "7203.T" "トヨタ自動車"
  /\ (In "6758.T"
        (FetchPrices.failed_tickers
           (FetchPrices.report_summary
              (fst (FetchPrices.fetch_data Req.sample_history))))
      <-> Req.offline_entry Req.sample_history "6758.T" "ソニーグループ"
          = None).
Proof.
  pose proof (X19_offline_document Req.sample_history) as H.
  cbv zeta in H. destruct H as (H & _).
  pose proof (H "7203.T" "トヨタ自動車" (or_introl eq_refl)) as (H1 & _).
  pose proof (H "6758.T" "ソニーグループ" (or_intror (or_introl eq_refl)))
    as (_ & _ & H2).
  split; [exact H1|exact H2].
Defined.

(** ** Malformed search results *)

Lemma search_entry_bad (quote : json) :
  Req.symbol_of quote = None -> exists e, Lambda.search_entry quote = Raise e.
Proof.
  destruct quote as [| | | | |l|kv]; intros H;
    try (eexists; reflexivity).
  rewrite search_entry_obj. unfold Req.symbol_of in H.
  destruct (Req.qparam kv "symbol" (JStr "")) as [| | | |s| |];
    try discriminate H; eexists; reflexivity.
Qed.

Lemma search_loop_bad (items : list json) (bad : json) :
  In bad items -> Req.symbol_of bad = None ->
  forall acc, exists e, Lambda.search_loop items acc = Raise e.
Proof.
  intros Hin Hb. induction items as [|x items IH]; [destruct Hin|].
  intros acc. cbn [Lambda.search_loop].
  destruct Hin as [->|Hin].
  - destruct (search_entry_bad _ Hb) as [e ->]. now exists e.
  - destruct (Lambda.search_entry x) as [[r|]|e]; cbn [bind].
    + apply (IH Hin).
    + apply (IH Hin).
    + now exists e.
Qed.

(** X15.  One malformed quote costs the whole search: when the upstream list
    holds a quote that is not a dict, or whose symbol is not a string (a null
    symbol, say), the Ticker Search returns the empty list, whatever the
    other quotes are; and it returns the empty list when ["quotes"] is not a
    list of quotes at all (null, a number, a string, or a dict to iterate
    over). *)
Theorem X15_malformed_quote :
  (forall (E : Lambda.env) q data quotes bad,
      Lambda.search_api E q = Lambda.HttpJson data ->
      py_get data "quotes" (JArr []) = Ret (JArr quotes) ->
      In bad quotes ->
      Req.symbol_of bad = None ->
      Lambda.search_ticker E (JStr q) = [])
  /\ (forall (E : Lambda.env) q data quotes,
         Lambda.search_api E q = Lambda.HttpJson data ->
         py_get data "quotes" (JArr []) = Ret quotes ->
         (forall l, quotes <> JArr l) ->
         Lambda.search_ticker E (JStr q) = []).
Proof.
  split.
  - intros E q data quotes bad A Q Hin Hb.
    unfold Lambda.search_ticker, Lambda.search_attempt, Lambda.search_body.
    rewrite A, Q. cbn [bind py_iter].
    destruct (search_loop_bad _ _ Hin Hb []) as [e ->]. reflexivity.
  - intros E q data quotes A Q NL.
    unfold Lambda.search_ticker, Lambda.search_attempt, Lambda.search_body.
    rewrite A, Q. cbn [bind].
    destruct quotes as [| | | |s|l|kv]; try reflexivity.
    + cbn [py_iter bind]. destruct (chars s) as [|c cs]; [reflexivity|].
      reflexivity.
    + now destruct (NL l).
    + cbn [py_iter bind]. destruct kv as [|[k v] kv]; reflexivity.
Qed.

Lemma X15_witness :
  Lambda.search_ticker
    {| Lambda.chart_api := Lambda.chart_api Req.sample_env;
       Lambda.search_api :=
         fun _ =>
           Lambda.HttpJson
             (JObj [("quotes",
                     JArr [ JObj [("symbol", JStr "7203.T")];
                            JObj [("symbol", JNull)] ])]);
       Lambda.strftime_jst := Lambda.strftime_jst Req.sample_env;
       Lambda.float_of_str := Lambda.float_of_str Req.sample_env;
       Lambda.now_isoformat := Lambda.now_isoformat Req.sample_env;
       Lambda.now_strftime := Lambda.now_strftime Req.sample_env |}
    (JStr "toyota") = [].
Proof.
  eapply (proj1 X15_malformed_quote _ "toyota").
  - reflexivity.
  - reflexivity.
  - right. left. reflexivity.
  - reflexivity.
Defined.

(** ** The display name *)

Lemma getitem_key_inv (v : json) (k : string) (x : json) :
  getitem_key v k = Ret x ->
  exists kv, v = JObj kv /\ jget kv k = Some x.
Proof.
  destruct v as [| | | | | |kv]; try discriminate. simpl.
  destruct (jget kv k) as [y|] eqn:J; [|discriminate].
  intros [= ->]. now exists kv.
Qed.

(** X12.  The display name of a fetched summary is the [shortName] of the
    [meta] dict of the first result, and the ticker as it was fetched (market
    suffix included) when [meta] or its [shortName] is missing.  A
    [shortName] that is present is passed on as it is, even null or
    empty. *)
Theorem X12_display_name :
  forall (E : Lambda.env) ticker interval data chart q rest sd,
    Lambda.chart_api E ticker interval = Lambda.HttpJson data ->
    getitem_key data "chart" = Ret chart ->
    getitem_key chart "result" = Ret (JArr (JObj q :: rest)) ->
    Lambda.get_stock_price_yfinance_v8 E ticker interval = Some sd ->
    exists m,
      Req.qparam q "meta" (JObj []) = JObj m
      /\ Lambda.short_name sd = Req.qparam m "shortName" (JStr ticker).
Proof.
  intros E ticker interval data chart q rest sd A Hc Hr F.
  apply fetch_some_inv in F.
  destruct F as (data' & tss & pss & n & vp & A' & C & _).
  rewrite A in A'. injection A' as <-.
  apply getitem_key_inv in Hc. destruct Hc as (kv & -> & Jc).
  apply getitem_key_inv in Hr. destruct Hr as (ckv & -> & Jr).
  unfold Lambda.chart_arrays in C.
  cbn [py_in getitem_key bind] in C. unfold dict_mem in C.
  unfold jget in Jc, Jr. unfold jget in C. rewrite Jc in C.
  cbn [negb bind py_in] in C. unfold dict_mem in C. rewrite Jr in C.
  cbn [negb bind getitem_key] in C. unfold jget in C. rewrite Jr in C.
  cbn [bind truthy negb py_len List.length Nat.eqb getitem_idx nth_error]
    in C.
  rewrite py_get_obj in C. cbn [bind] in C.
  destruct (Req.qparam q "meta" (JObj [])) as [| | | | | |m];
    try discriminate C.
  exists m. split; [reflexivity|].
  do 3 (rewrite py_get_obj in C; cbn [bind] in C).
  destruct (py_get (Req.qparam q "indicators" (JObj [])) "quote"
              (JArr [JObj []])) as [quotes|]; cbn [bind] in C;
    [|discriminate C].
  destruct (getitem_idx quotes 0) as [q0|]; cbn [bind] in C;
    [|discriminate C].
  destruct (py_get q0 "close" (JArr [])) as [prices|]; cbn [bind] in C;
    [|discriminate C].
  destruct (negb (truthy (Req.qparam q "timestamp" (JArr [])))
            || negb (truthy prices)); [discriminate C|].
  now injection C as <- _ _.
Qed.

Lemma X12_witness :
  exists sd,
    Lambda.get_stock_price_yfinance_v8
      (Req.world_of
         (Req.chart_document (JObj [("shortName", JNull)])
            [JInt 1704067200] [JInt 100]))
      "7203.T" (JStr "1d") = Some sd
    /\ Lambda.short_name sd = JNull.
Proof.
  destruct (Lambda.get_stock_price_yfinance_v8
              (Req.world_of
                 (Req.chart_document (JObj [("shortName", JNull)])
                    [JInt 1704067200] [JInt 100]))
              "7203.T" (JStr "1d")) as [sd|] eqn:F;
    [|vm_compute in F; discriminate F].
  exists sd. split; [reflexivity|].
  destruct (@X12_display_name
              (Req.world_of
                 (Req.chart_document (JObj [("shortName", JNull)])
                    [JInt 1704067200] [JInt 100]))
              "7203.T" (JStr "1d")
              (Req.chart_document (JObj [("shortName", JNull)])
                 [JInt 1704067200] [JInt 100])
              (JObj
                 [ ("result",
                    JArr
                      [ JObj
                          [ ("meta", JObj [("shortName", JNull)]);
                            ("timestamp", JArr [JInt 1704067200]);
                            ("indicators",
                             JObj [("quote",
                                    JArr [JObj [("close",
                                                 JArr [JInt 100])]])]) ] ]);
                   ("error", JNull) ])
              [ ("meta", JObj [("shortName", JNull)]);
                ("timestamp", JArr [JInt 1704067200]);
                ("indicators",
                 JObj [("quote", JArr [JObj [("close", JArr [JInt 100])]])]) ]
              [] sd) as (m & Hm & Hs);
    [reflexivity|reflexivity|reflexivity|exact F|].
  vm_compute in Hm. injection Hm as <-. exact Hs.
Defined.

(** ** The tickers parameter *)

Lemma safe_char (c : ascii) :
  always_safe c = true ->
  is_continuation c = false
  /\ isspace (Req.single c) = false
  /\ Ascii.eqb c ","%char = false.
Proof. each_ascii c; vm_compute; intros H; repeat split; congruence. Qed.

Lemma chars_single (l : list ascii) :
  Forall (fun c => is_continuation c = false) l ->
  chars (string_of_list_ascii l) = map Req.single l.
Proof.
  induction 1 as [|c l Hc Hl IH]; [reflexivity|].
  cbn [string_of_list_ascii chars map]. rewrite IH.
  destruct Hl as [|d l Hd Hl]; [reflexivity|].
  cbn [map string_of_list_ascii starts_with_continuation].
  now rewrite Hd.
Qed.

Lemma concat_single (l : list ascii) :
  String.concat EmptyString (map Req.single l) = string_of_list_ascii l.
Proof.
  induction l as [|c l IH]; [reflexivity|].
  cbn [map String.concat]. destruct l as [|d l]; [reflexivity|].
  cbn [map] in *. rewrite IH. reflexivity.
Qed.

Lemma dropwhile_app_all {A : Type} (p : A -> bool) (a l : list A) :
  Forall (fun x => p x = true) a -> dropwhile p (a ++ l) = dropwhile p l.
Proof.
  induction 1 as [|x a Hx _ IH]; [reflexivity|]. simpl. now rewrite Hx.
Qed.

Lemma dropwhile_head {A : Type} (p : A -> bool) (x : A) (l : list A) :
  p x = false -> dropwhile p (x :: l) = x :: l.
Proof. intros H. simpl. now rewrite H. Qed.

Lemma list_of_spaces (n : nat) :
  list_ascii_of_string (Req.spaces n) = repeat " "%char n.
Proof. induction n as [|n IH]; [reflexivity|]. simpl. now rewrite IH. Qed.

Lemma list_of_append (a b : string) :
  list_ascii_of_string (a ++ b)%string
  = list_ascii_of_string a ++ list_ascii_of_string b.
Proof. induction a as [|c a IH]; [reflexivity|]. simpl. now rewrite IH. Qed.

Lemma string_forall_list (p : ascii -> bool) (s : string) :
  Req.string_forall p s = true <-> Forall (fun c => p c = true)
                                 (list_ascii_of_string s).
Proof.
  induction s as [|c s IH]; simpl.
  - split; [constructor|reflexivity].
  - rewrite andb_true_iff, IH. split.
    + intros [H1 H2]. now constructor.
    + intros H. inversion H; subst. now split.
Qed.

Lemma strip_padded (a b : nat) (t : string) :
  Req.plain_ticker t = true ->
  strip (Req.spaces a ++ t ++ Req.spaces b)%string = t.
Proof.
  unfold Req.plain_ticker. rewrite andb_true_iff, negb_true_iff.
  intros [Ne Hs]. apply string_forall_list in Hs.
  unfold strip.
  rewrite <- (string_of_list_ascii_of_string
                (Req.spaces a ++ t ++ Req.spaces b)%string).
  rewrite !list_of_append, !list_of_spaces.
  set (lt := list_ascii_of_string t) in *.
  assert (Hrep : forall n, Forall (fun c => is_continuation c = false)
                             (repeat " "%char n)).
  { intros n. induction n; simpl; constructor; [reflexivity|assumption]. }
  assert (Hsp : forall n, Forall (fun x => isspace x = true)
                            (map Req.single (repeat " "%char n))).
  { intros n. induction n; simpl; constructor; [reflexivity|assumption]. }
  rewrite chars_single.
  2:{ apply Forall_app. split; [apply Hrep|]. apply Forall_app. split.
      - eapply Forall_impl; [|exact Hs]. intros c Hc.
        exact (proj1 (safe_char c Hc)).
      - apply Hrep. }
  assert (Hne : lt <> []).
  { intros E. apply String.eqb_neq in Ne. apply Ne.
    rewrite <- (string_of_list_ascii_of_string t). fold lt. now rewrite E. }
  rewrite !map_app, dropwhile_app_all by apply Hsp.
  destruct lt as [|c lt'] eqn:Elt; [congruence|].
  assert (Hc : isspace (Req.single c) = false).
  { inversion Hs; subst. now apply safe_char. }
  rewrite <- map_app. cbn [app map]. rewrite dropwhile_head by exact Hc.
  change (Req.single c :: map Req.single (lt' ++ repeat " "%char b))
    with (map Req.single ((c :: lt') ++ repeat " "%char b)).
  rewrite <- Elt in *. clear Hc.
  rewrite <- map_rev, rev_app_distr, map_app.
  rewrite dropwhile_app_all.
  2:{ assert (R : rev (repeat " "%char b) = repeat " "%char b).
      { clear. induction b as [|b IH]; [reflexivity|].
        simpl. rewrite IH. clear IH.
        induction b as [|b IH]; [reflexivity|]. simpl. now rewrite IH. }
      rewrite R. apply Hsp. }
  assert (Hr : rev lt <> []).
  { intros E. apply Hne. rewrite <- (rev_involutive lt). now rewrite E. }
  destruct (rev lt) as [|d r] eqn:Er; [congruence|].
  assert (Hd : isspace (Req.single d) = false).
  { apply safe_char. rewrite Forall_forall in Hs. apply Hs.
    apply in_rev. rewrite Er. now left. }
  cbn [map]. rewrite dropwhile_head by exact Hd.
  change (Req.single d :: map Req.single r) with (map Req.single (d :: r)).
  rewrite <- Er, <- map_rev, rev_involutive, concat_single.
  unfold lt. apply string_of_list_ascii_of_string.
Qed.

Lemma string_forall_app (p : ascii -> bool) (a b : string) :
  Req.string_forall p (a ++ b)%string
  = Req.string_forall p a && Req.string_forall p b.
Proof.
  induction a as [|c a IH]; [reflexivity|]. simpl.
  now rewrite IH, andb_assoc.
Qed.

Lemma split_comma_last (s : string) :
  Req.string_forall (fun c => negb (Ascii.eqb c ","%char)) s = true ->
  split_comma s = [s].
Proof.
  induction s as [|c s IH]; [reflexivity|]. simpl.
  rewrite andb_true_iff, negb_true_iff. intros [-> Hs].
  now rewrite (IH Hs).
Qed.

Lemma split_comma_piece (s rest : string) :
  Req.string_forall (fun c => negb (Ascii.eqb c ","%char)) s = true ->
  split_comma (s ++ String ","%char rest)%string = s :: split_comma rest.
Proof.
  induction s as [|c s IH]; [reflexivity|]. simpl.
  rewrite andb_true_iff, negb_true_iff. intros [-> Hs].
  now rewrite (IH Hs).
Qed.

Lemma split_comma_concat (l : list string) :
  l <> [] ->
  Forall (fun s => Req.string_forall (fun c => negb (Ascii.eqb c ","%char)) s
                   = true) l ->
  split_comma (String.concat "," l) = l.
Proof.
  intros Ne H. induction H as [|s l Hs Hl IH]; [congruence|].
  destruct l as [|s' l].
  - simpl. now apply split_comma_last.
  - change (String.concat "," (s :: s' :: l))
      with (s ++ String ","%char (String.concat "," (s' :: l)))%string.
    rewrite split_comma_piece by exact Hs.
    rewrite IH; [reflexivity|discriminate].
Qed.

Lemma padded_no_comma (p : nat * string * nat) :
  Req.plain_ticker (Req.core p) = true ->
  Req.string_forall (fun c => negb (Ascii.eqb c ","%char)) (Req.padded p) = true.
Proof.
  unfold Req.plain_ticker, Req.padded. rewrite andb_true_iff.
  intros [_ Hs]. rewrite !string_forall_app.
  assert (Sp : forall n,
             Req.string_forall (fun c => negb (Ascii.eqb c ","%char))
               (Req.spaces n) = true)
    by (intros n; induction n; [reflexivity|assumption]).
  rewrite !Sp, andb_true_r. cbn [andb].
  apply string_forall_list. apply string_forall_list in Hs.
  eapply Forall_impl; [|exact Hs]. intros c Hc.
  apply negb_true_iff. now apply safe_char.
Qed.

Lemma strip_pieces (l : list (nat * string * nat)) :
  Forall (fun p => Req.plain_ticker (Req.core p) = true) l ->
  map strip
    (filter (fun t => negb (String.eqb (strip t) EmptyString))
       (map Req.padded l))
  = map Req.core l.
Proof.
  induction 1 as [|p l Hp _ IH]; [reflexivity|].
  cbn [map filter]. unfold Req.padded at 1.
  rewrite (strip_padded _ _ _ Hp).
  pose proof Hp as Hp'. unfold Req.plain_ticker in Hp'.
  apply andb_true_iff in Hp'. destruct Hp' as [-> _].
  cbn [map]. unfold Req.padded at 1.
  now rewrite (strip_padded _ _ _ Hp), IH.
Qed.

Lemma ticker_list_padded (l : list (nat * string * nat)) :
  Forall (fun p => Req.plain_ticker (Req.core p) = true) l ->
  Lambda.ticker_list (String.concat "," (map Req.padded l))
  = map Req.core l.
Proof.
  intros H. unfold Lambda.ticker_list.
  destruct l as [|p l]; [reflexivity|].
  rewrite split_comma_concat.
  - now apply strip_pieces.
  - discriminate.
  - apply Forall_map. eapply Forall_impl; [|exact H].
    intros q Hq. now apply padded_no_comma.
Qed.

Lemma tickers_fold_fresh (l : list string) :
  forall d : list (string * string),
    NoDup (dict_keys d ++ map Lambda.normalize_ticker l) ->
    dict_keys
      (fold_left
         (fun d t =>
            let t := Lambda.normalize_ticker t in dict_set String.eqb d t t)
         l d)
    = dict_keys d ++ map Lambda.normalize_ticker l.
Proof.
  induction l as [|t l IH]; intros d ND.
  - simpl. now rewrite app_nil_r.
  - cbn [fold_left map]. cbn zeta.
    assert (N : ~ In (Lambda.normalize_ticker t) (dict_keys d)).
    { intros Hin. cbn [map] in ND. apply NoDup_remove_2 in ND.
      apply ND. apply in_or_app. now left. }
    rewrite (@dict_set_fresh _ _ _ string_eqb_spec' d _ _ N).
    rewrite IH; unfold dict_keys in *; rewrite map_app; cbn [map fst];
      rewrite <- app_assoc; [reflexivity|exact ND].
Qed.

(** X9.  A [tickers] parameter that lists tickers written with letters,
    digits and [_.-~], separated by commas and with any number of spaces
    around each, is read back as exactly those tickers, in order.  When their
    normalized forms are all different, the default route fetches each of
    them once, normalized, in the order of the list, and [total_tickers] is
    the length of the list. *)
Theorem X9_tickers_parameter :
  (forall l,
      Forall (fun p => Req.plain_ticker (Req.core p) = true) l ->
      Lambda.ticker_list (String.concat "," (map Req.padded l))
      = map Req.core l)
  /\ (forall (E : Lambda.env) event qp l,
         Req.routed event qp ->
         Req.on_default qp ->
         in_strs (Req.interval_of qp) Lambda.valid_intervals = true ->
         Req.qparam qp "tickers" (JStr "")
         = JStr (String.concat "," (map Req.padded l)) ->
         l <> [] ->
         Forall (fun p => Req.plain_ticker (Req.core p) = true) l ->
         NoDup (map (fun p => Lambda.normalize_ticker (Req.core p)) l) ->
         exists r b,
           Lambda.lambda_handler E event
           = Ret (r, map (fun p =>
                            Lambda.FetchCall
                              (Lambda.normalize_ticker (Req.core p))
                              (Req.interval_of qp)) l)
           /\ Lambda.body r = Lambda.JsonDumps (Lambda.BatchPayload b)
           /\ Lambda.total_tickers (Lambda.batch_summary b) = List.length l).
Proof.
  split; [exact ticker_list_padded|].
  intros E event qp l R [A1 A2] Hi Q Ne Pl ND.
  assert (Ht : Req.str_or_falsy (Req.qparam qp "tickers" (JStr "")) = true)
    by now rewrite Q.
  rewrite (handler_routed E R), A1, A2, (get_stocks_route_valid E qp Hi Ht).
  assert (K : dict_keys (Req.batch_tickers qp)
              = map (fun p => Lambda.normalize_ticker (Req.core p)) l).
  { unfold Req.batch_tickers. rewrite Q.
    destruct (String.eqb (String.concat "," (map Req.padded l)) EmptyString)
      eqn:Em.
    - exfalso. apply String.eqb_eq in Em.
      pose proof (ticker_list_padded Pl) as T. rewrite Em in T.
      destruct l; [congruence|discriminate T].
    - rewrite (ticker_list_padded Pl). unfold Lambda.tickers_of.
      rewrite tickers_fold_fresh; cbn [dict_keys map app];
        rewrite map_map; [reflexivity|exact ND]. }
  pose proof (batch_fold_spec E (Req.interval_of qp)
                (List.length (Req.batch_tickers qp))
                (Req.batch_tickers qp) (batch_tickers_nodup qp)) as S.
  unfold Lambda.batch_loop. unfold Req.batch_init in S.
  destruct (fold_left _ _ _) as [[stocks sm] calls].
  destruct S as (_ & _ & _ & _ & Tot & Hc).
  unfold Req.batch_response. rewrite Hc, K, map_map.
  eexists _, _. split; [reflexivity|]. split; [reflexivity|].
  cbn [Lambda.batch_summary]. rewrite Tot.
  rewrite <- (length_map fst). fold (dict_keys (Req.batch_tickers qp)).
  now rewrite K, length_map.
Qed.

Lemma X9_witness :
  Lambda.ticker_list "7203, 6758.T ,  9984"
  = ["7203"; "6758.T"; "9984"]
  /\ exists r b,
       Lambda.lambda_handler Req.sample_env
         (Req.get_event [("tickers", JStr "7203, 6758.T ,  9984")])
       = Ret (r, [ Lambda.FetchCall "7203.T" (JStr "1d");
                   Lambda.FetchCall "6758.T" (JStr "1d");
                   Lambda.FetchCall "9984.T" (JStr "1d") ])
       /\ Lambda.body r = Lambda.JsonDumps (Lambda.BatchPayload b)
       /\ Lambda.total_tickers (Lambda.batch_summary b) = 3.
Proof.
  split.
  - apply (proj1 X9_tickers_parameter
             [(0, "7203", 0); (1, "6758.T", 1); (2, "9984", 0)]).
    repeat constructor.
  - apply (proj2 X9_tickers_parameter Req.sample_env
             (Req.get_event [("tickers", JStr "7203, 6758.T ,  9984")])
             [("tickers", JStr "7203, 6758.T ,  9984")]
             [(0, "7203", 0); (1, "6758.T", 1); (2, "9984", 0)]).
    + apply get_event_routed.
    + split; reflexivity.
    + reflexivity.
    + reflexivity.
    + discriminate.
    + repeat constructor.
    + vm_compute. repeat constructor; simpl; intuition discriminate.
Defined.

(** ** The diagnostic headers *)




(** ** The log lines *)

Lemma valid_interval_encodable (i : json) :
  in_strs i Lambda.valid_intervals = true ->
  encodable (Logged.formatted i) = true.
Proof.
  destruct i as [| | | |s| |]; try discriminate. intros H.
  unfold in_strs in H. apply existsb_exists in H.
  destruct H as (x & Hin & Hx). cbn [eq_str] in Hx.
  apply String.eqb_eq in Hx. subst x. cbn [Logged.formatted].
  simpl in Hin.
  repeat (destruct Hin as [<-|Hin]; [vm_compute; reflexivity|]).
  destruct Hin.
Qed.

Lemma fetch_logged (E : Lambda.env) (ticker : string) (interval : json) :
  Logged.get_stock_price_yfinance_v8 E ticker interval
  = if encodable ticker then
      Ret (if encodable (Logged.formatted interval) then
             Lambda.get_stock_price_yfinance_v8 E ticker interval
           else None)
    else Raise UnicodeEncodeError.
Proof.
  unfold Logged.get_stock_price_yfinance_v8,
    Lambda.get_stock_price_yfinance_v8, try_except, print.
  cbn [forallb].
  destruct (Lambda.fetch_attempt E ticker interval) as [[sd|]|e];
    cbn [bind]; destruct (encodable ticker);
    destruct (encodable (Logged.formatted interval));
    cbn [andb bind]; try reflexivity; destruct e; reflexivity.
Qed.

Lemma search_logged (E : Lambda.env) (query : json) :
  Logged.search_ticker E query = Ret (Lambda.search_ticker E query).
Proof.
  unfold Logged.search_ticker, Lambda.search_ticker, try_except.
  now destruct (Lambda.search_attempt E query).
Qed.

Lemma batch_turns_logged (E : Lambda.env) (i : json)
    (items : list (string * string)) :
  in_strs i Lambda.valid_intervals = true ->
  forall st,
    Logged.batch_turns E i items st
    = if forallb (fun it => encodable (fst it) && encodable (snd it)) items
      then Ret (fold_left (Lambda.batch_step E i) items st)
      else Raise UnicodeEncodeError.
Proof.
  intros Hi. apply valid_interval_encodable in Hi.
  induction items as [|[t n] items IH]; intros [[stocks sm] calls];
    [reflexivity|].
  cbn [Logged.batch_turns forallb fold_left fst snd].
  unfold Logged.batch_step at 1. unfold print. cbn [forallb].
  rewrite andb_true_r.
  destruct (encodable t) eqn:Et; cbn [andb]; [|reflexivity].
  destruct (encodable n); cbn [bind]; [|reflexivity].
  rewrite fetch_logged, Et, Hi. cbn [bind].
  unfold Lambda.batch_step at 2.
  destruct (Lambda.get_stock_price_yfinance_v8 E t i); cbn [bind];
    apply IH.
Qed.

Lemma names_encodable (tk : list (string * string)) :
  Forall (fun kv => snd kv = fst kv) tk \/ tk = Lambda.TICKERS ->
  forallb (fun it => encodable (fst it) && encodable (snd it)) tk
  = forallb encodable (dict_keys tk).
Proof.
  intros [H| ->]; [|vm_compute; reflexivity].
  induction H as [|[k v] tk Hk _ IH]; [reflexivity|].
  cbn [forallb dict_keys map fst snd] in *. rewrite IH. subst v.
  now destruct (encodable k).
Qed.

Lemma forallb_filter_true {A : Type} (p q : A -> bool) (l : list A) :
  forallb p l = true -> forallb p (filter q l) = true.
Proof.
  induction l as [|x l IH]; [reflexivity|]. simpl.
  intros H. apply andb_true_iff in H. destruct H as [Hx Hl].
  destruct (q x); simpl; [rewrite Hx|]; now apply IH.
Qed.

Lemma get_stocks_route_logged (E : Lambda.env) (q : json) :
  Logged.get_stocks_route E q
  = match Lambda.get_stocks_route E q with
    | Raise e => Raise e
    | Ret (r, calls) =>
        if forallb Req.call_encodable calls then Ret (r, calls)
        else Raise UnicodeEncodeError
    end.
Proof.
  unfold Logged.get_stocks_route, Lambda.get_stocks_route.
  destruct (py_get q "tickers" (JStr "")) as [t|]; cbn [bind];
    [|reflexivity].
  destruct (py_get q "interval" (JStr "1d")) as [i|]; cbn [bind];
    [|reflexivity].
  destruct (negb (in_strs i Lambda.valid_intervals)) eqn:I; [reflexivity|].
  apply negb_false_iff in I.
  match goal with
  | |- bind ?x _ = _ => destruct x as [tk|] eqn:T; cbn [bind]; [|reflexivity]
  end.
  assert (Hn : forallb (fun it => encodable (fst it) && encodable (snd it)) tk
               = forallb encodable (dict_keys tk)).
  { apply names_encodable.
    destruct (truthy t); [|injection T as <-; now right].
    destruct t as [| | | |s| |]; try discriminate T. injection T as <-.
    left. exact (proj2 (proj2 (tickers_of_keys (Lambda.ticker_list s)))). }
  destruct (tickers_suffix _ T) as [ND _].
  pose proof (batch_fold_spec E i (List.length tk) tk ND) as S.
  unfold Logged.batch_loop, Lambda.batch_loop.
  rewrite (@batch_turns_logged E i tk I), Hn. unfold Req.batch_init in S.
  destruct (fold_left _ _ _) as [[stocks sm] calls].
  destruct S as (_ & _ & Hf & _ & _ & Hc).
  assert (Hcalls : forallb Req.call_encodable calls
                   = forallb encodable (dict_keys tk)).
  { rewrite Hc. clear. induction (dict_keys tk) as [|k l IH]; [reflexivity|].
    cbn [map forallb Req.call_encodable]. now rewrite IH. }
  rewrite Hcalls.
  destruct (forallb encodable (dict_keys tk)) eqn:En; cbn [bind];
    [|reflexivity].
  assert (Pf : match Lambda.failed_tickers sm with
               | [] => Ret tt
               | _ => print (Lambda.failed_tickers sm)
               end = Ret tt).
  { assert (Ef : forallb encodable (Lambda.failed_tickers sm) = true)
      by (rewrite Hf; exact (@forallb_filter_true _ encodable _ _ En)).
    destruct (Lambda.failed_tickers sm) as [|x l]; [reflexivity|].
    unfold print. now rewrite Ef. }
  rewrite Pf. reflexivity.
Qed.

Lemma get_stock_route_logged (E : Lambda.env) (q : json) :
  Logged.get_stock_route E q
  = match Lambda.get_stock_route E q with
    | Raise e => Raise e
    | Ret (r, calls) =>
        if forallb Req.call_encodable calls then Ret (r, calls)
        else Raise UnicodeEncodeError
    end.
Proof.
  unfold Logged.get_stock_route, Lambda.get_stock_route.
  destruct (py_get q "ticker" (JStr "")) as [t|]; cbn [bind];
    [|reflexivity].
  destruct (py_get q "interval" (JStr "1d")) as [i|]; cbn [bind];
    [|reflexivity].
  destruct (negb (in_strs i Lambda.valid_intervals)) eqn:I; [reflexivity|].
  apply negb_false_iff in I.
  destruct (negb (truthy t)); [reflexivity|].
  destruct t as [| | | |s| |]; try reflexivity.
  rewrite fetch_logged, (@valid_interval_encodable i I).
  destruct (Lambda.get_stock_price_yfinance_v8 E _ i);
    cbn [forallb Req.call_encodable]; rewrite andb_true_r;
    destruct (encodable (Lambda.normalize_ticker s)); reflexivity.
Qed.

Lemma search_route_logged (E : Lambda.env) (q : json) :
  Logged.search_route E q
  = match Lambda.search_route E q with
    | Raise e => Raise e
    | Ret (r, calls) =>
        if forallb Req.call_encodable calls then Ret (r, calls)
        else Raise UnicodeEncodeError
    end.
Proof.
  unfold Logged.search_route, Lambda.search_route.
  destruct (py_get q "q" (JStr "")) as [sq|]; cbn [bind]; [|reflexivity].
  destruct (negb (truthy sq)); [reflexivity|].
  now rewrite search_logged.
Qed.

Lemma handler_logged (E : Lambda.env) (event : json) :
  Logged.lambda_handler E event
  = match Lambda.lambda_handler E event with
    | Raise e => Raise e
    | Ret (r, calls) =>
        if forallb Req.call_encodable calls then Ret (r, calls)
        else Raise UnicodeEncodeError
    end.
Proof.
  unfold Logged.lambda_handler, Lambda.lambda_handler.
  change (print []) with (Ret (A:=unit) tt). cbn [bind].
  destruct (Lambda.http_method_of event) as [m|]; cbn [bind];
    [|reflexivity].
  destruct (eq_str m "OPTIONS"); [reflexivity|].
  destruct (Lambda.query_params_of event) as [q|]; cbn [bind];
    [|reflexivity].
  destruct (py_get q "action" (JStr "get_stocks")) as [a|]; cbn [bind];
    [|reflexivity].
  destruct (eq_str a "search"); [apply search_route_logged|].
  destruct (eq_str a "get_stock");
    [apply get_stock_route_logged|apply get_stocks_route_logged].
Qed.

(** C6.  The Quote Fetcher lets [UnicodeEncodeError] out whenever its ticker
    cannot be encoded, whatever the upstream outcome: every way through the
    body of its [try] logs a line that names the ticker, the exception of
    that [print] is caught by [except Exception], and the [print] of the
    [except] clause, which names the ticker again, is outside any [try].  So
    it does on the ticker ["\ud800.T"].  With a ticker that can be encoded it
    never raises, and it returns [None] whenever the fetch without its log
    lines does.  The Ticker Search, whose log line formats no input, never
    raises. *)
Theorem C6_fetcher_raises :
  (forall (E : Lambda.env) ticker interval,
      encodable ticker = false ->
      Logged.get_stock_price_yfinance_v8 E ticker interval
      = Raise UnicodeEncodeError)
  /\ Logged.get_stock_price_yfinance_v8 Req.sample_env
       (Req.lone_surrogate ++ ".T") (JStr "1d")
     = Raise UnicodeEncodeError
  /\ (forall (E : Lambda.env) ticker interval,
         encodable ticker = true ->
         exists r,
           Logged.get_stock_price_yfinance_v8 E ticker interval = Ret r
           /\ (Lambda.get_stock_price_yfinance_v8 E ticker interval = None ->
               r = None)
           /\ (in_strs interval Lambda.valid_intervals = true ->
               r = Lambda.get_stock_price_yfinance_v8 E ticker interval))
  /\ (forall (E : Lambda.env) query,
         Logged.search_ticker E query = Ret (Lambda.search_ticker E query)).
Proof.
  split; [|split; [|split]].
  - intros E ticker interval H. now rewrite fetch_logged, H.
  - rewrite fetch_logged. reflexivity.
  - intros E ticker interval H. rewrite fetch_logged, H.
    eexists. split; [reflexivity|]. split.
    + intros ->. now destruct (encodable (Logged.formatted interval)).
    + intros I. now rewrite (@valid_interval_encodable interval I).
  - exact search_logged.
Qed.

Lemma C6_witness :
  Logged.get_stock_price_yfinance_v8
    (Req.world_of
       (Req.chart_document (JObj []) Req.sample_timestamps
          Req.sample_closes))
    (Req.lone_surrogate ++ ".T") (JStr "1d")
  = Raise UnicodeEncodeError
  /\ exists r,
       Logged.get_stock_price_yfinance_v8 Req.sample_env "9999.T" (JStr "1d")
       = Ret r
       /\ r = None.
Proof.
  destruct C6_fetcher_raises as (Hbad & _ & Hok & _). split.
  - apply Hbad. reflexivity.
  - destruct (Hok Req.sample_env "9999.T" (JStr "1d") eq_refl)
      as (r & Hr & Hn & _).
    exists r. split; [exact Hr|]. apply Hn. reflexivity.
Defined.

(** X3.  With every log line in its place, the handler answers as it does
    without them, except that it lets [UnicodeEncodeError] out when a ticker
    it fetches cannot be encoded.  So it lets out two exceptions only,
    [AttributeError] and [UnicodeEncodeError]; it returns a response whenever
    the request is routed, the [ticker] and [tickers] parameters are strings
    or falsy, and the tickers they ask for can be encoded; and on the
    single-ticker route and on the default route, with an accepted interval,
    a ticker that cannot be encoded makes it raise. *)
Theorem X3_handler_exceptions :
  (forall (E : Lambda.env) event,
      Logged.lambda_handler E event
      = match Lambda.lambda_handler E event with
        | Raise e => Raise e
        | Ret (r, calls) =>
            if forallb Req.call_encodable calls then Ret (r, calls)
            else Raise UnicodeEncodeError
        end)
  /\ (forall (E : Lambda.env) event e,
         Logged.lambda_handler E event = Raise e ->
         e = AttributeError \/ e = UnicodeEncodeError)
  /\ (forall (E : Lambda.env) event qp,
         Req.routed event qp ->
         Req.str_or_falsy (Req.qparam qp "ticker" (JStr "")) = true ->
         Req.str_or_falsy (Req.qparam qp "tickers" (JStr "")) = true ->
         Req.tickers_encodable qp ->
         exists r calls,
           Logged.lambda_handler E event = Ret (r, calls)
           /\ Lambda.lambda_handler E event = Ret (r, calls))
  /\ (forall (E : Lambda.env) event qp t,
         Req.routed event qp ->
         Req.on_get_stock qp ->
         in_strs (Req.interval_of qp) Lambda.valid_intervals = true ->
         Req.qparam qp "ticker" (JStr "") = JStr t ->
         t <> EmptyString ->
         encodable (Lambda.normalize_ticker t) = false ->
         Logged.lambda_handler E event = Raise UnicodeEncodeError)
  /\ (forall (E : Lambda.env) event qp,
         Req.routed event qp ->
         Req.on_default qp ->
         in_strs (Req.interval_of qp) Lambda.valid_intervals = true ->
         Req.str_or_falsy (Req.qparam qp "tickers" (JStr "")) = true ->
         forallb encodable (dict_keys (Req.batch_tickers qp)) = false ->
         Logged.lambda_handler E event = Raise UnicodeEncodeError).
Proof.
  assert (Batch : forall (E : Lambda.env) qp,
             in_strs (Req.interval_of qp) Lambda.valid_intervals = true ->
             Req.str_or_falsy (Req.qparam qp "tickers" (JStr "")) = true ->
             exists r calls,
               Lambda.get_stocks_route E (JObj qp) = Ret (r, calls)
               /\ forallb Req.call_encodable calls
                  = forallb encodable (dict_keys (Req.batch_tickers qp))).
  { intros E qp I T. rewrite (get_stocks_route_valid E qp I T).
    pose proof (batch_fold_spec E (Req.interval_of qp)
                  (List.length (Req.batch_tickers qp))
                  (Req.batch_tickers qp) (batch_tickers_nodup qp)) as S.
    unfold Lambda.batch_loop. unfold Req.batch_init in S.
    destruct (fold_left _ _ _) as [[stocks sm] calls].
    destruct S as (_ & _ & _ & _ & _ & Hc).
    unfold Req.batch_response. eexists _, _. split; [reflexivity|].
    rewrite Hc. clear.
    induction (dict_keys (Req.batch_tickers qp)) as [|k l IH];
      [reflexivity|].
    cbn [map forallb Req.call_encodable]. now rewrite IH. }
  split; [exact handler_logged|]. split; [|split; [|split]].
  - intros E event e H. rewrite handler_logged in H.
    destruct (Lambda.lambda_handler E event) as [[r calls]|e'] eqn:L.
    + destruct (forallb Req.call_encodable calls); [discriminate|].
      injection H as <-. now right.
    + injection H as <-. left.
      exact (proj1 core_handler_exceptions E event e' L).
  - intros E event qp R T1 T2 [En1 En2].
    rewrite handler_logged, (handler_routed E R).
    destruct (eq_str (Req.action_of qp) "search").
    { unfold Lambda.search_route. rewrite py_get_obj. cbn [bind].
      destruct (negb (truthy _)); now eexists _, _. }
    destruct (eq_str (Req.action_of qp) "get_stock").
    + unfold Lambda.get_stock_route. rewrite !py_get_obj. cbn [bind].
      destruct (negb (in_strs _ _)); [now eexists _, _|].
      destruct (Req.qparam qp "ticker" (JStr "")) as [| |z|f|s|l|kv] eqn:Q;
        cbn [Req.str_or_falsy] in T1;
        try (rewrite T1; now eexists _, _).
      destruct (negb (truthy (JStr s))); [now eexists _, _|].
      specialize (En1 s eq_refl).
      destruct (Lambda.get_stock_price_yfinance_v8 E _ _);
        cbn [forallb Req.call_encodable]; rewrite En1;
        now eexists _, _.
    + destruct (in_strs (Req.interval_of qp) Lambda.valid_intervals) eqn:I.
      * destruct (Batch E qp I T2) as (r & calls & -> & ->).
        rewrite En2. now exists r, calls.
      * rewrite (get_stocks_route_invalid E qp I). now eexists _, _.
  - intros E event qp t R [A1 A2] I Q Ne En.
    rewrite handler_logged, (handler_routed E R), A1, A2.
    destruct (@get_stock_route_valid E qp t I Q Ne) as (r & -> & _).
    cbn [forallb Req.call_encodable]. now rewrite En.
  - intros E event qp R [A1 A2] I T En.
    rewrite handler_logged, (handler_routed E R), A1, A2.
    destruct (Batch E qp I T) as (r & calls & -> & ->). now rewrite En.
Qed.

Lemma X3_witness :
  Logged.lambda_handler Req.sample_env
    (Req.get_event
       [("action", JStr "get_stock"); ("ticker", JStr Req.lone_surrogate)])
  = Raise UnicodeEncodeError
  /\ Logged.lambda_handler Req.sample_env
       (Req.get_event [("tickers", JStr ("7203," ++ Req.lone_surrogate))])
     = Raise UnicodeEncodeError
  /\ exists r calls,
       Logged.lambda_handler Req.sample_env
         (Req.get_event [("action", JStr "get_stock"); ("ticker", JStr "7203")])
       = Ret (r, calls)
       /\ Lambda.lambda_handler Req.sample_env
            (Req.get_event
               [("action", JStr "get_stock"); ("ticker", JStr "7203")])
          = Ret (r, calls).
Proof.
  destruct X3_handler_exceptions as (_ & _ & Hok & Hone & Hmany).
  split; [|split].
  - apply (Hone Req.sample_env _
             [("action", JStr "get_stock");
              ("ticker", JStr Req.lone_surrogate)] Req.lone_surrogate).
    + apply get_event_routed.
    + split; reflexivity.
    + reflexivity.
    + reflexivity.
    + discriminate.
    + reflexivity.
  - apply (Hmany Req.sample_env _
             [("tickers", JStr ("7203," ++ Req.lone_surrogate))]).
    + apply get_event_routed.
    + split; reflexivity.
    + reflexivity.
    + reflexivity.
    + reflexivity.
  - apply (Hok Req.sample_env _
             [("action", JStr "get_stock"); ("ticker", JStr "7203")]).
    + apply get_event_routed.
    + reflexivity.
    + reflexivity.
    + split; [|reflexivity].
      intros t [= <-]. reflexivity.
Defined.
